(** * data_cleaner: the quality assessor and the cleaning engine

    A shallow embedding of [assess_data_quality], [clean_data] and
    [load_file] of [src/data_cleaner.py], together with the pandas
    operations they call, and the properties of the specification proved (or
    refuted) on it.

    Modelling conventions.
    - A frame is the ordered list of its columns.  A column carries its
      name and a typed buffer; the dtype is the constructor of the buffer,
      so an [int64] or [bool] column cannot hold a missing value, exactly
      as in pandas.  The row count is the common length of the buffers; a
      frame without columns has no rows.
    - A [float64] is the rational number it denotes and NaN is the missing
      marker [None].  The arithmetic of the floats rounds, so it is not
      computed here: subtraction, addition and multiplication of floats
      and the column statistics built on them ([mean], [median],
      [quantile], [std]) are operations of the library [pd], a parameter
      of the development about which nothing is assumed.  Comparisons are
      exact, and so is everything that only moves values around.  A column
      holds finite floats and NaN; infinities are outside the model.
    - Frames live in a store and are handled through references, because
      [clean_data] both rebinds its local [df] to fresh frames
      ([drop_duplicates], boolean indexing) and writes through it
      ([fillna(..., inplace=True)], [df[col] = ...]).  The in-place
      [fillna] on [df[col]] writes through to the frame, which is what the
      source relies on when it recounts the missing values afterwards.
    - [pd.to_datetime] is an operation of the library as well.  It parses
      a value in the context of its column, since pandas 2.x infers one
      format for the whole column from its first value.  The file readers
      behind [load_file] and [str.lower] are parameters too.
    - The examples run on [exact_pandas], the library in exact arithmetic
      with a small date parser; it agrees with pandas on the tables of the
      examples, where no float operation rounds. *)

From Stdlib Require Import QArith Qround Ascii.
From stdpp Require Import base option list strings gmap.

Local Open Scope nat_scope.

(** ** Data model *)

Inductive dtype := Int64 | Float64 | Object | Datetime64 | Boolean.

Inductive coldata :=
  | IntCol (l : list Z)
  | FloatCol (l : list (option Q))
  | ObjectCol (l : list (option string))
  | DatetimeCol (l : list (option Z))
  | BoolCol (l : list bool).

Record Series := mkSeries { name : string; data : coldata }.

Abbreviation DataFrame := (list Series).

(** The frames a program holds, by reference. *)
Abbreviation store := (list (list Series)).

Inductive value :=
  | VInt (z : Z)
  | VFloat (q : Q)
  | VStr (s : string)
  | VDate (t : Z)
  | VBool (b : bool).

(** A cell of a row: [None] is the missing marker (NaN, None, NaT). *)
Abbreviation cell := (option value).
Abbreviation row := (list (option value)).

Definition dtype_of (c : coldata) : dtype :=
  match c with
  | IntCol _ => Int64
  | FloatCol _ => Float64
  | ObjectCol _ => Object
  | DatetimeCol _ => Datetime64
  | BoolCol _ => Boolean
  end.

Definition cells (c : coldata) : list cell :=
  match c with
  | IntCol l => map (fun z => Some (VInt z)) l
  | FloatCol l => map (fun o => VFloat <$> o) l
  | ObjectCol l => map (fun o => VStr <$> o) l
  | DatetimeCol l => map (fun o => VDate <$> o) l
  | BoolCol l => map (fun b => Some (VBool b)) l
  end.

Definition col_length (c : coldata) : nat :=
  match c with
  | IntCol l => length l
  | FloatCol l => length l
  | ObjectCol l => length l
  | DatetimeCol l => length l
  | BoolCol l => length l
  end.

(** [df.columns], [len(df)], [df.shape], [df.dtypes] *)
Definition column_names (df : DataFrame) : list string := map name df.

Definition nrows (df : DataFrame) : nat :=
  match df with
  | [] => 0
  | s :: _ => col_length (data s)
  end.

Definition ncols (df : DataFrame) : nat := length df.

Definition shape (df : DataFrame) : nat * nat := (nrows df, ncols df).

Definition dtypes (df : DataFrame) : list (string * dtype) :=
  map (fun s => (name s, dtype_of (data s))) df.

(** [df[col]]: the column of that name. *)
Fixpoint get_col (df : DataFrame) (col : string) : option coldata :=
  match df with
  | [] => None
  | s :: df' => if String.eqb (name s) col then Some (data s) else get_col df' col
  end.

(** [df[col] = c] on an existing column (also what an in-place [fillna] on
    [df[col]] writes back through the item cache). *)
Fixpoint set_col (df : DataFrame) (col : string) (c : coldata) : DataFrame :=
  match df with
  | [] => []
  | s :: df' =>
      if String.eqb (name s) col then mkSeries (name s) c :: df'
      else s :: set_col df' col c
  end.

(** A frame as pandas builds it has row-aligned columns. *)
Definition aligned (df : DataFrame) : Prop :=
  Forall (fun s => col_length (data s) = nrows df) df.

(** ** Rows *)

Definition head_cell (l : list cell) : cell :=
  match l with
  | [] => None
  | x :: _ => x
  end.

Fixpoint transpose (n : nat) (cols : list (list cell)) : list row :=
  match n with
  | 0 => []
  | S n' => map head_cell cols :: transpose n' (map (@tail cell) cols)
  end.

Definition rows (df : DataFrame) : list row :=
  transpose (nrows df) (map (fun s => cells (data s)) df).

(** Equality of values as the duplicate detection sees it: numbers by
    value, and a missing cell equal to a missing cell. *)
Definition value_eqb (v w : value) : bool :=
  match v, w with
  | VInt a, VInt b => Z.eqb a b
  | VFloat a, VFloat b => Qeq_bool a b
  | VStr a, VStr b => String.eqb a b
  | VDate a, VDate b => Z.eqb a b
  | VBool a, VBool b => Bool.eqb a b
  | _, _ => false
  end.

Definition cell_eqb (c d : cell) : bool :=
  match c, d with
  | None, None => true
  | Some v, Some w => value_eqb v w
  | _, _ => false
  end.

Fixpoint row_eqb (r s : row) : bool :=
  match r, s with
  | [], [] => true
  | c :: r', d :: s' => cell_eqb c d && row_eqb r' s'
  | _, _ => false
  end.

(** ** Boolean indexing *)

Fixpoint filter_mask {A : Type} (mask : list bool) (l : list A) : list A :=
  match mask, l with
  | b :: m, x :: l' => if b then x :: filter_mask m l' else filter_mask m l'
  | _, _ => []
  end.

Definition filter_col (mask : list bool) (c : coldata) : coldata :=
  match c with
  | IntCol l => IntCol (filter_mask mask l)
  | FloatCol l => FloatCol (filter_mask mask l)
  | ObjectCol l => ObjectCol (filter_mask mask l)
  | DatetimeCol l => DatetimeCol (filter_mask mask l)
  | BoolCol l => BoolCol (filter_mask mask l)
  end.

(** [df[mask]] *)
Definition filter_rows (mask : list bool) (df : DataFrame) : DataFrame :=
  map (fun s => mkSeries (name s) (filter_col mask (data s))) df.

Definition count_true (mask : list bool) : nat :=
  length (List.filter (fun b => b) mask).

(** ** Missing values *)

Definition count_missing {A : Type} (l : list (option A)) : nat :=
  length (List.filter (fun o => negb (bool_decide (is_Some o))) l).

(** [s.isnull().sum()] *)
Definition isnull_sum (c : coldata) : nat :=
  match c with
  | IntCol _ => 0
  | FloatCol l => count_missing l
  | ObjectCol l => count_missing l
  | DatetimeCol l => count_missing l
  | BoolCol _ => 0
  end.

(** [df.isnull().sum()] and its [.to_dict()] *)
Definition missing_by_column (df : DataFrame) : list (string * nat) :=
  map (fun s => (name s, isnull_sum (data s))) df.

(** [df.isnull().sum().sum()] *)
Definition total_missing (df : DataFrame) : nat :=
  foldr Nat.add 0 (map (fun s => isnull_sum (data s)) df).

(** ** Duplicated rows *)

Section Duplicates.
Context {A : Type} (eqb : A -> A -> bool).

(** The [keep='first'] mask: an element is flagged when an equal element
    has been seen before it. *)
Fixpoint duplicated_from (seen : list A) (l : list A) : list bool :=
  match l with
  | [] => []
  | x :: l' => existsb (eqb x) seen :: duplicated_from (x :: seen) l'
  end.

Definition duplicated_mask (l : list A) : list bool := duplicated_from [] l.
End Duplicates.

(** [df.duplicated()] *)
Definition duplicated (df : DataFrame) : list bool :=
  duplicated_mask row_eqb (rows df).

(** [df.duplicated().sum()] *)
Definition duplicated_sum (df : DataFrame) : nat := count_true (duplicated df).

(** [df.drop_duplicates()]: [df[-df.duplicated()]] *)
Definition drop_duplicates (df : DataFrame) : DataFrame :=
  filter_rows (map negb (duplicated df)) df.

(** ** Column statistics *)

Definition dropna {A : Type} (l : list (option A)) : list A := omap id l.

Section Sorting.
Context {A : Type} (leb : A -> A -> bool).

Fixpoint insert_sorted (x : A) (l : list A) : list A :=
  match l with
  | [] => [x]
  | y :: l' => if leb x y then x :: l else y :: insert_sorted x l'
  end.

Definition sort (l : list A) : list A := foldr insert_sorted [] l.
End Sorting.

Section Mode.
Context {A : Type} (eqb leb : A -> A -> bool).

Definition occurrences (x : A) (l : list A) : nat :=
  length (List.filter (eqb x) l).

Fixpoint distinct (l : list A) : list A :=
  match l with
  | [] => []
  | x :: l' => x :: List.filter (fun y => negb (eqb x y)) (distinct l')
  end.

(** [s.mode()] on the present values: the most frequent ones, sorted. *)
Definition modes (l : list A) : list A :=
  let top := foldr Nat.max 0 (map (fun x => occurrences x l) l) in
  sort leb (List.filter (fun x => occurrences x l =? top) (distinct l)).
End Mode.

(** The statistics in exact arithmetic.  They are what the library
    computes whenever no operation rounds, and serve for the examples. *)
Definition Qsum (l : list Q) : Q := foldr Qplus 0%Q l.

Definition Qnat (n : nat) : Q := inject_Z (Z.of_nat n).

(** [s.mean()], NaN on a column without present values *)
Definition exact_mean (l : list (option Q)) : option Q :=
  match dropna l with
  | [] => None
  | vs => Some (Qred (Qsum vs / Qnat (length vs)))
  end.

(** [s.median()] *)
Definition exact_median (l : list (option Q)) : option Q :=
  let vs := sort Qle_bool (dropna l) in
  let n := length vs in
  match vs with
  | [] => None
  | _ =>
      if Nat.even n
      then Some (Qred ((nth (n / 2 - 1) vs 0 + nth (n / 2) vs 0) / 2))
      else Some (Qred (nth (n / 2) vs 0))
  end%Q.

(** [s.quantile(q)], linear interpolation between order statistics *)
Definition exact_quantile (q : Q) (l : list (option Q)) : option Q :=
  let vs := sort Qle_bool (dropna l) in
  let n := length vs in
  match vs with
  | [] => None
  | _ =>
      let h := (Qnat (n - 1) * q)%Q in
      let lo := Z.to_nat (Qfloor h) in
      let a := nth lo vs 0%Q in
      let b := nth (Nat.min (S lo) (n - 1)) vs 0%Q in
      Some (Qred (a + (h - inject_Z (Qfloor h)) * (b - a)))
  end%Q.

(** Sample variance (denominator n-1); [s.std()] is its square root. *)
Definition exact_variance (l : list (option Q)) : option Q :=
  let vs := dropna l in
  match exact_mean l with
  | Some m =>
      if length vs <=? 1 then None
      else Some (Qred (Qsum (map (fun x => (x - m) * (x - m)) vs)
                       / Qnat (length vs - 1)))
  | None => None
  end%Q.

Definition is_number (d : dtype) : bool :=
  match d with
  | Int64 | Float64 => true
  | _ => false
  end.

(** [df.select_dtypes(include=['number'])] *)
Definition select_dtypes_number (df : DataFrame) : DataFrame :=
  List.filter (fun s => is_number (dtype_of (data s))) df.

(** [df.empty]: some axis has length 0. *)
Definition empty (df : DataFrame) : bool :=
  (ncols df =? 0) || (nrows df =? 0).

(** ** The library

    What the source leaves to pandas and this development does not
    compute: the date parser and the float arithmetic. *)

Record Pandas := mkPandas {
  (** [pd.to_datetime] on one value of a column, the column being the
      first argument: [None] when the value does not parse (ValueError),
      [Some None] when it parses to NaT, [Some (Some t)] for a timestamp. *)
  parse_value : list (option string) -> string -> option (option Z);
  (** [s.mean()], [s.median()], the square of [s.std()], [s.quantile(q)];
      [None] is NaN. *)
  series_mean : list (option Q) -> option Q;
  series_median : list (option Q) -> option Q;
  series_var : list (option Q) -> option Q;
  series_quantile : Q -> list (option Q) -> option Q;
  (** [x - y], [x + y] and [x * y] on floats, and the float an [int64]
      is converted to. *)
  float_sub : Q -> Q -> Q;
  float_add : Q -> Q -> Q;
  float_mul : Q -> Q -> Q;
  float_of_int : Z -> Q
}.

Section Pandas.
Variable pd : Pandas.

Local Abbreviation parse_datetime := (parse_value pd).
Local Abbreviation mean := (series_mean pd).
Local Abbreviation median := (series_median pd).
Local Abbreviation variance := (series_var pd).
Local Abbreviation quantile := (series_quantile pd).

(** The values of a numeric column as floats, which is how the statistics
    and the comparisons with a float read an [int64] column. *)
Definition num_values (c : coldata) : list (option Q) :=
  match c with
  | IntCol l => map (fun z => Some (float_of_int pd z)) l
  | FloatCol l => l
  | _ => []
  end.

(** ** Quality assessor *)

Record describe_row := mkDescribe {
  d_count : nat;
  d_mean : option Q;
  d_var : option Q;
  d_min : option Q;
  d_q25 : option Q;
  d_q50 : option Q;
  d_q75 : option Q;
  d_max : option Q
}.

(** The columns [describe] reports by default: the numeric ones and, in
    pandas 2.x, the datetime ones. *)
Definition is_described (d : dtype) : bool :=
  match d with
  | Int64 | Float64 | Datetime64 => true
  | _ => false
  end.

(** The values it summarises: the numbers of a numeric column, the
    timestamps of a datetime column. *)
Definition described_values (c : coldata) : list (option Q) :=
  match c with
  | DatetimeCol l => map (fun o => inject_Z <$> o) l
  | _ => num_values c
  end.

(** A datetime column has no standard deviation: its [std] entry is NaN. *)
Definition describe_col (c : coldata) : describe_row :=
  let l := described_values c in
  let vs := sort Qle_bool (dropna l) in
  {| d_count := length vs;
     d_mean := mean l;
     d_var := match c with
              | DatetimeCol _ => None
              | _ => variance l
              end;
     d_min := head vs;
     d_q25 := quantile (1 # 4) l;
     d_q50 := quantile (1 # 2) l;
     d_q75 := quantile (3 # 4) l;
     d_max := last vs |}.

(** [df.describe().to_dict()] when the frame has numeric columns *)
Definition describe (df : DataFrame) : list (string * describe_row) :=
  map (fun s => (name s, describe_col (data s)))
      (List.filter (fun s => is_described (dtype_of (data s))) df).

Inductive numeric_stats :=
  | Described (stats : list (string * describe_row))
  | NoNumericColumns.

Record Quality := mkQuality {
  total_rows : nat;
  total_columns : nat;
  missing_values : list (string * nat);
  duplicate_rows : nat;
  data_types : list (string * dtype);
  numeric_stats_of : numeric_stats
}.

Definition assess_data_quality (df : DataFrame) : Quality :=
  {| total_rows := nrows df;
     total_columns := ncols df;
     missing_values := missing_by_column df;
     duplicate_rows := duplicated_sum df;
     data_types := dtypes df;
     numeric_stats_of :=
       if negb (empty (select_dtypes_number df))
       then Described (describe df)
       else NoNumericColumns |}.

(** ** Cleaning engine *)

Inductive FillMethod := Mean | Median | Mode.

(** One constructor per f-string appended to [changes], carrying the
    values the string interpolates. *)
Inductive change :=
  | RemovedDuplicates (n : nat)
  | FilledMissing (n : nat) (col : string) (fill_method : option FillMethod)
  | ConvertedToDatetime (col : string)
  | RemovedOutliers (n : nat) (outlier_threshold : Q)
  | ShapeChanged (original final : nat * nat)
  | MissingReduced (original final : nat).

(** [operations.get(key, False)] *)
Definition get_op (operations : gmap string bool) (key : string) : bool :=
  default false (operations !! key).

(** *** Filling *)

(** [s.fillna(v, inplace=True)] for a present [v]. *)
Definition fillna {A : Type} (v : A) (l : list (option A)) : list (option A) :=
  map (fun o => Some (default v o)) l.

(** [s.fillna(v)] where [v] may be NaN: filling with NaN changes nothing. *)
Definition fillna_num (v : option Q) (c : coldata) : coldata :=
  match c, v with
  | FloatCol l, Some x => FloatCol (fillna x l)
  | _, _ => c
  end.

(** [s.mode()[0] if not s.mode().empty else fallback] *)
Definition mode_or {A : Type} (eqb leb : A -> A -> bool) (fallback : A)
    (l : list (option A)) : A :=
  match modes eqb leb (dropna l) with
  | m :: _ => m
  | [] => fallback
  end.

(** The [else] branch of the fill loop: the mode, or the string 'Unknown'.
    A datetime column without a single present value is filled with the
    string and becomes an object column. *)
Definition fillna_mode_or_unknown (c : coldata) : coldata :=
  match c with
  | ObjectCol l => ObjectCol (fillna (mode_or String.eqb String.leb "Unknown" l) l)
  | DatetimeCol l =>
      match modes Z.eqb Z.leb (dropna l) with
      | m :: _ => DatetimeCol (fillna m l)
      | [] =>
          if 0 <? count_missing l
          then ObjectCol (map (fun _ => Some "Unknown") l)
          else c
      end
  | _ => c
  end.

Definition fill_series (fill_method : option FillMethod) (c : coldata) : coldata :=
  if is_number (dtype_of c) then
    match fill_method with
    | Some Mean => fillna_num (mean (num_values c)) c
    | Some Median => fillna_num (median (num_values c)) c
    | Some Mode => fillna_num (Some (mode_or Qeq_bool Qle_bool 0%Q (num_values c))) c
    | None => c
    end
  else fillna_mode_or_unknown c.

(** *** The store *)

(** Frames are addressed by their position in the store; a reference that
    was never allocated reads as the frame without columns. *)
Definition deref (h : store) (r : nat) : DataFrame := default [] (h !! r).

Definition alloc (h : store) (df : DataFrame) : store * nat :=
  (h ++ [df], length h).

(** [df[col]] as a value.  [col] always ranges over the frame's own
    columns, so the default is never returned. *)
Definition column (d : DataFrame) (col : string) : coldata :=
  default (ObjectCol []) (get_col d col).

(** [df[col]] read through a reference. *)
Definition series (h : store) (df : nat) (col : string) : coldata :=
  column (deref h df) col.

(** Writing a column of the frame behind a reference, in place. *)
Definition write_col (h : store) (df : nat) (col : string) (c : coldata) : store :=
  <[df := set_col (deref h df) col c]> h.

(** Body of the fill loop, lines 34-46. *)
Definition fill_missing_col (df : nat) (fill_method : option FillMethod)
    (st : store * list change) (col : string) : store * list change :=
  let '(h, changes) := st in
  let missing_before := isnull_sum (series h df col) in
  let h := write_col h df col (fill_series fill_method (series h df col)) in
  let missing_after := isnull_sum (series h df col) in
  if missing_after <? missing_before
  then (h, changes ++ [FilledMissing (missing_before - missing_after) col fill_method])
  else (h, changes).

(** *** Date conversion *)

(** One value of the column [l] under [pd.to_datetime(l)]: a missing value
    becomes NaT, a present one is parsed in the context of the column. *)
Definition to_datetime_scalar (l : list (option string)) (o : option string)
    : option (option Z) :=
  match o with
  | None => Some None
  | Some s => parse_datetime l s
  end.

(** [pd.to_datetime(s)] with its default [errors='raise']: [None] stands
    for the exception, raised as soon as one value does not parse. *)
Definition to_datetime (l : list (option string)) : option (list (option Z)) :=
  mapM (to_datetime_scalar l) l.

(** Body of the conversion loop, lines 50-55. *)
Definition convert_dates_col (df : nat) (st : store * list change)
    (col : string) : store * list change :=
  let '(h, changes) := st in
  match series h df col with
  | ObjectCol l =>
      match to_datetime l with
      | Some ts =>
          (write_col h df col (DatetimeCol ts),
           changes ++ [ConvertedToDatetime col])
      | None => st
      end
  | _ => st
  end.

(** *** Outliers *)

(** Float arithmetic and comparisons with NaN: NaN propagates through the
    arithmetic and every comparison with NaN is false. *)
Definition nan_sub (a b : option Q) : option Q :=
  match a, b with
  | Some x, Some y => Some (float_sub pd x y)
  | _, _ => None
  end.

Definition nan_add (a b : option Q) : option Q :=
  match a, b with
  | Some x, Some y => Some (float_add pd x y)
  | _, _ => None
  end.

Definition nan_scale (k : Q) (a : option Q) : option Q :=
  match a with
  | Some x => Some (float_mul pd k x)
  | None => None
  end.

Definition nan_le (a b : option Q) : bool :=
  match a, b with
  | Some x, Some y => Qle_bool x y
  | _, _ => false
  end.

(** [(s >= lower_bound) & (s <= upper_bound)] *)
Definition bounds_mask (lower upper : option Q) (s : list (option Q)) : list bool :=
  map (fun v => nan_le lower v && nan_le v upper) s.

(** Body of the outlier loop, lines 60-67. *)
Definition remove_outliers_col (outlier_threshold : Q)
    (st : store * nat * nat) (col : string) : store * nat * nat :=
  let '(h, df, outliers_removed) := st in
  let s := num_values (series h df col) in
  let Q1 := quantile (1 # 4) s in
  let Q3 := quantile (3 # 4) s in
  let IQR := nan_sub Q3 Q1 in
  let lower_bound := nan_sub Q1 (nan_scale outlier_threshold IQR) in
  let upper_bound := nan_add Q3 (nan_scale outlier_threshold IQR) in
  let before_count := nrows (deref h df) in
  let '(h, df) := alloc h (filter_rows (bounds_mask lower_bound upper_bound s) (deref h df)) in
  (h, df, outliers_removed + (before_count - nrows (deref h df))).

(** *** [clean_data] *)

(** Lines 28-30. *)
Definition remove_duplicates_step (original_shape : nat * nat)
    (original_duplicates : nat) (h : store) (df : nat) (changes : list change)
    : store * nat * list change :=
  let '(h, df) := alloc h (drop_duplicates (deref h df)) in
  if nrows (deref h df) <? fst original_shape
  then (h, df, changes ++ [RemovedDuplicates original_duplicates])
  else (h, df, changes).

(** Lines 33-46. *)
Definition fill_missing_step (fill_method : option FillMethod)
    (h : store) (df : nat) (changes : list change) : store * list change :=
  foldl (fill_missing_col df fill_method) (h, changes) (column_names (deref h df)).

(** Lines 49-55. *)
Definition convert_dates_step (h : store) (df : nat) (changes : list change)
    : store * list change :=
  foldl (convert_dates_col df) (h, changes) (column_names (deref h df)).

(** Lines 58-69. *)
Definition remove_outliers_step (outlier_threshold : Q)
    (h : store) (df : nat) (changes : list change) : store * nat * list change :=
  let '(h, df, outliers_removed) :=
    foldl (remove_outliers_col outlier_threshold) (h, df, 0)
          (column_names (select_dtypes_number (deref h df))) in
  if 0 <? outliers_removed
  then (h, df, changes ++ [RemovedOutliers outliers_removed outlier_threshold])
  else (h, df, changes).

(** Lines 71-76. *)
Definition summary_changes (original_shape : nat * nat) (original_missing : nat)
    (final : DataFrame) (changes : list change) : list change :=
  let final_shape := shape final in
  let final_missing := total_missing final in
  let changes :=
    if bool_decide (final_shape = original_shape) then changes
    else changes ++ [ShapeChanged original_shape final_shape] in
  if final_missing <? original_missing
  then changes ++ [MissingReduced original_missing final_missing]
  else changes.

Definition clean_data (h : store) (df : nat) (operations : gmap string bool)
    (fill_method : option FillMethod) (outlier_threshold : Q)
    : store * nat * list change :=
  let original_shape := shape (deref h df) in
  let original_missing := total_missing (deref h df) in
  let original_duplicates := duplicated_sum (deref h df) in
  let changes := [] in
  let '(h, df, changes) :=
    if get_op operations "remove_duplicates"
    then remove_duplicates_step original_shape original_duplicates h df changes
    else (h, df, changes) in
  let '(h, changes) :=
    if get_op operations "fill_missing"
    then fill_missing_step fill_method h df changes
    else (h, changes) in
  let '(h, changes) :=
    if get_op operations "convert_dates"
    then convert_dates_step h df changes
    else (h, changes) in
  let '(h, df, changes) :=
    if get_op operations "remove_outliers"
    then remove_outliers_step outlier_threshold h df changes
    else (h, df, changes) in
  (h, df, summary_changes original_shape original_missing (deref h df) changes).

(** The call site of the application, line 150:
    [clean_data(df.copy(), operations, fill_method, outlier_threshold)]. *)
Definition apply_cleaning (h : store) (df : nat) (operations : gmap string bool)
    (fill_method : option FillMethod) (outlier_threshold : Q)
    : store * nat * list change :=
  let '(h, copy) := alloc h (deref h df) in
  clean_data h copy operations fill_method outlier_threshold.

(** ** Specification-side definitions

    The wording of the specification, to be compared with the embedding
    of the source above. *)

Section FirstOccurrences.
Context {A : Type} (eqb : A -> A -> bool).

(** Drop every element that repeats an earlier one, keeping the order of
    the first occurrences. *)
Fixpoint first_occurrences_from (seen : list A) (l : list A) : list A :=
  match l with
  | [] => []
  | x :: l' =>
      if existsb (eqb x) seen then first_occurrences_from (x :: seen) l'
      else x :: first_occurrences_from (x :: seen) l'
  end.

Definition first_occurrences (l : list A) : list A :=
  first_occurrences_from [] l.

(** Position [i] holds an element equal to one at an earlier position. *)
Definition repeats_earlier (l : list A) (i : nat) : bool :=
  match l !! i with
  | Some x => existsb (eqb x) (take i l)
  | None => false
  end.

Definition count_repeats (l : list A) : nat :=
  length (List.filter (repeats_earlier l) (seq 0 (length l))).

(** [s1] is covered by [s2]: whatever repeats an element of [s1] repeats
    one of [s2]. *)
Definition covered (s1 s2 : list A) : Prop :=
  forall y, existsb (eqb y) s1 = true -> existsb (eqb y) s2 = true.

(** Each group of equal elements contributes its size minus one. *)
Definition group_excess (l : list A) : nat :=
  foldr Nat.add 0 (map (fun x => occurrences eqb x l - 1) (first_occurrences l)).
End FirstOccurrences.

(** The fence [Q1 - m*IQR, Q3 + m*IQR] of a column in float arithmetic,
    where IQR = Q3 - Q1; it is absent when a quartile is NaN. *)
Definition iqr_fence (m : Q) (vals : list (option Q)) : option (Q * Q) :=
  match quantile (1 # 4) vals, quantile (3 # 4) vals with
  | Some q1, Some q3 =>
      let iqr := float_sub pd q3 q1 in
      Some (float_sub pd q1 (float_mul pd m iqr), float_add pd q3 (float_mul pd m iqr))
  | _, _ => None
  end.

Definition within_fence (f : option (Q * Q)) (v : option Q) : bool :=
  match f, v with
  | Some (lo, hi), Some x => Qle_bool lo x && Qle_bool x hi
  | _, _ => false
  end.

(** Keep the rows whose value in [col] lies within the fence of [col]. *)
Definition trim_column (m : Q) (d : DataFrame) (col : string) : DataFrame :=
  let vals := num_values (column d col) in
  filter_rows (map (within_fence (iqr_fence m vals)) vals) d.

(** Trim column after column, each against the table left by the previous
    one, and count the rows removed. *)
Fixpoint trim_outliers (m : Q) (cols : list string) (d : DataFrame)
    : DataFrame * nat :=
  match cols with
  | [] => (d, 0)
  | col :: cols' =>
      let d1 := trim_column m d col in
      let '(d', n) := trim_outliers m cols' d1 in
      (d', (nrows d - nrows d1) + n)
  end.

(** The same on the rows of the table, a column being given by its
    position.  The number in a cell is what the comparison with the bounds
    sees; a row is kept when its number lies within the fence of the
    numbers the column holds at that moment. *)
Definition cell_num (c : cell) : option Q :=
  match c with
  | Some (VInt z) => Some (float_of_int pd z)
  | Some (VFloat q) => Some q
  | _ => None
  end.

Definition row_num (j : nat) (r : row) : option Q :=
  cell_num (default None (r !! j)).

Definition trim_rows (m : Q) (j : nat) (rs : list row) : list row :=
  List.filter (fun r => within_fence (iqr_fence m (map (row_num j) rs)) (row_num j r)) rs.

Fixpoint trim_rows_all (m : Q) (js : list nat) (rs : list row) : list row * nat :=
  match js with
  | [] => (rs, 0)
  | j :: js' =>
      let rs1 := trim_rows m j rs in
      let '(rs', n) := trim_rows_all m js' rs1 in
      (rs', (length rs - length rs1) + n)
  end.

(** The positions of the numeric columns, in column order. *)
Fixpoint numeric_positions_from (j : nat) (d : DataFrame) : list nat :=
  match d with
  | [] => []
  | s :: d' =>
      if is_number (dtype_of (data s)) then j :: numeric_positions_from (S j) d'
      else numeric_positions_from (S j) d'
  end.

Definition numeric_positions (d : DataFrame) : list nat :=
  numeric_positions_from 0 d.

(** A numeric column at position [j] under the name [col]. *)
Definition numeric_at (d : DataFrame) (j : nat) (col : string) : Prop :=
  exists s, d !! j = Some s /\ name s = col /\ is_number (dtype_of (data s)) = true.

(** A [Converted] entry for column [col]. *)
Definition is_converted (col : string) (c : change) : bool :=
  match c with
  | ConvertedToDatetime c' => String.eqb c' col
  | _ => false
  end.

(** [d[key]] on a dictionary kept in insertion order. *)
Fixpoint dict_get {V : Type} (d : list (string * V)) (key : string) : option V :=
  match d with
  | [] => None
  | (k, v) :: d' => if String.eqb k key then Some v else dict_get d' key
  end.

(** A date parser that agrees with [pd.to_datetime] of pandas 2.x on the
    strings used in the examples.  The format of a column is guessed from
    its first value that is neither missing nor a NaT string; every other
    value has to match it.  Timestamps are day numbers since the epoch. *)
Inductive date_format := YearMonthDay | MonthDayYear.

Definition is_nat_string (s : string) : bool :=
  String.eqb s "" || String.eqb s "NaT".

(** [%Y-%m-%d] *)
Definition parse_year_month_day (s : string) : option Z :=
  if String.eqb s "2021-01-01" then Some 18628%Z
  else if String.eqb s "2021-01-02" then Some 18629%Z
  else None.

(** [%m/%d/%Y] *)
Definition parse_month_day_year (s : string) : option Z :=
  if String.eqb s "01/01/2021" then Some 18628%Z
  else if String.eqb s "01/02/2021" then Some 18629%Z
  else None.

Definition guess_format (s : string) : option date_format :=
  if bool_decide (is_Some (parse_year_month_day s)) then Some YearMonthDay
  else if bool_decide (is_Some (parse_month_day_year s)) then Some MonthDayYear
  else None.

Fixpoint first_date_string (l : list (option string)) : option string :=
  match l with
  | [] => None
  | Some s :: l' => if is_nat_string s then first_date_string l' else Some s
  | None :: l' => first_date_string l'
  end.

Definition example_parser (l : list (option string)) (s : string)
    : option (option Z) :=
  if is_nat_string s then Some None
  else match first_date_string l ≫= guess_format with
       | Some YearMonthDay => Some <$> parse_year_month_day s
       | Some MonthDayYear => Some <$> parse_month_day_year s
       | None => None
       end.

(** The library of the examples: exact arithmetic and the parser above. *)
Definition exact_pandas : Pandas :=
  {| parse_value := example_parser;
     series_mean := exact_mean;
     series_median := exact_median;
     series_var := exact_variance;
     series_quantile := exact_quantile;
     float_sub := Qminus;
     float_add := Qplus;
     float_mul := Qmult;
     float_of_int := inject_Z |}.

(** [operations] as the sidebar builds it, line 107. *)
Definition operations_of (remove_duplicates fill_missing convert_dates
    remove_outliers : bool) : gmap string bool :=
  <["remove_duplicates" := remove_duplicates]>
    (<["fill_missing" := fill_missing]>
      (<["convert_dates" := convert_dates]>
        (<["remove_outliers" := remove_outliers]> ∅))).

(** ** The loops read on the frame behind the reference

    What each loop body does to the frame its reference points to, and
    what it appends to the change log; the store lemmas below show that
    the bodies above act on the store exactly in this way. *)

Definition fill_frame_col (fill_method : option FillMethod)
    (d : DataFrame) (col : string) : DataFrame :=
  set_col d col (fill_series fill_method (column d col)).

Definition fill_log_col (fill_method : option FillMethod)
    (d : DataFrame) (col : string) : list change :=
  let missing_before := isnull_sum (column d col) in
  let missing_after := isnull_sum (column (fill_frame_col fill_method d col) col) in
  if missing_after <? missing_before
  then [FilledMissing (missing_before - missing_after) col fill_method]
  else [].

Definition convert_frame_col
    (d : DataFrame) (col : string) : DataFrame :=
  match column d col with
  | ObjectCol l =>
      match to_datetime l with
      | Some ts => set_col d col (DatetimeCol ts)
      | None => d
      end
  | _ => d
  end.

Definition convert_log_col
    (d : DataFrame) (col : string) : list change :=
  match column d col with
  | ObjectCol l =>
      match to_datetime l with
      | Some _ => [ConvertedToDatetime col]
      | None => []
      end
  | _ => []
  end.

(** The entries a loop appends, column after column. *)
Fixpoint loop_log (fframe : DataFrame -> string -> DataFrame)
    (flog : DataFrame -> string -> list change)
    (cols : list string) (d : DataFrame) : list change :=
  match cols with
  | [] => []
  | col :: cols' => flog d col ++ loop_log fframe flog cols' (fframe d col)
  end.

Definition fill_frame (fill_method : option FillMethod) (d : DataFrame) : DataFrame :=
  foldl (fill_frame_col fill_method) d (column_names d).

Definition convert_frame
    (d : DataFrame) : DataFrame :=
  foldl convert_frame_col d (column_names d).

Definition outliers_frame (outlier_threshold : Q) (d : DataFrame) : DataFrame :=
  (trim_outliers outlier_threshold (column_names (select_dtypes_number d)) d).1.

(** The frame [clean_data] returns, as a function of the frame it is given. *)
Definition clean_frame
    (T : DataFrame) (operations : gmap string bool)
    (fill_method : option FillMethod) (outlier_threshold : Q) : DataFrame :=
  let d := if get_op operations "remove_duplicates" then drop_duplicates T else T in
  let d := if get_op operations "fill_missing" then fill_frame fill_method d else d in
  let d := if get_op operations "convert_dates" then convert_frame d else d in
  if get_op operations "remove_outliers" then outliers_frame outlier_threshold d else d.

(** The per-column effect of the fill loop and of the conversion loop. *)
Definition convert_series
    (c : coldata) : coldata :=
  match c with
  | ObjectCol l =>
      match to_datetime l with
      | Some ts => DatetimeCol ts
      | None => c
      end
  | _ => c
  end.

(** The entry the conversion loop appends for a column. *)
Definition convert_entries
    (col : string) (c : coldata) : list change :=
  match c with
  | ObjectCol l =>
      match to_datetime l with
      | Some _ => [ConvertedToDatetime col]
      | None => []
      end
  | _ => []
  end.

Definition map_columns (f : coldata -> coldata) (d : DataFrame) : DataFrame :=
  map (fun s => mkSeries (name s) (f (data s))) d.

(** The frame a run returns. *)
Definition result_frame (res : store * nat * list change) : DataFrame :=
  deref res.1.1 res.1.2.

Definition result_store (res : store * nat * list change) : store := res.1.1.

Definition result_changes (res : store * nat * list change) : list change := res.2.

(** ** Example tables *)

(** Scenario 1 of the specification. *)
Definition people : DataFrame :=
  [mkSeries "age" (FloatCol [Some 25%Q; None; Some 25%Q]);
   mkSeries "city" (ObjectCol [Some "NY"; Some "LA"; Some "NY"])].

(** A numeric column with a gap next to a column of ISO dates. *)
Definition readings : DataFrame :=
  [mkSeries "x" (FloatCol [Some 1%Q; None]);
   mkSeries "d" (ObjectCol [Some "2021-01-01"; Some "2021-01-02"])].

Definition readings_cleaned : DataFrame :=
  [mkSeries "x" (FloatCol [Some 1%Q; Some 1%Q]);
   mkSeries "d" (DatetimeCol [Some 18628%Z; Some 18629%Z])].

(** The columns of [people] without a single row. *)
Definition no_people : DataFrame :=
  [mkSeries "age" (FloatCol []); mkSeries "city" (ObjectCol [])].

(** A numeric column read from a file in which it is empty throughout. *)
Definition blank : DataFrame :=
  [mkSeries "x" (FloatCol [None; None])].

(** Scenario 2 of the specification. *)
Definition scores : DataFrame :=
  [mkSeries "col" (FloatCol [Some 10%Q; Some 20%Q; None; Some 40%Q])].

(** Scenario 3 of the specification. *)
Definition measurements : DataFrame :=
  [mkSeries "x" (IntCol [1; 2; 3; 4; 100]%Z)].

(** A numeric column with a gap and no outlier. *)
Definition gauge : DataFrame :=
  [mkSeries "x" (FloatCol [Some 1%Q; None; Some 2%Q; Some 3%Q]);
   mkSeries "site" (ObjectCol [Some "a"; Some "b"; Some "c"; Some "d"])].

(** A date column with a gap. *)
Definition bookings : DataFrame :=
  [mkSeries "d" (ObjectCol [Some "2021-01-01"; None; Some "2021-01-02";
                            Some "2021-01-01"])].

(** A date column in which one entry is the string NaT and one is missing. *)
Definition events : DataFrame :=
  [mkSeries "d" (ObjectCol [Some "2021-01-01"; Some "2021-01-01"; Some "NaT"; None])].

(** The columns the fill loop always has a value for: the non-numeric
    ones, and the numeric ones under the fill method Mode. *)
Definition has_fallback (fill_method : option FillMethod) (c : coldata) : bool :=
  negb (is_number (dtype_of c))
  || match fill_method with
     | Some Mode => true
     | _ => false
     end.

Definition filled (fill_method : option FillMethod) (d : DataFrame) : Prop :=
  Forall (fun s => has_fallback fill_method (data s) = true ->
                   isnull_sum (data s) = 0) d.

(** ** Loading a file, lines 80-95 *)

Record UploadedFile := mkUpload { file_name : string; file_content : string }.

(** [s.split(sep)] for a one-character separator: the pieces between the
    separators, a single piece when there is none. *)
Fixpoint split (sep : ascii) (s : string) : list string :=
  match s with
  | EmptyString => [EmptyString]
  | String c s' =>
      if Ascii.eqb c sep then EmptyString :: split sep s'
      else match split sep s' with
           | piece :: pieces => String c piece :: pieces
           | [] => [String c EmptyString]
           end
  end.

(** [pieces[-1]] *)
Definition last_piece (pieces : list string) : string :=
  List.last pieces EmptyString.

(** [s.lower()] on a string of ASCII characters, for the examples. *)
Definition lower_ascii (c : ascii) : ascii :=
  if Ascii.leb "A"%char c && Ascii.leb c "Z"%char
  then ascii_of_nat (nat_of_ascii c + 32)
  else c.

Fixpoint ascii_lower (s : string) : string :=
  match s with
  | EmptyString => EmptyString
  | String c s' => String (lower_ascii c) (ascii_lower s')
  end.

Fixpoint contains (c : ascii) (s : string) : bool :=
  match s with
  | EmptyString => false
  | String c' s' => Ascii.eqb c' c || contains c s'
  end.

Section Loading.
(** [str.lower], which lower-cases every cased character of Unicode. *)
Variable lower : string -> string.

(** [uploaded_file.name.split('.')[-1].lower()] *)
Definition file_type_of (file_name : string) : string :=
  lower (last_piece (split "."%char file_name)).

(** The readers of pandas and the JSON decoder, by separator and content. *)
Variable read_csv : string -> string -> DataFrame.
Variable read_excel : string -> DataFrame.
Variable json : Type.
Variable json_load : string -> json.
Variable isinstance_list : json -> bool.
Variable json_normalize : json -> DataFrame.
Variable frame_of_records : list json -> DataFrame.

(** [None] is the branch that reports the unsupported type and returns
    [None]. *)
Definition load_file (uploaded_file : UploadedFile) : option DataFrame :=
  let file_type := file_type_of (file_name uploaded_file) in
  if String.eqb file_type "csv" then
    Some (read_csv "," (file_content uploaded_file))
  else if String.eqb file_type "xlsx" || String.eqb file_type "xls" then
    Some (read_excel (file_content uploaded_file))
  else if String.eqb file_type "json" then
    let data := json_load (file_content uploaded_file) in
    Some (if isinstance_list data then json_normalize data
          else frame_of_records [data])
  else if String.eqb file_type "txt" then
    Some (read_csv (String (ascii_of_nat 9) EmptyString) (file_content uploaded_file))
  else None.
End Loading.

(** ** The change log of a run *)

Definition duplicates_log (T : DataFrame) : list change :=
  if nrows (drop_duplicates T) <? (shape T).1
  then [RemovedDuplicates (duplicated_sum T)]
  else [].

Definition fill_log (fill_method : option FillMethod) (d : DataFrame) : list change :=
  loop_log (fill_frame_col fill_method) (fill_log_col fill_method) (column_names d) d.

Definition convert_log
    (d : DataFrame) : list change :=
  loop_log convert_frame_col convert_log_col
           (column_names d) d.

Definition outliers_log (outlier_threshold : Q) (d : DataFrame) : list change :=
  let total := (trim_outliers outlier_threshold
                  (column_names (select_dtypes_number d)) d).2 in
  if 0 <? total then [RemovedOutliers total outlier_threshold] else [].

(** The frames a run goes through, step after step. *)
Definition after_duplicates (T : DataFrame) (operations : gmap string bool) : DataFrame :=
  if get_op operations "remove_duplicates" then drop_duplicates T else T.

Definition after_fill (T : DataFrame) (operations : gmap string bool)
    (fill_method : option FillMethod) : DataFrame :=
  let d := after_duplicates T operations in
  if get_op operations "fill_missing" then fill_frame fill_method d else d.

Definition after_convert
    (T : DataFrame) (operations : gmap string bool)
    (fill_method : option FillMethod) : DataFrame :=
  let d := after_fill T operations fill_method in
  if get_op operations "convert_dates" then convert_frame d else d.

(** The entries of the four steps, before the two summary entries. *)
Definition step_changes
    (T : DataFrame) (operations : gmap string bool)
    (fill_method : option FillMethod) (outlier_threshold : Q) : list change :=
  (if get_op operations "remove_duplicates" then duplicates_log T else [])
  ++ (if get_op operations "fill_missing"
      then fill_log fill_method (after_duplicates T operations) else [])
  ++ (if get_op operations "convert_dates"
      then convert_log (after_fill T operations fill_method) else [])
  ++ (if get_op operations "remove_outliers"
      then outliers_log outlier_threshold
             (after_convert T operations fill_method)
      else []).

(** The change log [clean_data] returns, as a function of the frame it is
    given. *)
Definition clean_log
    (T : DataFrame) (operations : gmap string bool)
    (fill_method : option FillMethod) (outlier_threshold : Q) : list change :=
  summary_changes (shape T) (total_missing T)
    (clean_frame T operations fill_method outlier_threshold)
    (step_changes T operations fill_method outlier_threshold).

(** An entry of the two summary kinds. *)
Definition is_summary (c : change) : bool :=
  match c with
  | ShapeChanged _ _ | MissingReduced _ _ => true
  | _ => false
  end.

(** The present value of a cell, if any. *)
Definition present_cells (c : coldata) : list value := dropna (cells c).

(** A table with a repeated row, and what is left of it. *)
Definition visits : DataFrame :=
  [mkSeries "n" (IntCol [1; 2; 1; 3; 2]%Z);
   mkSeries "who" (ObjectCol [Some "a"; None; Some "a"; Some "c"; None])].

(** The entry the fill loop appends for a column: none when no gap was
    filled, else one carrying the number of gaps filled. *)
Definition fill_entries (fill_method : option FillMethod) (col : string)
    (c : coldata) : list change :=
  let filled := isnull_sum c - isnull_sum (fill_series fill_method c) in
  if isnull_sum (fill_series fill_method c) <? isnull_sum c
  then [FilledMissing filled col fill_method]
  else [].

(** A boolean equality that is an equivalence. *)
Definition equivalence_eqb {A : Type} (eqb : A -> A -> bool) : Prop :=
  (forall x, eqb x x = true)
  /\ (forall x y, eqb x y = eqb y x)
  /\ (forall x y z, eqb x y = true -> eqb y z = true -> eqb x z = true).

(** A table with gaps in a numeric, a text and a date column. *)
Definition survey : DataFrame :=
  [mkSeries "score" (FloatCol [Some 3%Q; None; Some 5%Q; Some 3%Q]);
   mkSeries "town" (ObjectCol [Some "b"; Some "a"; None; Some "c"]);
   mkSeries "day" (DatetimeCol [None; None; None; None]);
   mkSeries "id" (IntCol [1; 2; 3; 4]%Z)].

(** * Properties *)

(** ** Boolean indexing *)

Lemma filter_mask_nil_r {A : Type} (m : list bool) : filter_mask m (@nil A) = [].
Proof. by destruct m. Qed.

Lemma filter_mask_length_le {A : Type} (m : list bool) (l : list A) :
  length (filter_mask m l) <= length l.
Proof.
  revert l. induction m as [|b m IH]; intros [|x l]; simpl; try lia.
  destruct b; simpl; specialize (IH l); lia.
Qed.

Lemma filter_mask_map {A B : Type} (f : A -> B) (m : list bool) (l : list A) :
  filter_mask m (map f l) = map f (filter_mask m l).
Proof.
  revert l. induction m as [|b m IH]; intros [|x l]; simpl; try done.
  destruct b; simpl; by rewrite IH.
Qed.

Lemma filter_mask_length {A : Type} (m : list bool) (l : list A) :
  length m = length l -> length (filter_mask m l) = count_true m.
Proof.
  revert l. induction m as [|b m IH]; intros [|x l] Hlen; simpl in *; try done.
  injection Hlen as Hlen. destruct b; simpl; rewrite IH; done.
Qed.

Lemma filter_mask_repeat_true {A : Type} (n : nat) (l : list A) :
  length l <= n -> filter_mask (repeat true n) l = l.
Proof.
  revert l. induction n as [|n IH]; intros [|x l] Hlen; simpl in *; try done.
  - lia.
  - rewrite IH; [done | lia].
Qed.

Lemma count_true_length (m : list bool) : count_true m <= length m.
Proof.
  unfold count_true. induction m as [|[] m IH]; simpl; lia.
Qed.

Lemma length_cells (c : coldata) : length (cells c) = col_length c.
Proof. destruct c; simpl; by rewrite length_map. Qed.

Lemma cells_filter_col (m : list bool) (c : coldata) :
  cells (filter_col m c) = filter_mask m (cells c).
Proof. destruct c; simpl; by rewrite filter_mask_map. Qed.

Lemma col_length_filter_col_le (m : list bool) (c : coldata) :
  col_length (filter_col m c) <= col_length c.
Proof. destruct c; simpl; apply filter_mask_length_le. Qed.

Lemma col_length_filter_col (m : list bool) (c : coldata) :
  length m = col_length c -> col_length (filter_col m c) = count_true m.
Proof. destruct c; simpl; apply filter_mask_length. Qed.

Lemma dtype_of_filter_col (m : list bool) (c : coldata) :
  dtype_of (filter_col m c) = dtype_of c.
Proof. by destruct c. Qed.

Lemma column_names_filter_rows (m : list bool) (d : DataFrame) :
  column_names (filter_rows m d) = column_names d.
Proof.
  unfold column_names, filter_rows. rewrite map_map. done.
Qed.

Lemma nrows_filter_rows_le (m : list bool) (d : DataFrame) :
  nrows (filter_rows m d) <= nrows d.
Proof. destruct d as [|s d]; simpl; [lia | apply col_length_filter_col_le]. Qed.

Lemma length_transpose (n : nat) (cols : list (list cell)) :
  length (transpose n cols) = n.
Proof. revert cols. induction n as [|n IH]; intros cols; simpl; [done | by rewrite IH]. Qed.

Lemma length_rows (d : DataFrame) : length (rows d) = nrows d.
Proof. apply length_transpose. Qed.

Lemma transpose_filter_mask (m : list bool) (cols : list (list cell)) :
  Forall (fun c => length c = length m) cols ->
  transpose (count_true m) (map (filter_mask m) cols)
  = filter_mask m (transpose (length m) cols).
Proof.
  revert cols. induction m as [|b m IH]; intros cols Hall; [done|].
  assert (Htl : Forall (fun c => length c = length m) (map (@tail cell) cols)).
  { rewrite Forall_map. eapply Forall_impl; [exact Hall|].
    intros [|x c]; simpl; intros Hc; [done | by injection Hc]. }
  destruct b; simpl.
  - unfold count_true in *. simpl. f_equal.
    + rewrite map_map. apply map_ext_Forall.
      eapply Forall_impl; [exact Hall|]. by intros [|x c] Hc.
    + rewrite <- (IH _ Htl). f_equal. rewrite !map_map.
      apply map_ext_Forall. eapply Forall_impl; [exact Hall|]. by intros [|x c] Hc.
  - unfold count_true in *. simpl. rewrite <- (IH _ Htl). f_equal.
    rewrite map_map. apply map_ext_Forall.
    eapply Forall_impl; [exact Hall|]. by intros [|x c] Hc.
Qed.

Lemma rows_filter_rows (m : list bool) (d : DataFrame) :
  aligned d -> length m = nrows d ->
  rows (filter_rows m d) = filter_mask m (rows d).
Proof.
  intros Hal Hlen. unfold rows.
  assert (Hn : nrows (filter_rows m d) = count_true m \/ d = []).
  { destruct d as [|s d]; [by right | left]. simpl.
    apply col_length_filter_col. exact Hlen. }
  assert (Hcells : map (fun s => cells (data s)) (filter_rows m d)
                   = map (filter_mask m) (map (fun s => cells (data s)) d)).
  { unfold filter_rows. rewrite !map_map. apply map_ext.
    intros s. simpl. apply cells_filter_col. }
  destruct Hn as [Hn | ->].
  - rewrite Hn, Hcells, <- Hlen. apply transpose_filter_mask.
    rewrite Forall_map. eapply Forall_impl; [exact Hal|].
    intros s Hs. simpl in Hs. rewrite length_cells. congruence.
  - simpl. by rewrite filter_mask_nil_r.
Qed.

Lemma aligned_filter_rows (m : list bool) (d : DataFrame) :
  aligned d -> length m = nrows d -> aligned (filter_rows m d).
Proof.
  intros Hal Hlen. unfold aligned in *.
  assert (Hn : forall s, s ∈ d -> nrows (filter_rows m d) = count_true m).
  { destruct d as [|s0 d]; intros s Hs; [by apply elem_of_nil in Hs|].
    simpl. apply col_length_filter_col. exact Hlen. }
  unfold filter_rows at 2. rewrite Forall_map.
  rewrite Forall_forall in Hal. apply Forall_forall. intros s Hs. simpl.
  rewrite (Hn s Hs). apply col_length_filter_col.
  rewrite Hlen. symmetry. by apply Hal.
Qed.

(** ** Duplicates on lists *)

Section DuplicateFacts.
Context {A : Type} (eqb : A -> A -> bool).

Lemma length_duplicated_from (seen l : list A) :
  length (duplicated_from eqb seen l) = length l.
Proof. revert seen. induction l as [|x l IH]; intros seen; simpl; [done | by rewrite IH]. Qed.

Lemma filter_mask_duplicated_from (seen l : list A) :
  filter_mask (map negb (duplicated_from eqb seen l)) l
  = first_occurrences_from eqb seen l.
Proof.
  revert seen. induction l as [|x l IH]; intros seen; simpl; [done|].
  destruct (existsb (eqb x) seen); simpl; by rewrite IH.
Qed.

Lemma first_occurrences_from_unseen (seen l : list A) (y : A) :
  In y (first_occurrences_from eqb seen l) -> existsb (eqb y) seen = false.
Proof.
  revert seen. induction l as [|x l IH]; intros seen; simpl; [done|].
  assert (Htl : In y (first_occurrences_from eqb (x :: seen) l) ->
                existsb (eqb y) seen = false).
  { intros Hin. specialize (IH _ Hin). simpl in IH.
    by apply orb_false_elim in IH as [_ ?]. }
  destruct (existsb (eqb x) seen) eqn:Hx; simpl; [exact Htl|].
  intros [<- | Hin]; [exact Hx | by apply Htl].
Qed.

Lemma count_true_cons (b : bool) (m : list bool) :
  count_true (b :: m) = (if b then 1 else 0) + count_true m.
Proof. unfold count_true. by destruct b. Qed.

Lemma count_true_duplicated_from (seen l : list A) :
  count_true (duplicated_from eqb seen l)
  = length (List.filter
      (fun i => match l !! i with
                | Some x => existsb (eqb x) (take i l ++ seen)
                | None => false
                end) (seq 0 (length l))).
Proof.
  revert seen. induction l as [|x l IH]; intros seen; [done|].
  cbn [duplicated_from length seq]. rewrite count_true_cons, IH.
  rewrite <- seq_shift. cbn [List.filter lookup list_lookup take app].
  assert (Htl : length (List.filter
      (fun i => match (x :: l) !! i with
                | Some y => existsb (eqb y) (take i (x :: l) ++ seen)
                | None => false
                end) (map S (seq 0 (length l))))
    = length (List.filter
      (fun i => match l !! i with
                | Some y => existsb (eqb y) (take i l ++ x :: seen)
                | None => false
                end) (seq 0 (length l)))).
  { rewrite filter_map_swap, length_map. f_equal. apply filter_ext.
    intros i. cbn [lookup list_lookup take].
    destruct (l !! i) as [y|]; [|done]. cbn [app existsb].
    rewrite !existsb_app. cbn [existsb].
    destruct (eqb y x), (existsb (eqb y) (take i l)), (existsb (eqb y) seen); done. }
  destruct (existsb (eqb x) seen); cbn [length]; rewrite Htl; done.
Qed.

Lemma count_repeats_duplicated (l : list A) :
  count_true (duplicated_mask eqb l) = count_repeats eqb l.
Proof.
  unfold duplicated_mask, count_repeats. rewrite count_true_duplicated_from.
  f_equal. apply filter_ext. intros i. unfold repeats_earlier.
  destruct (l !! i); [|done]. by rewrite app_nil_r.
Qed.

Hypothesis eqb_refl : forall x, eqb x x = true.
Hypothesis eqb_sym : forall x y, eqb x y = eqb y x.
Hypothesis eqb_trans : forall x y z, eqb x y = true -> eqb y z = true -> eqb x z = true.

Lemma existsb_eqb_trans (x y : A) (seen : list A) :
  eqb y x = true -> existsb (eqb x) seen = true -> existsb (eqb y) seen = true.
Proof.
  intros Hyx Hx. apply existsb_exists in Hx as (z & Hz & Hxz).
  apply existsb_exists. exists z. split; [done|]. by eapply eqb_trans.
Qed.

Lemma covered_cons (x : A) (s1 s2 : list A) :
  covered eqb s1 s2 -> covered eqb (x :: s1) (x :: s2).
Proof.
  intros Hc y. simpl. intros [->|Hy]%orb_true_iff; [done|].
  rewrite (Hc y Hy). apply orb_true_r.
Qed.

Lemma covered_cons_r (x : A) (s1 s2 : list A) :
  covered eqb s1 s2 -> covered eqb s1 (x :: s2).
Proof. intros Hc y Hy. simpl. rewrite (Hc y Hy). apply orb_true_r. Qed.

Lemma duplicated_from_first_occurrences (s1 s2 l : list A) :
  covered eqb s1 s2 ->
  duplicated_from eqb s1 (first_occurrences_from eqb s2 l)
  = repeat false (length (first_occurrences_from eqb s2 l)).
Proof.
  revert s1 s2. induction l as [|x l IH]; intros s1 s2 Hc; simpl; [done|].
  destruct (existsb (eqb x) s2) eqn:Hx; simpl.
  - apply IH. by apply covered_cons_r.
  - destruct (existsb (eqb x) s1) eqn:Hx1.
    { apply Hc in Hx1. congruence. }
    f_equal. apply IH. by apply covered_cons.
Qed.

Lemma occurrences_cons (y x : A) (l : list A) :
  occurrences eqb y (x :: l) = (if eqb y x then 1 else 0) + occurrences eqb y l.
Proof. unfold occurrences. simpl. by destruct (eqb y x). Qed.

Lemma length_filter_orb (f g : A -> bool) (l : list A) :
  (forall z, f z = true -> g z = true -> False) ->
  length (List.filter (fun z => f z || g z) l)
  = length (List.filter f l) + length (List.filter g l).
Proof.
  intros Hdisj. induction l as [|z l IH]; simpl; [done|].
  specialize (Hdisj z). destruct (f z), (g z); simpl; try lia.
Qed.

Lemma count_true_duplicated_from_groups (seen l : list A) :
  count_true (duplicated_from eqb seen l)
  = foldr Nat.add 0 (map (fun x => occurrences eqb x l - 1)
                         (first_occurrences_from eqb seen l))
    + length (List.filter (fun z => existsb (eqb z) seen) l).
Proof.
  revert seen. induction l as [|x l IH]; intros seen; [done|].
  cbn [duplicated_from first_occurrences_from List.filter].
  rewrite count_true_cons, IH.
  destruct (existsb (eqb x) seen) eqn:Hx.
  - cbn [length].
    rewrite (map_ext_in (fun y => occurrences eqb y (x :: l) - 1)
                        (fun y => occurrences eqb y l - 1)).
    2:{ intros y Hy. rewrite occurrences_cons.
        apply first_occurrences_from_unseen in Hy. simpl in Hy.
        apply orb_false_elim in Hy as [-> _]. done. }
    rewrite (filter_ext (fun z => existsb (eqb z) (x :: seen))
                        (fun z => existsb (eqb z) seen)); [lia|].
    intros z. simpl. destruct (eqb z x) eqn:Hzx; [|done].
    simpl. symmetry. by eapply existsb_eqb_trans.
  - cbn [map foldr]. rewrite occurrences_cons, eqb_refl.
    rewrite (map_ext_in (fun y => occurrences eqb y (x :: l) - 1)
                        (fun y => occurrences eqb y l - 1)).
    2:{ intros y Hy. rewrite occurrences_cons.
        apply first_occurrences_from_unseen in Hy. simpl in Hy.
        apply orb_false_elim in Hy as [-> _]. done. }
    cbn [existsb].
    rewrite (length_filter_orb (fun z => eqb z x) (fun z => existsb (eqb z) seen)).
    2:{ intros z Hzx Hz. rewrite eqb_sym in Hzx.
        rewrite (existsb_eqb_trans z x seen Hzx Hz) in Hx. done. }
    change (occurrences eqb x l) with (length (List.filter (eqb x) l)).
    rewrite (filter_ext (eqb x) (fun z => eqb z x)) by (intros z; apply eqb_sym).
    lia.
Qed.

Lemma group_excess_duplicated (l : list A) :
  count_true (duplicated_mask eqb l) = group_excess eqb l.
Proof.
  unfold duplicated_mask, group_excess, first_occurrences.
  rewrite count_true_duplicated_from_groups.
  assert (Hnone : List.filter (fun z => existsb (eqb z) []) l = []).
  { induction l as [|z l IH]; simpl; done. }
  rewrite Hnone. simpl. lia.
Qed.

End DuplicateFacts.

(** ** Equality of rows *)

Lemma Qeq_bool_comm (x y : Q) : Qeq_bool x y = Qeq_bool y x.
Proof.
  destruct (Qeq_bool x y) eqn:Hxy, (Qeq_bool y x) eqn:Hyx; try done.
  - apply Qeq_bool_sym in Hxy. congruence.
  - apply Qeq_bool_sym in Hyx. congruence.
Qed.

Lemma value_eqb_refl (v : value) : value_eqb v v = true.
Proof.
  destruct v; simpl.
  - apply Z.eqb_refl.
  - apply Qeq_bool_refl.
  - apply String.eqb_refl.
  - apply Z.eqb_refl.
  - by destruct b.
Qed.

Lemma value_eqb_sym (v w : value) : value_eqb v w = value_eqb w v.
Proof.
  destruct v, w; simpl; try done.
  - apply Z.eqb_sym.
  - apply Qeq_bool_comm.
  - apply String.eqb_sym.
  - apply Z.eqb_sym.
  - by destruct b, b0.
Qed.

Lemma value_eqb_trans (u v w : value) :
  value_eqb u v = true -> value_eqb v w = true -> value_eqb u w = true.
Proof.
  destruct u, v, w; simpl; try done.
  - rewrite !Z.eqb_eq. congruence.
  - apply Qeq_bool_trans.
  - rewrite !String.eqb_eq. congruence.
  - rewrite !Z.eqb_eq. congruence.
  - by destruct b, b0, b1.
Qed.

Lemma cell_eqb_refl (c : cell) : cell_eqb c c = true.
Proof. destruct c; simpl; [apply value_eqb_refl | done]. Qed.

Lemma cell_eqb_sym (c d : cell) : cell_eqb c d = cell_eqb d c.
Proof. destruct c, d; simpl; try done. apply value_eqb_sym. Qed.

Lemma cell_eqb_trans (c d e : cell) :
  cell_eqb c d = true -> cell_eqb d e = true -> cell_eqb c e = true.
Proof. destruct c, d, e; simpl; try done. apply value_eqb_trans. Qed.

Lemma row_eqb_refl (r : row) : row_eqb r r = true.
Proof. induction r as [|c r IH]; simpl; [done|]. by rewrite cell_eqb_refl, IH. Qed.

Lemma row_eqb_sym (r s : row) : row_eqb r s = row_eqb s r.
Proof.
  revert s. induction r as [|c r IH]; intros [|d s]; simpl; try done.
  by rewrite cell_eqb_sym, IH.
Qed.

Lemma row_eqb_trans (r s t : row) :
  row_eqb r s = true -> row_eqb s t = true -> row_eqb r t = true.
Proof.
  revert s t. induction r as [|c r IH]; intros [|d s] [|e t]; simpl; try done.
  intros [Hcd Hrs]%andb_true_iff [Hde Hst]%andb_true_iff.
  apply andb_true_iff. split.
  - by eapply cell_eqb_trans.
  - by eapply IH.
Qed.

(** Two rows are equal for [row_eqb] exactly when they agree cell by cell. *)
Lemma row_eqb_cellwise (r s : row) :
  row_eqb r s = true <-> Forall2 (fun c d => cell_eqb c d = true) r s.
Proof.
  revert s. induction r as [|c r IH]; intros [|d s]; simpl; split; try done.
  - inversion 1.
  - inversion 1.
  - intros [Hcd Hrs]%andb_true_iff. constructor; [done | by apply IH].
  - inversion 1; subst. apply andb_true_iff. split; [done | by apply IH].
Qed.

(** Row [i] of a frame collects cell [i] of every column. *)
Lemma transpose_lookup (n i : nat) (cols : list (list cell)) :
  i < n ->
  transpose n cols !! i = Some (map (fun c => default None (c !! i)) cols).
Proof.
  revert i cols. induction n as [|n IH]; intros i cols Hi; [lia|].
  destruct i as [|i]; simpl.
  - f_equal. apply map_ext. by intros [|x c].
  - rewrite IH by lia. f_equal. rewrite map_map. apply map_ext. by intros [|x c].
Qed.

Lemma rows_lookup (d : DataFrame) (i : nat) :
  i < nrows d ->
  rows d !! i = Some (map (fun s => default None (cells (data s) !! i)) d).
Proof.
  intros Hi. unfold rows. rewrite transpose_lookup by done. by rewrite map_map.
Qed.

(** ** Duplicate rows of a frame *)

Lemma length_duplicated (d : DataFrame) : length (duplicated d) = nrows d.
Proof.
  unfold duplicated, duplicated_mask. by rewrite length_duplicated_from, length_rows.
Qed.

Lemma rows_drop_duplicates (d : DataFrame) :
  aligned d -> rows (drop_duplicates d) = first_occurrences row_eqb (rows d).
Proof.
  intros Hal. unfold drop_duplicates.
  rewrite rows_filter_rows; [| done | by rewrite length_map, length_duplicated].
  apply filter_mask_duplicated_from.
Qed.

Lemma filter_col_repeat_true (n : nat) (c : coldata) :
  col_length c <= n -> filter_col (repeat true n) c = c.
Proof. destruct c; simpl; intros Hn; by rewrite filter_mask_repeat_true. Qed.

Lemma filter_rows_repeat_true (d : DataFrame) :
  aligned d -> filter_rows (repeat true (nrows d)) d = d.
Proof.
  intros Hal. unfold filter_rows. rewrite <- (map_id d) at 2.
  apply map_ext_Forall. eapply Forall_impl; [exact Hal|].
  intros [nm c] Hs. simpl in *. f_equal. apply filter_col_repeat_true. lia.
Qed.

Lemma map_negb_repeat_false (n : nat) : map negb (repeat false n) = repeat true n.
Proof. induction n as [|n IH]; simpl; [done | by rewrite IH]. Qed.

(** C6: the duplicate-row count reported by the assessor is the number of
    rows that are cell-for-cell equal to some earlier row of the table;
    equivalently, every group of equal rows contributes its size minus
    one, its first occurrence not being counted. *)
Theorem duplicate_rows_counts_repeats (T : DataFrame) :
  duplicate_rows (assess_data_quality T) = count_repeats row_eqb (rows T)
  /\ duplicate_rows (assess_data_quality T) = group_excess row_eqb (rows T).
Proof.
  simpl. unfold duplicated_sum, duplicated. split.
  - apply count_repeats_duplicated.
  - apply group_excess_duplicated.
    + apply row_eqb_refl.
    + apply row_eqb_sym.
    + apply row_eqb_trans.
Qed.

(** C9: removing duplicates is idempotent, and the rows it keeps are the
    first occurrences, in their original order. *)
Theorem drop_duplicates_idempotent (T : DataFrame) :
  aligned T ->
  drop_duplicates (drop_duplicates T) = drop_duplicates T
  /\ rows (drop_duplicates T) = first_occurrences row_eqb (rows T).
Proof.
  intros Hal. split; [|by apply rows_drop_duplicates].
  assert (HalD : aligned (drop_duplicates T)).
  { apply aligned_filter_rows; [done|]. by rewrite length_map, length_duplicated. }
  unfold drop_duplicates at 1. unfold duplicated, duplicated_mask.
  rewrite (rows_drop_duplicates T Hal). unfold first_occurrences.
  rewrite duplicated_from_first_occurrences by (intros y Hy; exact Hy).
  rewrite map_negb_repeat_false.
  change (first_occurrences_from row_eqb [] (rows T))
    with (first_occurrences row_eqb (rows T)).
  rewrite <- (rows_drop_duplicates T Hal), length_rows.
  by apply filter_rows_repeat_true.
Qed.

(** ** Reading and writing columns *)

Lemma column_names_set_col (d : DataFrame) (col : string) (c : coldata) :
  column_names (set_col d col c) = column_names d.
Proof.
  induction d as [|s d IH]; simpl; [done|].
  destruct (String.eqb (name s) col); simpl; [done | by rewrite IH].
Qed.

Lemma get_col_set_col (d : DataFrame) (col : string) (c : coldata) :
  get_col (set_col d col c) col = (fun _ => c) <$> get_col d col.
Proof.
  induction d as [|s d IH]; simpl; [done|].
  destruct (String.eqb (name s) col) eqn:Hs; simpl; rewrite Hs; done.
Qed.

Lemma get_col_set_col_ne (d : DataFrame) (col col' : string) (c : coldata) :
  col' <> col -> get_col (set_col d col c) col' = get_col d col'.
Proof.
  intros Hne. induction d as [|s d IH]; simpl; [done|].
  destruct (String.eqb (name s) col) eqn:Hs; simpl.
  - apply String.eqb_eq in Hs. subst col.
    destruct (String.eqb (name s) col') eqn:Hs'; [|done].
    apply String.eqb_eq in Hs'. congruence.
  - by rewrite IH.
Qed.

Lemma set_col_absent (d : DataFrame) (col : string) (c : coldata) :
  get_col d col = None -> set_col d col c = d.
Proof.
  induction d as [|s d IH]; simpl; [done|].
  destruct (String.eqb (name s) col); [done|]. intros H. by rewrite IH.
Qed.

Lemma nrows_set_col (d : DataFrame) (col : string) (c : coldata) :
  (forall c0, get_col d col = Some c0 -> col_length c = col_length c0) ->
  nrows (set_col d col c) = nrows d.
Proof.
  destruct d as [|s d]; simpl; [done|].
  destruct (String.eqb (name s) col); simpl; [|done].
  intros H. by apply H.
Qed.

Lemma get_col_app_notin (pre d : DataFrame) (col : string) :
  col ∉ column_names pre -> get_col (pre ++ d) col = get_col d col.
Proof.
  induction pre as [|s pre IH]; simpl; [done|].
  intros Hnot. apply not_elem_of_cons in Hnot as [Hne Hnot].
  destruct (String.eqb (name s) col) eqn:Hs.
  - apply String.eqb_eq in Hs. congruence.
  - by apply IH.
Qed.

Lemma set_col_app_notin (pre d : DataFrame) (col : string) (c : coldata) :
  col ∉ column_names pre -> set_col (pre ++ d) col c = pre ++ set_col d col c.
Proof.
  induction pre as [|s pre IH]; simpl; [done|].
  intros Hnot. apply not_elem_of_cons in Hnot as [Hne Hnot].
  destruct (String.eqb (name s) col) eqn:Hs.
  - apply String.eqb_eq in Hs. congruence.
  - by rewrite IH.
Qed.

Lemma get_col_elem_of (d : DataFrame) (col : string) (c : coldata) :
  get_col d col = Some c -> mkSeries col c ∈ d.
Proof.
  induction d as [|s d IH]; simpl; [done|].
  destruct (String.eqb (name s) col) eqn:Hs.
  - apply String.eqb_eq in Hs. intros [= <-]. subst col. destruct s. apply list_elem_of_here.
  - intros H. apply list_elem_of_further. by apply IH.
Qed.

Lemma get_col_NoDup (d : DataFrame) (s : Series) :
  NoDup (column_names d) -> s ∈ d -> get_col d (name s) = Some (data s).
Proof.
  induction d as [|s0 d IH]; simpl; intros Hnd Hin.
  - by apply elem_of_nil in Hin.
  - apply NoDup_cons in Hnd as [Hnot Hnd].
    apply elem_of_cons in Hin as [-> | Hin].
    + by rewrite String.eqb_refl.
    + destruct (String.eqb (name s0) (name s)) eqn:Hs; [|by apply IH].
      apply String.eqb_eq in Hs. exfalso. apply Hnot. rewrite Hs.
      unfold column_names. apply list_elem_of_In, in_map, list_elem_of_In, Hin.
Qed.

Lemma column_names_map_columns (f : coldata -> coldata) (d : DataFrame) :
  column_names (map_columns f d) = column_names d.
Proof. unfold column_names, map_columns. by rewrite map_map. Qed.

Lemma get_col_map_columns (f : coldata -> coldata) (d : DataFrame) (col : string) :
  get_col (map_columns f d) col = f <$> get_col d col.
Proof.
  induction d as [|s d IH]; simpl; [done|].
  destruct (String.eqb (name s) col); [done | apply IH].
Qed.

Lemma get_col_filter_rows (m : list bool) (d : DataFrame) (col : string) :
  get_col (filter_rows m d) col = filter_col m <$> get_col d col.
Proof. apply (get_col_map_columns (filter_col m)). Qed.

(** ** A loop over the columns is a map over the columns *)

Section ColumnLoop.
Variable f : coldata -> coldata.
Variable g : string -> coldata -> list change.
Variable body : DataFrame * list change -> string -> DataFrame * list change.
Hypothesis body_spec : forall d changes col c,
  get_col d col = Some c ->
  body (d, changes) col = (set_col d col (f c), changes ++ g col c).

Lemma column_loop_from (post pre : DataFrame) (changes : list change) :
  NoDup (column_names (pre ++ post)) ->
  foldl body (pre ++ post, changes) (column_names post)
  = (pre ++ map_columns f post,
     changes ++ flat_map (fun s => g (name s) (data s)) post).
Proof.
  revert pre changes. induction post as [|s post IH]; intros pre changes Hnd; simpl.
  - by rewrite !app_nil_r.
  - assert (Hnot : name s ∉ column_names pre).
    { unfold column_names in Hnd. rewrite map_app in Hnd.
      apply NoDup_app in Hnd as (_ & Hdisj & _). intros Hin.
      apply (Hdisj _ Hin). simpl. apply list_elem_of_here. }
    rewrite (body_spec _ _ _ (data s)).
    2:{ rewrite get_col_app_notin by done. simpl. by rewrite String.eqb_refl. }
    rewrite set_col_app_notin by done. simpl. rewrite String.eqb_refl.
    rewrite (cons_middle _ pre post), app_assoc.
    rewrite IH.
    + rewrite <- !app_assoc. done.
    + rewrite <- app_assoc. simpl.
      unfold column_names in *. rewrite !map_app in *. simpl in *. done.
Qed.

Lemma column_loop (d : DataFrame) (changes : list change) :
  NoDup (column_names d) ->
  foldl body (d, changes) (column_names d)
  = (map_columns f d, changes ++ flat_map (fun s => g (name s) (data s)) d).
Proof. intros Hnd. apply (column_loop_from d [] changes Hnd). Qed.

End ColumnLoop.

(** ** The store *)

Lemma deref_lookup (h : store) (r : nat) (d : DataFrame) :
  h !! r = Some d -> deref h r = d.
Proof. unfold deref. by intros ->. Qed.

Section InPlaceLoop.
Variable df : nat.
Variable sbody : store * list change -> string -> store * list change.
Variable fframe : DataFrame -> string -> DataFrame.
Variable flog : DataFrame -> string -> list change.
Hypothesis sbody_spec : forall (h : store) d changes col,
  h !! df = Some d ->
  sbody (h, changes) col = (<[df := fframe d col]> h, changes ++ flog d col).

Lemma in_place_loop (cols : list string) (h : store) (d : DataFrame)
    (changes : list change) :
  h !! df = Some d ->
  foldl sbody (h, changes) cols
  = (<[df := foldl fframe d cols]> h, changes ++ loop_log fframe flog cols d).
Proof.
  revert h d changes. induction cols as [|col cols IH]; intros h d changes Hd; simpl.
  - by rewrite list_insert_id, app_nil_r.
  - rewrite (sbody_spec h d changes col Hd).
    rewrite (IH _ (fframe d col)).
    + by rewrite list_insert_insert_eq, app_assoc.
    + apply list_lookup_insert_eq. by eapply lookup_lt_Some.
Qed.
End InPlaceLoop.

Lemma fill_missing_col_frame (df : nat) (fill_method : option FillMethod)
    (h : store) (d : DataFrame) (changes : list change) (col : string) :
  h !! df = Some d ->
  fill_missing_col df fill_method (h, changes) col
  = (<[df := fill_frame_col fill_method d col]> h,
     changes ++ fill_log_col fill_method d col).
Proof.
  intros Hd. unfold fill_missing_col, fill_log_col, series, write_col.
  rewrite (deref_lookup h df d Hd).
  assert (Hnew : deref (<[df := set_col d col (fill_series fill_method (column d col))]> h) df
                 = fill_frame_col fill_method d col).
  { apply deref_lookup, list_lookup_insert_eq. by eapply lookup_lt_Some. }
  rewrite Hnew.
  destruct (isnull_sum (column (fill_frame_col fill_method d col) col)
            <? isnull_sum (column d col)); [done|].
  by rewrite app_nil_r.
Qed.

Lemma fill_missing_step_frame (fill_method : option FillMethod) (h : store)
    (df : nat) (d : DataFrame) (changes : list change) :
  h !! df = Some d ->
  fill_missing_step fill_method h df changes
  = (<[df := fill_frame fill_method d]> h,
     changes ++ loop_log (fill_frame_col fill_method) (fill_log_col fill_method)
                         (column_names d) d).
Proof.
  intros Hd. unfold fill_missing_step, fill_frame.
  rewrite (deref_lookup h df d Hd).
  apply in_place_loop; [|done].
  intros. by apply fill_missing_col_frame.
Qed.

Lemma convert_dates_col_frame (df : nat) (h : store) (d : DataFrame)
    (changes : list change) (col : string) :
  h !! df = Some d ->
  convert_dates_col df (h, changes) col
  = (<[df := convert_frame_col d col]> h,
     changes ++ convert_log_col d col).
Proof.
  intros Hd. unfold convert_dates_col, convert_frame_col, convert_log_col, series, write_col.
  rewrite (deref_lookup h df d Hd).
  destruct (column d col) as [l|l|l|l|l];
    try (by rewrite list_insert_id, app_nil_r).
  destruct (to_datetime l); [done|].
  by rewrite list_insert_id, app_nil_r.
Qed.

Lemma convert_dates_step_frame (h : store) (df : nat) (d : DataFrame)
    (changes : list change) :
  h !! df = Some d ->
  convert_dates_step h df changes
  = (<[df := convert_frame d]> h,
     changes ++ loop_log convert_frame_col
                         convert_log_col (column_names d) d).
Proof.
  intros Hd. unfold convert_dates_step, convert_frame.
  rewrite (deref_lookup h df d Hd).
  apply in_place_loop; [|done].
  intros. by apply convert_dates_col_frame.
Qed.

(** The mask the outlier loop builds is the fence test of the
    specification, value by value. *)
Lemma bounds_mask_fence (m : Q) (s : list (option Q)) :
  bounds_mask
    (nan_sub (quantile (1 # 4) s)
       (nan_scale m (nan_sub (quantile (3 # 4) s) (quantile (1 # 4) s))))
    (nan_add (quantile (3 # 4) s)
       (nan_scale m (nan_sub (quantile (3 # 4) s) (quantile (1 # 4) s)))) s
  = map (within_fence (iqr_fence m s)) s.
Proof.
  unfold bounds_mask, iqr_fence.
  destruct (quantile (1 # 4) s) as [q1|], (quantile (3 # 4) s) as [q3|]; simpl;
    apply map_ext; intros [x|]; done.
Qed.

Lemma within_fence_spec (m : Q) (s : list (option Q)) (v : option Q) :
  within_fence (iqr_fence m s) v = true <->
  exists q1 q3 x,
    quantile (1 # 4) s = Some q1 /\ quantile (3 # 4) s = Some q3 /\ v = Some x /\
    (float_sub pd q1 (float_mul pd m (float_sub pd q3 q1)) <= x)%Q /\
    (x <= float_add pd q3 (float_mul pd m (float_sub pd q3 q1)))%Q.
Proof.
  unfold within_fence, iqr_fence.
  destruct (quantile (1 # 4) s) as [q1|], (quantile (3 # 4) s) as [q3|], v as [x|];
    simpl; split; try done; try (by intros (? & ? & ? & ? & ? & ? & ?)).
  - intros [H1 H2]%andb_true_iff. apply Qle_bool_iff in H1, H2.
    exists q1, q3, x. done.
  - intros (a & b & c & [= <-] & [= <-] & [= <-] & H1 & H2).
    apply andb_true_iff. by rewrite !Qle_bool_iff.
Qed.

Lemma remove_outliers_col_frame (m : Q) (h : store) (df : nat) (d : DataFrame)
    (n : nat) (col : string) :
  h !! df = Some d ->
  remove_outliers_col m (h, df, n) col
  = (h ++ [trim_column m d col], length h,
     n + (nrows d - nrows (trim_column m d col))).
Proof.
  intros Hd. unfold remove_outliers_col, alloc, series, trim_column.
  rewrite (deref_lookup h df d Hd), bounds_mask_fence.
  rewrite (deref_lookup (h ++ [_]) (length h) _ (list_lookup_middle h [] _ _ eq_refl)).
  done.
Qed.

Lemma remove_outliers_loop (m : Q) (cols : list string) (h : store) (df : nat)
    (d : DataFrame) (n : nat) :
  h !! df = Some d ->
  exists (k : store) df',
    foldl (remove_outliers_col m) (h, df, n) cols
    = (h ++ k, df', n + (trim_outliers m cols d).2)
    /\ (h ++ k) !! df' = Some (trim_outliers m cols d).1.
Proof.
  revert h df d n. induction cols as [|col cols IH]; intros h df d n Hd;
    cbn [foldl trim_outliers].
  - exists [], df. rewrite app_nil_r. split; [simpl; f_equal; lia | done].
  - rewrite (remove_outliers_col_frame m h df d n col Hd).
    destruct (IH (h ++ [trim_column m d col]) (length h) (trim_column m d col)
                 (n + (nrows d - nrows (trim_column m d col)))
                 (list_lookup_middle h [] _ _ eq_refl)) as (k & df' & Hrun & Hk).
    exists (trim_column m d col :: k), df'.
    rewrite (cons_middle _ h k), app_assoc.
    destruct (trim_outliers m cols (trim_column m d col)) as [d' n'] eqn:Ht.
    simpl in *. split; [|done]. rewrite Hrun. f_equal. lia.
Qed.

Lemma remove_outliers_step_frame (m : Q) (h : store) (df : nat) (d : DataFrame)
    (changes : list change) :
  h !! df = Some d ->
  exists (k : store) df',
    remove_outliers_step m h df changes
    = (h ++ k, df',
       changes ++
         let total := (trim_outliers m (column_names (select_dtypes_number d)) d).2 in
         if 0 <? total then [RemovedOutliers total m] else [])
    /\ (h ++ k) !! df' = Some (outliers_frame m d).
Proof.
  intros Hd. unfold remove_outliers_step, outliers_frame.
  rewrite (deref_lookup h df d Hd).
  destruct (remove_outliers_loop m (column_names (select_dtypes_number d)) h df d 0 Hd)
    as (k & df' & -> & Hk).
  exists k, df'. split; [|done]. simpl.
  destruct (0 <? _); [done | by rewrite app_nil_r].
Qed.

Lemma remove_duplicates_step_frame (original_shape : nat * nat)
    (original_duplicates : nat) (h : store) (df : nat) (d : DataFrame)
    (changes : list change) :
  h !! df = Some d ->
  remove_duplicates_step original_shape original_duplicates h df changes
  = (h ++ [drop_duplicates d], length h,
     changes ++ if nrows (drop_duplicates d) <? original_shape.1
                then [RemovedDuplicates original_duplicates] else []).
Proof.
  intros Hd. unfold remove_duplicates_step, alloc.
  rewrite (deref_lookup h df d Hd).
  rewrite (deref_lookup (h ++ [_]) (length h) _ (list_lookup_middle h [] _ _ eq_refl)).
  destruct (_ <? _); [done | by rewrite app_nil_r].
Qed.

(** ** What a run of [clean_data] does to the store *)

(** The store after a run is the store before it, with the frame of the
    argument possibly rewritten in place and fresh frames appended; the
    returned reference points to [clean_frame] of the argument. *)
Lemma clean_data_run (h : store) (df : nat) (T : DataFrame)
    (operations : gmap string bool) (fill_method : option FillMethod)
    (outlier_threshold : Q) :
  h !! df = Some T ->
  exists (T0 : DataFrame) (k : store) (df' : nat) (changes : list change),
    clean_data h df operations fill_method outlier_threshold
    = (<[df := T0]> h ++ k, df', changes)
    /\ (<[df := T0]> h ++ k) !! df'
       = Some (clean_frame T operations fill_method outlier_threshold)
    /\ (get_op operations "remove_duplicates" = true -> T0 = T)
    /\ (get_op operations "fill_missing" = false ->
        get_op operations "convert_dates" = false -> T0 = T).
Proof.
  intros HT. unfold clean_data, clean_frame. rewrite (deref_lookup h df T HT).
  cbv zeta.
  set (d1 := if get_op operations "remove_duplicates" then drop_duplicates T else T).
  assert (H1 : exists (h1 : store) df1 ch1,
    (if get_op operations "remove_duplicates"
     then remove_duplicates_step (shape T) (duplicated_sum T) h df []
     else (h, df, [])) = (h1, df1, ch1)
    /\ h1 !! df1 = Some d1
    /\ ((get_op operations "remove_duplicates" = true /\ h1 = h ++ [d1] /\ df1 = length h)
        \/ (get_op operations "remove_duplicates" = false /\ h1 = h /\ df1 = df))).
  { subst d1. destruct (get_op operations "remove_duplicates").
    - rewrite (remove_duplicates_step_frame _ _ h df T [] HT).
      eexists _, _, _. split; [done|]. split; [by apply list_lookup_middle|].
      left. done.
    - eexists _, _, _. split; [done|]. split; [done|]. right. done. }
  destruct H1 as (h1 & df1 & ch1 & -> & Hd1 & Hcase).
  set (d2 := if get_op operations "fill_missing" then fill_frame fill_method d1 else d1).
  assert (H2 : exists ch2,
    (if get_op operations "fill_missing"
     then fill_missing_step fill_method h1 df1 ch1 else (h1, ch1))
    = (<[df1 := d2]> h1, ch2)).
  { subst d2. destruct (get_op operations "fill_missing").
    - rewrite (fill_missing_step_frame fill_method h1 df1 d1 ch1 Hd1). eauto.
    - rewrite list_insert_id by done. eauto. }
  destruct H2 as (ch2 & ->).
  assert (Hd2 : <[df1 := d2]> h1 !! df1 = Some d2).
  { apply list_lookup_insert_eq. by eapply lookup_lt_Some. }
  set (d3 := if get_op operations "convert_dates"
             then convert_frame d2 else d2).
  assert (H3 : exists ch3,
    (if get_op operations "convert_dates"
     then convert_dates_step (<[df1 := d2]> h1) df1 ch2
     else (<[df1 := d2]> h1, ch2))
    = (<[df1 := d3]> h1, ch3)).
  { subst d3. destruct (get_op operations "convert_dates").
    - rewrite (convert_dates_step_frame _ df1 d2 ch2 Hd2).
      rewrite list_insert_insert_eq. eauto.
    - eauto. }
  destruct H3 as (ch3 & ->).
  assert (Hd3 : <[df1 := d3]> h1 !! df1 = Some d3).
  { apply list_lookup_insert_eq. by eapply lookup_lt_Some. }
  set (d4 := if get_op operations "remove_outliers"
             then outliers_frame outlier_threshold d3 else d3).
  assert (H4 : exists (k : store) df' ch4,
    (if get_op operations "remove_outliers"
     then remove_outliers_step outlier_threshold (<[df1 := d3]> h1) df1 ch3
     else (<[df1 := d3]> h1, df1, ch3))
    = (<[df1 := d3]> h1 ++ k, df', ch4)
    /\ (<[df1 := d3]> h1 ++ k) !! df' = Some d4).
  { subst d4. destruct (get_op operations "remove_outliers").
    - destruct (remove_outliers_step_frame outlier_threshold _ df1 d3 ch3 Hd3)
        as (k & df' & -> & Hk). eauto 6.
    - exists [], df1, ch3. rewrite app_nil_r. done. }
  destruct H4 as (k & df' & ch4 & -> & Hd4).
  rewrite (deref_lookup _ _ _ Hd4).
  destruct Hcase as [(Hdup & -> & ->) | (Hdup & -> & ->)].
  - exists T, ([d3] ++ k), df', (summary_changes (shape T) (total_missing T) d4 ch4).
    assert (Hst : <[length h := d3]> (h ++ [d1]) ++ k = <[df := T]> h ++ [d3] ++ k).
    { rewrite insert_app_r_alt by lia. rewrite Nat.sub_diag. simpl.
      rewrite (list_insert_id h df T HT). by rewrite <- app_assoc. }
    rewrite <- Hst. done.
  - exists d3, k, df', (summary_changes (shape T) (total_missing T) d4 ch4).
    split; [done|]. split; [done|]. split; [congruence|].
    intros Hfill Hconv. subst d3 d2 d1. by rewrite Hfill, Hconv, Hdup.
Qed.

(** Frames other than the argument are left alone. *)
Lemma clean_data_frame_rule (h : store) (df : nat) (T : DataFrame)
    (operations : gmap string bool) (fill_method : option FillMethod)
    (outlier_threshold : Q) (r : nat) :
  h !! df = Some T -> r <> df -> r < length h ->
  (clean_data h df operations fill_method outlier_threshold).1.1 !! r
  = h !! r.
Proof.
  intros HT Hne Hr.
  destruct (clean_data_run h df T operations fill_method outlier_threshold HT)
    as (T0 & k & df' & changes & -> & _).
  simpl. rewrite lookup_app_l by (by rewrite length_insert).
  by apply list_lookup_insert_ne.
Qed.

(** ** The caller's table *)

(** C1, as the code has it: [clean_data] writes through the reference it
    is given (the fill loop and the date conversion work in place) unless
    duplicate removal has first rebound [df] to a fresh frame; the
    caller's table is protected by the copy made at the call site,
    [clean_data(df.copy(), ...)].  Through that call the caller's table
    holds exactly the values it held before, for every table and every
    configuration; a direct call leaves its argument untouched whenever
    remove-duplicates is enabled or neither fill-missing nor
    convert-dates is. *)
Theorem caller_table_preserved (h : store) (df : nat) (T : DataFrame)
    (operations : gmap string bool) (fill_method : option FillMethod)
    (outlier_threshold : Q) :
  h !! df = Some T ->
  result_store (apply_cleaning h df operations fill_method
                               outlier_threshold) !! df = Some T
  /\ (get_op operations "remove_duplicates" = true
      \/ (get_op operations "fill_missing" = false
          /\ get_op operations "convert_dates" = false) ->
      result_store (clean_data h df operations fill_method
                               outlier_threshold) !! df = Some T).
Proof.
  intros HT. split.
  - unfold apply_cleaning, alloc, result_store.
    rewrite (deref_lookup h df T HT).
    pose proof (lookup_lt_Some _ _ _ HT) as Hlt.
    rewrite (clean_data_frame_rule (h ++ [T]) (length h) T).
    + by apply lookup_app_l_Some.
    + by apply list_lookup_middle.
    + lia.
    + rewrite length_app. simpl. lia.
  - intros Hops. unfold result_store.
    destruct (clean_data_run h df T operations fill_method
                outlier_threshold HT) as (T0 & k & df' & changes & -> & _ & Hdup & Hfill).
    assert (T0 = T) as ->.
    { destruct Hops as [Hd | [Hf Hc]]; [by apply Hdup | by apply Hfill]. }
    simpl. apply lookup_app_l_Some. by rewrite list_insert_id.
Qed.

(** ** Shape of the cleaned table *)

Lemma foldl_invariant {X : Type} (mu : DataFrame -> X)
    (f : DataFrame -> string -> DataFrame) (cols : list string) (d : DataFrame) :
  (forall d col, mu (f d col) = mu d) -> mu (foldl f d cols) = mu d.
Proof.
  intros Hf. revert d. induction cols as [|col cols IH]; intros d; simpl; [done|].
  by rewrite IH, Hf.
Qed.

Lemma column_get_col (d : DataFrame) (col : string) (c : coldata) :
  get_col d col = Some c -> column d col = c.
Proof. unfold column. by intros ->. Qed.

Lemma length_fillna {A : Type} (v : A) (l : list (option A)) :
  length (fillna v l) = length l.
Proof. unfold fillna. apply length_map. Qed.

Lemma col_length_fillna_num (v : option Q) (c : coldata) :
  col_length (fillna_num v c) = col_length c.
Proof. destruct c, v; simpl; try done. apply length_fillna. Qed.

Lemma col_length_fill_series (fill_method : option FillMethod) (c : coldata) :
  col_length (fill_series fill_method c) = col_length c.
Proof.
  unfold fill_series. destruct (is_number (dtype_of c)).
  - destruct fill_method as [[]|]; try done; apply col_length_fillna_num.
  - destruct c; simpl; try done.
    + apply length_fillna.
    + destruct (modes Z.eqb Z.leb (dropna l)); simpl; [|apply length_fillna].
      destruct (0 <? count_missing l); simpl; [apply length_map | done].
Qed.

Lemma to_datetime_length (l : list (option string)) (ts : list (option Z)) :
  to_datetime l = Some ts -> length ts = length l.
Proof.
  unfold to_datetime. intros H. apply mapM_Some in H.
  symmetry. by eapply Forall2_length.
Qed.

Lemma col_length_convert_series (c : coldata) :
  col_length (convert_series c) = col_length c.
Proof.
  destruct c; simpl; try done.
  destruct (to_datetime l) eqn:Hp; simpl; [|done].
  by eapply to_datetime_length.
Qed.

Lemma convert_frame_col_set (d : DataFrame) (col : string) :
  convert_frame_col d col
  = match get_col d col with
    | Some c => set_col d col (convert_series c)
    | None => d
    end.
Proof.
  unfold convert_frame_col, column.
  assert (Hsame : forall c, get_col d col = Some c -> set_col d col c = d).
  { clear. induction d as [|s d IH]; simpl; [done|]. intros c.
    destruct (String.eqb (name s) col).
    - intros [= <-]. by destruct s.
    - intros H. by rewrite (IH c H). }
  destruct (get_col d col) as [c|] eqn:Hc; simpl;
    [|by apply set_col_absent].
  destruct c; simpl; try (by rewrite Hsame).
  destruct (to_datetime l); [done | by rewrite Hsame].
Qed.

Lemma column_names_fill_frame (fill_method : option FillMethod) (d : DataFrame) :
  column_names (fill_frame fill_method d) = column_names d.
Proof.
  unfold fill_frame. apply (foldl_invariant column_names).
  intros d' col. apply column_names_set_col.
Qed.

Lemma nrows_fill_frame (fill_method : option FillMethod) (d : DataFrame) :
  nrows (fill_frame fill_method d) = nrows d.
Proof.
  unfold fill_frame. apply (foldl_invariant nrows).
  intros d' col. unfold fill_frame_col. apply nrows_set_col.
  intros c0 Hc0. rewrite (column_get_col _ _ _ Hc0). apply col_length_fill_series.
Qed.

Lemma column_names_convert_frame (d : DataFrame) :
  column_names (convert_frame d) = column_names d.
Proof.
  unfold convert_frame. apply (foldl_invariant column_names).
  intros d' col. rewrite convert_frame_col_set.
  destruct (get_col d' col); [apply column_names_set_col | done].
Qed.

Lemma nrows_convert_frame (d : DataFrame) :
  nrows (convert_frame d) = nrows d.
Proof.
  unfold convert_frame. apply (foldl_invariant nrows).
  intros d' col. rewrite convert_frame_col_set.
  destruct (get_col d' col) as [c|] eqn:Hc; [|done].
  apply nrows_set_col. intros c0 Hc0.
  assert (c0 = c) as -> by congruence. apply col_length_convert_series.
Qed.

Lemma column_names_trim_outliers (m : Q) (cols : list string) (d : DataFrame) :
  column_names (trim_outliers m cols d).1 = column_names d.
Proof.
  revert d. induction cols as [|col cols IH]; intros d; cbn [trim_outliers]; [done|].
  specialize (IH (trim_column m d col)).
  destruct (trim_outliers m cols (trim_column m d col)) as [d' n]. simpl in *.
  rewrite IH. apply column_names_filter_rows.
Qed.

Lemma nrows_trim_column_le (m : Q) (d : DataFrame) (col : string) :
  nrows (trim_column m d col) <= nrows d.
Proof. apply nrows_filter_rows_le. Qed.

(** The rows removed are exactly the difference of the row counts. *)
Lemma trim_outliers_total (m : Q) (cols : list string) (d : DataFrame) :
  nrows (trim_outliers m cols d).1 <= nrows d
  /\ (trim_outliers m cols d).2 = nrows d - nrows (trim_outliers m cols d).1.
Proof.
  revert d. induction cols as [|col cols IH]; intros d; cbn [trim_outliers].
  - simpl. lia.
  - specialize (IH (trim_column m d col)).
    pose proof (nrows_trim_column_le m d col) as Hle.
    destruct (trim_outliers m cols (trim_column m d col)) as [d' n]. simpl in *. lia.
Qed.

Lemma column_names_clean_frame (T : DataFrame) (operations : gmap string bool)
    (fill_method : option FillMethod) (outlier_threshold : Q) :
  column_names (clean_frame T operations fill_method outlier_threshold)
  = column_names T.
Proof.
  unfold clean_frame, outliers_frame, drop_duplicates.
  destruct (get_op operations "remove_outliers");
    destruct (get_op operations "convert_dates");
    destruct (get_op operations "fill_missing");
    destruct (get_op operations "remove_duplicates");
    rewrite ?column_names_trim_outliers, ?column_names_convert_frame,
      ?column_names_fill_frame, ?column_names_filter_rows; done.
Qed.

Lemma result_frame_clean_data
    (h : store) (df : nat) (T : DataFrame) (operations : gmap string bool)
    (fill_method : option FillMethod) (outlier_threshold : Q) :
  h !! df = Some T ->
  result_frame (clean_data h df operations fill_method outlier_threshold)
  = clean_frame T operations fill_method outlier_threshold.
Proof.
  intros HT.
  destruct (clean_data_run h df T operations fill_method
              outlier_threshold HT) as (T0 & k & df' & changes & -> & Hres & _).
  unfold result_frame. simpl. by apply deref_lookup.
Qed.

(** C7: the cleaned table has at most as many rows as the table given when
    remove-duplicates or remove-outliers is enabled, and exactly as many
    when neither is. *)
Theorem clean_data_row_count
    (h : store) (df : nat) (T : DataFrame) (operations : gmap string bool)
    (fill_method : option FillMethod) (outlier_threshold : Q) :
  h !! df = Some T ->
  (get_op operations "remove_duplicates" = true
   \/ get_op operations "remove_outliers" = true ->
   nrows (result_frame (clean_data h df operations fill_method
                                   outlier_threshold)) <= nrows T)
  /\ (get_op operations "remove_duplicates" = false ->
      get_op operations "remove_outliers" = false ->
      nrows (result_frame (clean_data h df operations fill_method
                                      outlier_threshold)) = nrows T).
Proof.
  intros HT. rewrite (result_frame_clean_data _ _ T) by done.
  unfold clean_frame, outliers_frame.
  pose proof (nrows_filter_rows_le (map negb (duplicated T)) T) as Hdup.
  fold (drop_duplicates T) in Hdup.
  set (d1 := if get_op operations "remove_duplicates" then drop_duplicates T else T).
  assert (H1 : nrows d1 <= nrows T
               /\ (get_op operations "remove_duplicates" = false -> nrows d1 = nrows T)).
  { subst d1. destruct (get_op operations "remove_duplicates"); split; try done; lia. }
  set (d2 := if get_op operations "fill_missing" then fill_frame fill_method d1 else d1).
  assert (H2 : nrows d2 = nrows d1).
  { subst d2. destruct (get_op operations "fill_missing"); [apply nrows_fill_frame | done]. }
  set (d3 := if get_op operations "convert_dates"
             then convert_frame d2 else d2).
  assert (H3 : nrows d3 = nrows d2).
  { subst d3. destruct (get_op operations "convert_dates");
      [apply nrows_convert_frame | done]. }
  pose proof (trim_outliers_total outlier_threshold
                (column_names (select_dtypes_number d3)) d3) as [H4 _].
  destruct H1 as [H1 H1'].
  destruct (get_op operations "remove_outliers"); split; intros; try lia.
  rewrite H3, H2. by apply H1'.
Qed.

(** C8: the cleaned table has exactly the columns of the table given: the
    same names, in the same order, hence the same count. *)
Theorem clean_data_columns
    (h : store) (df : nat) (T : DataFrame) (operations : gmap string bool)
    (fill_method : option FillMethod) (outlier_threshold : Q) :
  h !! df = Some T ->
  column_names (result_frame (clean_data h df operations fill_method
                                         outlier_threshold)) = column_names T
  /\ ncols (result_frame (clean_data h df operations fill_method
                                     outlier_threshold)) = ncols T.
Proof.
  intros HT. rewrite (result_frame_clean_data _ _ T) by done.
  pose proof (column_names_clean_frame T operations fill_method
                outlier_threshold) as Hn.
  split; [done|]. unfold ncols.
  rewrite <- (length_map name), <- (length_map name T). unfold column_names in Hn.
  by rewrite Hn.
Qed.

(** ** The fill loop and the conversion loop, column by column *)

Lemma pair_loop (fframe : DataFrame -> string -> DataFrame)
    (flog : DataFrame -> string -> list change)
    (cols : list string) (d : DataFrame) (changes : list change) :
  foldl (fun st col => (fframe st.1 col, st.2 ++ flog st.1 col)) (d, changes) cols
  = (foldl fframe d cols, changes ++ loop_log fframe flog cols d).
Proof.
  revert d changes. induction cols as [|col cols IH]; intros d changes; simpl.
  - by rewrite app_nil_r.
  - by rewrite IH, app_assoc.
Qed.

Lemma frame_loop_map (f : coldata -> coldata) (g : string -> coldata -> list change)
    (fframe : DataFrame -> string -> DataFrame)
    (flog : DataFrame -> string -> list change) (d : DataFrame) :
  (forall d col c, get_col d col = Some c ->
     fframe d col = set_col d col (f c) /\ flog d col = g col c) ->
  NoDup (column_names d) ->
  foldl fframe d (column_names d) = map_columns f d
  /\ loop_log fframe flog (column_names d) d
     = flat_map (fun s => g (name s) (data s)) d.
Proof.
  intros Hspec Hnd.
  assert (Hbody : forall d changes col c,
    get_col d col = Some c ->
    (fun (st : DataFrame * list change) col =>
       (fframe st.1 col, st.2 ++ flog st.1 col)) (d, changes) col
    = (set_col d col (f c), changes ++ g col c)).
  { intros d' changes col c Hc. simpl. by destruct (Hspec d' col c Hc) as [-> ->]. }
  pose proof (column_loop f g _ Hbody d [] Hnd) as Hloop.
  rewrite pair_loop in Hloop. simpl in Hloop. by injection Hloop.
Qed.

Lemma fill_frame_map (fill_method : option FillMethod) (d : DataFrame) :
  NoDup (column_names d) ->
  fill_frame fill_method d = map_columns (fill_series fill_method) d.
Proof.
  intros Hnd. unfold fill_frame.
  apply (frame_loop_map (fill_series fill_method) (fun _ _ => [])
           (fill_frame_col fill_method) (fun _ _ => [])); [|done].
  intros d' col c Hc. unfold fill_frame_col. by rewrite (column_get_col _ _ _ Hc).
Qed.

Lemma convert_frame_map (d : DataFrame) :
  NoDup (column_names d) ->
  convert_frame d = map_columns convert_series d
  /\ loop_log convert_frame_col convert_log_col
       (column_names d) d
     = flat_map (fun s => convert_entries (name s) (data s)) d.
Proof.
  intros Hnd. unfold convert_frame.
  apply (frame_loop_map convert_series
           (convert_entries)); [|done].
  intros d' col c Hc. split.
  - by rewrite convert_frame_col_set, Hc.
  - unfold convert_log_col. by rewrite (column_get_col _ _ _ Hc).
Qed.

(** ** Filling removes the missing values *)

Lemma count_missing_fillna {A : Type} (v : A) (l : list (option A)) :
  count_missing (fillna v l) = 0.
Proof. unfold count_missing, fillna. induction l as [|o l IH]; simpl; done. Qed.

Lemma count_missing_const {A B : Type} (v : B) (l : list A) :
  count_missing (map (fun _ => Some v) l) = 0.
Proof. unfold count_missing. induction l as [|o l IH]; simpl; done. Qed.

Lemma count_missing_filter_mask_le {A : Type} (m : list bool) (l : list (option A)) :
  count_missing (filter_mask m l) <= count_missing l.
Proof.
  unfold count_missing. revert l.
  induction m as [|b m IH]; intros [|o l]; simpl; try lia.
  specialize (IH l).
  destruct b; simpl; destruct (negb (bool_decide (is_Some o))); simpl; lia.
Qed.

Lemma isnull_sum_filter_col_le (m : list bool) (c : coldata) :
  isnull_sum (filter_col m c) <= isnull_sum c.
Proof. destruct c; simpl; try lia; apply count_missing_filter_mask_le. Qed.

Lemma isnull_sum_fill_series (fill_method : option FillMethod) (c : coldata) :
  has_fallback fill_method c = true -> isnull_sum (fill_series fill_method c) = 0.
Proof.
  unfold has_fallback, fill_series.
  destruct c as [l|l|l|l|l]; simpl.
  - by destruct fill_method as [[]|].
  - destruct fill_method as [[]|]; try done. intros _. apply count_missing_fillna.
  - intros _. apply count_missing_fillna.
  - intros _. destruct (modes Z.eqb Z.leb (dropna l)); simpl.
    + destruct (0 <? count_missing l) eqn:Hm; simpl.
      * apply count_missing_const.
      * apply Nat.ltb_ge in Hm. lia.
    + apply count_missing_fillna.
  - done.
Qed.

Lemma is_number_fill_series (fill_method : option FillMethod) (c : coldata) :
  is_number (dtype_of (fill_series fill_method c)) = is_number (dtype_of c).
Proof.
  unfold fill_series. destruct c as [l|l|l|l|l]; simpl; try done.
  - by destruct fill_method as [[]|].
  - destruct fill_method as [[]|]; simpl; try done.
    + by destruct (mean l).
    + by destruct (median l).
  - destruct (modes Z.eqb Z.leb (dropna l)); simpl; [|done].
    by destruct (0 <? count_missing l).
Qed.

Lemma is_number_convert_series (c : coldata) :
  is_number (dtype_of (convert_series c)) = is_number (dtype_of c).
Proof.
  destruct c as [l|l|l|l|l]; simpl; try done.
  by destruct (to_datetime l).
Qed.

Lemma count_missing_mapM_to_datetime (l0 l : list (option string))
    (ts : list (option Z)) :
  (forall x, Some x ∈ l -> parse_datetime l0 x <> Some None) ->
  mapM (to_datetime_scalar l0) l = Some ts ->
  count_missing l = 0 -> count_missing ts = 0.
Proof.
  intros Hnat Hts. apply mapM_Some in Hts. unfold count_missing.
  induction Hts as [|o t l ts Hot Hrest IH]; simpl; [done|].
  destruct o as [s|]; simpl; [|done].
  destruct t as [t|]; simpl.
  - apply IH. intros x Hx. apply Hnat. by apply list_elem_of_further.
  - simpl in Hot. exfalso. apply (Hnat s); [apply list_elem_of_here | done].
Qed.

Lemma count_missing_to_datetime (l : list (option string)) (ts : list (option Z)) :
  (forall x, Some x ∈ l -> parse_datetime l x <> Some None) ->
  to_datetime l = Some ts ->
  count_missing l = 0 -> count_missing ts = 0.
Proof. apply count_missing_mapM_to_datetime. Qed.

(** A column without a gap has none after the conversion either, unless
    it is converted and one of its values is parsed to NaT. *)
Lemma isnull_sum_convert_series (c : coldata) :
  (forall l ts, c = ObjectCol l -> to_datetime l = Some ts ->
                forall x, Some x ∈ l -> parse_datetime l x <> Some None) ->
  isnull_sum c = 0 -> isnull_sum (convert_series c) = 0.
Proof.
  intros Hnat. destruct c as [l|l|l|l|l]; simpl; try done.
  destruct (to_datetime l) as [ts|] eqn:Hts; simpl; [|done].
  apply (count_missing_to_datetime l ts); [by apply (Hnat l ts) | done].
Qed.

Lemma filled_fill_series (fill_method : option FillMethod) (d : DataFrame) :
  filled fill_method (map_columns (fill_series fill_method) d).
Proof.
  unfold filled, map_columns. rewrite Forall_map. apply Forall_forall.
  intros s _. simpl. unfold has_fallback. rewrite is_number_fill_series.
  apply isnull_sum_fill_series.
Qed.

Lemma filled_filter_rows (fill_method : option FillMethod) (m : list bool)
    (d : DataFrame) :
  filled fill_method d -> filled fill_method (filter_rows m d).
Proof.
  intros Hd. unfold filled, filter_rows in *. rewrite Forall_map.
  eapply Forall_impl; [exact Hd|]. intros s Hs. simpl. unfold has_fallback in *.
  rewrite dtype_of_filter_col. intros Hfb.
  pose proof (isnull_sum_filter_col_le m (data s)) as Hle.
  rewrite (Hs Hfb) in Hle. lia.
Qed.

Lemma filled_trim_outliers (fill_method : option FillMethod) (m : Q)
    (cols : list string) (d : DataFrame) :
  filled fill_method d -> filled fill_method (trim_outliers m cols d).1.
Proof.
  revert d. induction cols as [|col cols IH]; intros d Hd; cbn [trim_outliers]; [done|].
  specialize (IH (trim_column m d col) (filled_filter_rows _ _ _ Hd)).
  by destruct (trim_outliers m cols (trim_column m d col)).
Qed.

Lemma dict_get_missing_by_column (d : DataFrame) (s : Series) :
  NoDup (column_names d) -> s ∈ d ->
  dict_get (missing_by_column d) (name s) = Some (isnull_sum (data s)).
Proof.
  induction d as [|s0 d IH]; simpl; intros Hnd Hin.
  - by apply elem_of_nil in Hin.
  - apply NoDup_cons in Hnd as [Hnot Hnd].
    apply elem_of_cons in Hin as [-> | Hin].
    + by rewrite String.eqb_refl.
    + destruct (String.eqb (name s0) (name s)) eqn:Hs; [|by apply IH].
      apply String.eqb_eq in Hs. exfalso. apply Hnot. rewrite Hs.
      unfold column_names. apply list_elem_of_In, in_map, list_elem_of_In, Hin.
Qed.

Lemma elem_of_map_columns (f : coldata -> coldata) (d : DataFrame) (s : Series) :
  s ∈ map_columns f d ->
  exists s0, s0 ∈ d /\ s = mkSeries (name s0) (f (data s0)).
Proof.
  unfold map_columns. intros Hs. apply list_elem_of_In, in_map_iff in Hs.
  destruct Hs as (s0 & <- & Hin). exists s0. by rewrite list_elem_of_In.
Qed.

(** A column of the trimmed table is a column of the table it was trimmed
    from, with some of its rows. *)
Lemma elem_of_trim_outliers (m : Q) (cols : list string) (d : DataFrame) (s : Series) :
  s ∈ (trim_outliers m cols d).1 ->
  exists s0, s0 ∈ d /\ name s = name s0
    /\ dtype_of (data s) = dtype_of (data s0)
    /\ isnull_sum (data s) <= isnull_sum (data s0).
Proof.
  revert d. induction cols as [|col cols IH]; intros d; cbn [trim_outliers].
  - intros Hs. exists s. done.
  - specialize (IH (trim_column m d col)).
    destruct (trim_outliers m cols (trim_column m d col)) as [d' n]. simpl in *.
    intros Hs. destruct (IH Hs) as (s1 & Hs1 & Hname & Hty & Hle).
    apply elem_of_map_columns in Hs1 as (s0 & Hs0 & ->). simpl in *.
    exists s0. rewrite dtype_of_filter_col in Hty.
    pose proof (isnull_sum_filter_col_le
                  (map (within_fence (iqr_fence m (num_values (column d col))))
                       (num_values (column d col))) (data s0)).
    repeat split; [done | done | done | lia].
Qed.

(** C2, as the code has it: with fill-missing enabled, a column of the
    cleaned table that has a fallback (any non-numeric column, or a
    numeric column under the fill method Mode) is reported with 0 missing
    values, unless convert-dates is enabled as well, converts the column
    and parses one of the values it holds after the fill to NaT. *)
Theorem fill_missing_eliminates_nulls
    (h : store) (df : nat) (T : DataFrame) (operations : gmap string bool)
    (fill_method : option FillMethod) (outlier_threshold : Q) (s : Series) :
  h !! df = Some T ->
  NoDup (column_names T) ->
  get_op operations "fill_missing" = true ->
  s ∈ result_frame (clean_data h df operations fill_method outlier_threshold) ->
  has_fallback fill_method (data s) = true ->
  (get_op operations "convert_dates" = true ->
   forall l ts,
     get_col (after_fill T operations fill_method) (name s) = Some (ObjectCol l) ->
     to_datetime l = Some ts ->
     forall x, Some x ∈ l -> parse_datetime l x <> Some None) ->
  dict_get (missing_values (assess_data_quality
              (result_frame (clean_data h df operations fill_method
                                        outlier_threshold)))) (name s) = Some 0.
Proof.
  intros HT Hnd Hfill.
  rewrite (result_frame_clean_data _ _ T) by done.
  pose proof (column_names_clean_frame T operations fill_method
                outlier_threshold) as Hnames.
  intros Hs Hfb Hconv. simpl.
  rewrite dict_get_missing_by_column; [| by rewrite Hnames | done].
  f_equal. revert Hs Hconv.
  unfold clean_frame, after_fill, after_duplicates. rewrite Hfill.
  set (d1 := if get_op operations "remove_duplicates" then drop_duplicates T else T).
  assert (Hnd1 : NoDup (column_names d1)).
  { subst d1. destruct (get_op operations "remove_duplicates"); [|done].
    unfold drop_duplicates. by rewrite column_names_filter_rows. }
  cbv zeta. rewrite (fill_frame_map fill_method d1 Hnd1).
  set (d2 := map_columns (fill_series fill_method) d1).
  assert (Hnd2 : NoDup (column_names d2)).
  { subst d2. by rewrite column_names_map_columns. }
  set (d3 := if get_op operations "convert_dates" then convert_frame d2 else d2).
  intros Hs Hconv.
  (* the column before the outlier filter *)
  assert (exists s3, s3 ∈ d3 /\ name s = name s3
            /\ dtype_of (data s) = dtype_of (data s3)
            /\ isnull_sum (data s) <= isnull_sum (data s3))
    as (s3 & Hs3 & Hname3 & Hty3 & Hle3).
  { destruct (get_op operations "remove_outliers").
    - by apply elem_of_trim_outliers in Hs.
    - exists s. done. }
  (* the column after the fill *)
  assert (exists s2, s2 ∈ d2 /\ name s3 = name s2
            /\ data s3 = (if get_op operations "convert_dates"
                          then convert_series (data s2) else data s2))
    as (s2 & Hs2 & Hname2 & Hdata3).
  { subst d3. destruct (get_op operations "convert_dates").
    - destruct (convert_frame_map d2 Hnd2) as [Hmap _]. rewrite Hmap in Hs3.
      apply elem_of_map_columns in Hs3 as (s2 & Hs2 & ->). exists s2. done.
    - exists s3. done. }
  pose proof (get_col_NoDup d2 s2 Hnd2 Hs2) as Hcol2.
  rewrite <- Hname2, <- Hname3 in Hcol2.
  assert (Hfb2 : has_fallback fill_method (data s2) = true).
  { unfold has_fallback in *. rewrite Hty3, Hdata3 in Hfb.
    destruct (get_op operations "convert_dates"); [|done].
    by rewrite is_number_convert_series in Hfb. }
  assert (Hnull2 : isnull_sum (data s2) = 0).
  { subst d2. apply elem_of_map_columns in Hs2 as (s1 & Hs1 & ->). simpl in *.
    apply isnull_sum_fill_series. unfold has_fallback in *.
    by rewrite is_number_fill_series in Hfb2. }
  assert (Hnull3 : isnull_sum (data s3) = 0).
  { rewrite Hdata3. destruct (get_op operations "convert_dates"); [|done].
    apply isnull_sum_convert_series; [|done].
    intros l ts Hl Hts. apply (Hconv eq_refl l ts); [|done]. by rewrite Hcol2, Hl. }
  lia.
Qed.

(** ** Date conversion *)

(** [pd.to_datetime] raises exactly when some present value does not parse. *)
Lemma to_datetime_None (l : list (option string)) :
  to_datetime l = None <->
  exists s, Some s ∈ l /\ parse_datetime l s = None.
Proof.
  unfold to_datetime. rewrite mapM_None, Exists_exists. split.
  - intros ([s|] & Hin & Hs); simpl in Hs; [|done].
    exists s. done.
  - intros (s & Hin & Hs). exists (Some s). done.
Qed.

Lemma converted_entries_absent (col : string) (d : DataFrame) :
  col ∉ column_names d ->
  List.filter (is_converted col)
    (flat_map (fun s => convert_entries (name s) (data s)) d) = [].
Proof.
  induction d as [|s d IH]; simpl; [done|].
  intros [Hne Hnot]%not_elem_of_cons. rewrite List.filter_app, (IH Hnot), app_nil_r.
  assert (Hs : String.eqb (name s) col = false) by (apply String.eqb_neq; congruence).
  unfold convert_entries. destruct (data s) as [l|l|l|l|l]; simpl; try done.
  destruct (to_datetime l); simpl; [by rewrite Hs | done].
Qed.

Lemma converted_entries_column (col : string) (c : coldata) (d : DataFrame) :
  NoDup (column_names d) -> get_col d col = Some c ->
  List.filter (is_converted col)
    (flat_map (fun s => convert_entries (name s) (data s)) d)
  = List.filter (is_converted col) (convert_entries col c).
Proof.
  induction d as [|s d IH]; simpl; [done|].
  intros [Hnot Hnd]%NoDup_cons. rewrite List.filter_app.
  destruct (String.eqb (name s) col) eqn:Hs.
  - apply String.eqb_eq in Hs. subst col. intros [= <-].
    by rewrite (converted_entries_absent _ d Hnot), app_nil_r.
  - intros Hc. rewrite (IH Hnd Hc).
    unfold convert_entries at 1. destruct (data s) as [l|l|l|l|l]; simpl; try done.
    destruct (to_datetime l); simpl; [by rewrite Hs | done].
Qed.

(** C4, as the code has it: the conversion of a string column is
    all-or-nothing with respect to [pd.to_datetime] on the column.  When
    every present value parses in the column, that is under the format
    pandas settles on for it, the column becomes the datetime column of
    the parsed values and exactly one entry is logged for it; when a
    single value fails to, the column keeps its type and its values and
    nothing is logged for it.  The step returns in both cases: the
    exception of the parser is caught inside the loop. *)
Theorem convert_dates_all_or_nothing (h : store) (df : nat) (d : DataFrame)
    (changes : list change) (col : string) (l : list (option string)) :
  h !! df = Some d ->
  NoDup (column_names d) ->
  get_col d col = Some (ObjectCol l) ->
  exists (h' : store) (entries : list change),
    convert_dates_step h df changes = (h', changes ++ entries)
    /\ ((forall s, Some s ∈ l -> parse_datetime l s <> None) ->
        exists ts,
          Forall2 (fun o t => to_datetime_scalar l o = Some t) l ts
          /\ get_col (deref h' df) col = Some (DatetimeCol ts)
          /\ length (List.filter (is_converted col) entries) = 1)
    /\ ((exists s, Some s ∈ l /\ parse_datetime l s = None) ->
        get_col (deref h' df) col = Some (ObjectCol l)
        /\ length (List.filter (is_converted col) entries) = 0).
Proof.
  intros Hd Hnd Hcol.
  rewrite (convert_dates_step_frame h df d changes Hd).
  destruct (convert_frame_map d Hnd) as [-> ->].
  eexists _, _. split; [done|].
  rewrite (deref_lookup _ df (map_columns convert_series d))
    by (apply list_lookup_insert_eq; by eapply lookup_lt_Some).
  rewrite get_col_map_columns, Hcol.
  rewrite (converted_entries_column col (ObjectCol l) d Hnd Hcol). simpl.
  split.
  - intros Hall. destruct (to_datetime l) as [ts|] eqn:Hts.
    + exists ts. split; [by apply mapM_Some|]. simpl.
      by rewrite String.eqb_refl.
    + apply to_datetime_None in Hts as (s & Hin & Hs). by apply Hall in Hin.
  - intros Hfail. apply to_datetime_None in Hfail. by rewrite Hfail.
Qed.

(** ** Outlier removal *)

Lemma aligned_get_col (d : DataFrame) (col : string) (c : coldata) :
  aligned d -> get_col d col = Some c -> col_length c = nrows d.
Proof.
  intros Hal Hc. apply get_col_elem_of in Hc.
  unfold aligned in Hal. rewrite Forall_forall in Hal. by apply (Hal _ Hc).
Qed.

Lemma length_num_values (c : coldata) :
  is_number (dtype_of c) = true -> length (num_values c) = col_length c.
Proof. destruct c; simpl; try done. intros _. apply length_map. Qed.

(** The rows a column's filter keeps are the rows whose value passes the
    fence test. *)
Lemma rows_trim_column (m : Q) (d : DataFrame) (col : string) (c : coldata) :
  aligned d -> get_col d col = Some c -> is_number (dtype_of c) = true ->
  rows (trim_column m d col)
  = filter_mask (map (within_fence (iqr_fence m (num_values c))) (num_values c))
                (rows d).
Proof.
  intros Hal Hc Hnum. unfold trim_column. rewrite (column_get_col _ _ _ Hc).
  apply rows_filter_rows; [done|].
  by rewrite length_map, length_num_values, (aligned_get_col d col c).
Qed.

(** The numbers of a numeric column are the numbers in its cells. *)
Lemma cell_num_cells (c : coldata) :
  is_number (dtype_of c) = true -> map cell_num (cells c) = num_values c.
Proof.
  destruct c as [l|l|l|l|l]; simpl; try done; intros _; rewrite map_map.
  - done.
  - induction l as [|o l IH]; simpl; [done|]. rewrite IH. by destruct o.
Qed.

(** The column at position [j], read off the rows of the table. *)
Lemma rows_column (d : DataFrame) (j : nat) (s : Series) :
  aligned d -> d !! j = Some s ->
  map (fun r => default None (r !! j)) (rows d) = cells (data s).
Proof.
  intros Hal Hj. apply list_eq. intros i. rewrite list_lookup_fmap.
  assert (Hlen : length (cells (data s)) = nrows d).
  { rewrite length_cells. unfold aligned in Hal. rewrite Forall_forall in Hal.
    apply Hal. by eapply list_elem_of_lookup_2. }
  destruct (decide (i < nrows d)) as [Hi | Hi].
  - rewrite (rows_lookup d i Hi). simpl. rewrite list_lookup_fmap, Hj. simpl.
    destruct (cells (data s) !! i) as [v|] eqn:Hv; [done|].
    apply lookup_ge_None in Hv. lia.
  - rewrite (lookup_ge_None_2 (rows d)) by (rewrite length_rows; lia).
    rewrite lookup_ge_None_2 by lia. done.
Qed.

Lemma row_num_rows (d : DataFrame) (j : nat) (s : Series) :
  aligned d -> d !! j = Some s -> is_number (dtype_of (data s)) = true ->
  map (row_num j) (rows d) = num_values (data s).
Proof.
  intros Hal Hj Hnum. rewrite <- (cell_num_cells _ Hnum), <- (rows_column d j s Hal Hj).
  by rewrite map_map.
Qed.

Lemma filter_mask_map_filter {A : Type} (f : A -> bool) (l : list A) :
  filter_mask (map f l) l = List.filter f l.
Proof. induction l as [|x l IH]; simpl; [done|]. rewrite IH. done. Qed.

(** One iteration of the loop on the rows: the rows kept are those whose
    number in the column lies within the fence of the column. *)
Lemma rows_trim_column_position (m : Q) (d : DataFrame) (j : nat) (s : Series) :
  aligned d -> NoDup (column_names d) -> d !! j = Some s ->
  is_number (dtype_of (data s)) = true ->
  rows (trim_column m d (name s)) = trim_rows m j (rows d).
Proof.
  intros Hal Hnd Hj Hnum.
  pose proof (get_col_NoDup d s Hnd (list_elem_of_lookup_2 _ _ _ Hj)) as Hcol.
  rewrite (rows_trim_column m d (name s) (data s) Hal Hcol Hnum).
  unfold trim_rows. rewrite <- filter_mask_map_filter.
  rewrite (row_num_rows d j s Hal Hj Hnum). f_equal.
  rewrite <- (row_num_rows d j s Hal Hj Hnum) at 2. by rewrite map_map.
Qed.

Lemma aligned_trim_column (m : Q) (d : DataFrame) (col : string) (c : coldata) :
  aligned d -> get_col d col = Some c -> is_number (dtype_of c) = true ->
  aligned (trim_column m d col).
Proof.
  intros Hal Hc Hnum. unfold trim_column. rewrite (column_get_col _ _ _ Hc).
  apply aligned_filter_rows; [done|].
  by rewrite length_map, length_num_values, (aligned_get_col d col c).
Qed.

Lemma numeric_at_filter_rows (mask : list bool) (d : DataFrame) (j : nat)
    (col : string) :
  numeric_at d j col -> numeric_at (filter_rows mask d) j col.
Proof.
  intros (s & Hj & Hname & Hnum).
  exists (mkSeries (name s) (filter_col mask (data s))). simpl.
  unfold filter_rows. rewrite list_lookup_fmap, Hj, dtype_of_filter_col. done.
Qed.

(** The loop over the column names is the loop over their positions on
    the rows. *)
Lemma trim_outliers_rows (m : Q) (js : list nat) (cols : list string)
    (d : DataFrame) :
  aligned d -> NoDup (column_names d) ->
  Forall2 (numeric_at d) js cols ->
  rows (trim_outliers m cols d).1 = (trim_rows_all m js (rows d)).1
  /\ (trim_outliers m cols d).2 = (trim_rows_all m js (rows d)).2.
Proof.
  intros Hal Hnd Hpos. revert d Hal Hnd Hpos.
  revert cols. induction js as [|j js IH]; intros cols d Hal Hnd Hpos.
  - apply Forall2_nil_inv_l in Hpos. subst cols. done.
  - apply Forall2_cons_inv_l in Hpos as (col & cols' & Hj & Hrest & ->).
    cbn [trim_outliers trim_rows_all].
    destruct Hj as (s & Hj & Hname & Hnum). subst col.
    pose proof (get_col_NoDup d s Hnd (list_elem_of_lookup_2 _ _ _ Hj)) as Hcol.
    pose proof (rows_trim_column_position m d j s Hal Hnd Hj Hnum) as Hrows.
    assert (Hal1 : aligned (trim_column m d (name s))).
    { by apply (aligned_trim_column m d (name s) (data s)). }
    assert (Hnd1 : NoDup (column_names (trim_column m d (name s)))).
    { unfold trim_column. by rewrite column_names_filter_rows. }
    assert (Hpos1 : Forall2 (numeric_at (trim_column m d (name s))) js cols').
    { eapply Forall2_impl; [exact Hrest|]. intros j' col'.
      apply numeric_at_filter_rows. }
    destruct (IH cols' _ Hal1 Hnd1 Hpos1) as [IH1 IH2].
    rewrite Hrows in IH1, IH2.
    destruct (trim_outliers m cols' (trim_column m d (name s))) as [d' n'].
    destruct (trim_rows_all m js (trim_rows m j (rows d))) as [rs' k'].
    simpl in *. split; [done|]. subst n'.
    by rewrite <- Hrows, !length_rows.
Qed.

Lemma numeric_positions_from_spec (pre post : DataFrame) :
  Forall2 (numeric_at (pre ++ post))
          (numeric_positions_from (length pre) post)
          (column_names (select_dtypes_number post)).
Proof.
  revert pre. induction post as [|s post IH]; intros pre; simpl; [constructor|].
  specialize (IH (pre ++ [s])).
  rewrite <- app_assoc, length_app, Nat.add_1_r in IH. simpl in IH.
  destruct (is_number (dtype_of (data s))) eqn:Hnum; simpl; [|exact IH].
  constructor; [|exact IH].
  exists s. by rewrite list_lookup_middle.
Qed.

Lemma numeric_positions_spec (d : DataFrame) :
  Forall2 (numeric_at d) (numeric_positions d)
          (column_names (select_dtypes_number d)).
Proof. apply (numeric_positions_from_spec [] d). Qed.

(** The rows one column's filter keeps: those whose number in the column
    is present and lies between [Q1 - m*IQR] and [Q3 + m*IQR], the
    quartiles being those of the numbers the column holds in these rows
    and the arithmetic that of the floats. *)
Lemma trim_rows_spec (m : Q) (j : nat) (rs : list row) (r : row) :
  In r (trim_rows m j rs) <->
  In r rs /\
  exists Q1 Q3 x,
    quantile (1 # 4) (map (row_num j) rs) = Some Q1
    /\ quantile (3 # 4) (map (row_num j) rs) = Some Q3
    /\ row_num j r = Some x
    /\ (float_sub pd Q1 (float_mul pd m (float_sub pd Q3 Q1)) <= x)%Q
    /\ (x <= float_add pd Q3 (float_mul pd m (float_sub pd Q3 Q1)))%Q.
Proof. unfold trim_rows. by rewrite List.filter_In, within_fence_spec. Qed.

(** C5: the outlier step goes through the numeric columns in column
    order, each against the rows the previous one left ([trim_rows_all]).
    For a column it keeps the rows whose number there lies within the
    fence [Q1 - m*IQR, Q3 + m*IQR] of the numbers the column holds at
    that moment, and drops the others ([trim_rows], whose meaning is the
    last part of the statement).  The total it logs is the number of rows
    dropped over all columns, and the single entry, carrying that total
    and the multiplier, is emitted only when the total is positive.  The
    columns keep their names. *)
Theorem remove_outliers_iqr (m : Q) (h : store) (df : nat) (d : DataFrame)
    (changes : list change) :
  h !! df = Some d ->
  aligned d ->
  NoDup (column_names d) ->
  exists (h' : store) (df' : nat),
    let kept := trim_rows_all m (numeric_positions d) (rows d) in
    remove_outliers_step m h df changes
    = (h', df', changes ++ if 0 <? kept.2 then [RemovedOutliers kept.2 m] else [])
    /\ rows (deref h' df') = kept.1
    /\ column_names (deref h' df') = column_names d
    /\ kept.2 = nrows d - nrows (deref h' df')
    /\ forall j rs r,
         In r (trim_rows m j rs) <->
         In r rs /\
         exists Q1 Q3 x,
           quantile (1 # 4) (map (row_num j) rs) = Some Q1
           /\ quantile (3 # 4) (map (row_num j) rs) = Some Q3
           /\ row_num j r = Some x
           /\ (float_sub pd Q1 (float_mul pd m (float_sub pd Q3 Q1)) <= x)%Q
           /\ (x <= float_add pd Q3 (float_mul pd m (float_sub pd Q3 Q1)))%Q.
Proof.
  intros Hd Hal Hnd.
  destruct (remove_outliers_step_frame m h df d changes Hd) as (k & df' & Hrun & Hk).
  exists (h ++ k), df'. cbv zeta.
  rewrite (deref_lookup _ _ _ Hk). unfold outliers_frame.
  destruct (trim_outliers_rows m _ _ d Hal Hnd (numeric_positions_spec d))
    as [Hrows Htotal].
  rewrite <- Htotal, <- Hrows.
  split; [exact Hrun|]. split; [done|].
  split; [apply column_names_trim_outliers|].
  split; [apply trim_outliers_total|].
  apply trim_rows_spec.
Qed.

Lemma count_true_fence_missing (f : option (Q * Q)) (l : list (option Q)) :
  count_true (map (within_fence f) l) + count_missing l <= length l.
Proof.
  unfold count_true, count_missing.
  induction l as [|o l IH]; simpl; [lia|].
  destruct o as [x|]; simpl.
  - destruct (within_fence f (Some x)); simpl; lia.
  - assert (within_fence f None = false) as -> by (by destruct f as [[]|]).
    simpl. lia.
Qed.

Lemma count_missing_fence (f : option (Q * Q)) (l : list (option Q)) :
  count_missing (filter_mask (map (within_fence f) l) l) = 0.
Proof.
  unfold count_missing. induction l as [|o l IH]; simpl; [done|].
  destruct o as [x|]; simpl.
  - destruct (within_fence f (Some x)); simpl; exact IH.
  - assert (within_fence f None = false) as -> by (by destruct f as [[]|]).
    exact IH.
Qed.

(** C10: in the iteration of the outlier loop that filters a numeric
    column, no row with a missing value in that column survives (the
    comparison with either bound is false for it, whatever the bounds
    are), and the rows dropped, those with a missing value among them,
    are added to the running total that is logged. *)
Theorem outlier_filter_drops_missing (m : Q) (h : store) (df : nat)
    (d : DataFrame) (n : nat) (col : string) (c : coldata) :
  h !! df = Some d ->
  aligned d ->
  get_col d col = Some c ->
  is_number (dtype_of c) = true ->
  let '(h', df', n') := remove_outliers_col m (h, df, n) col in
  isnull_sum (column (deref h' df') col) = 0
  /\ n' = n + (nrows d - nrows (deref h' df'))
  /\ isnull_sum c <= nrows d - nrows (deref h' df')
  /\ forall lower upper i,
       num_values c !! i = Some None ->
       bounds_mask lower upper (num_values c) !! i = Some false.
Proof.
  intros Hd Hal Hc Hnum.
  rewrite (remove_outliers_col_frame m h df d n col Hd).
  rewrite (deref_lookup (h ++ [_]) (length h) _ (list_lookup_middle h [] _ _ eq_refl)).
  unfold trim_column. rewrite (column_get_col _ _ _ Hc).
  set (f := iqr_fence m (num_values c)).
  unfold column. rewrite get_col_filter_rows, Hc. simpl.
  assert (Hrows : nrows (filter_rows (map (within_fence f) (num_values c)) d)
                  = count_true (map (within_fence f) (num_values c))).
  { destruct d as [|s d]; [done|]. simpl. apply col_length_filter_col.
    rewrite length_map, length_num_values by done.
    rewrite (aligned_get_col _ _ _ Hal Hc). done. }
  pose proof (aligned_get_col _ _ _ Hal Hc) as Hlen.
  split; [|split; [done|split]].
  - destruct c as [l|l|l|l|l]; simpl in *; try done. apply count_missing_fence.
  - rewrite Hrows, <- Hlen.
    destruct c as [l|l|l|l|l]; simpl in *; try done; try lia.
    pose proof (count_true_fence_missing f l). lia.
  - intros lower upper i Hi. unfold bounds_mask.
    rewrite list_lookup_fmap, Hi. simpl. f_equal.
    by destruct lower.
Qed.

(** ** Numeric statistics of the assessor *)

(** The test of line 16 is [DataFrame.empty] on the numeric columns: it
    holds when there is no numeric column, and also when there is no row. *)
Lemma numeric_stats_sentinel (T : DataFrame) :
  numeric_stats_of (assess_data_quality T) = NoNumericColumns <->
  select_dtypes_number T = [] \/ nrows (select_dtypes_number T) = 0.
Proof.
  simpl. unfold empty, ncols.
  destruct (select_dtypes_number T) as [|s d] eqn:Hsel; simpl.
  - split; [by left | done].
  - destruct (col_length (data s)) eqn:Hlen; simpl; split; try done.
    + by right.
    + by intros [? | ?].
Qed.

(** C3: on a table with a numeric column and no rows the assessor answers
    with the sentinel for a table without numeric columns, where the
    claim expects the per-column statistics. *)
Theorem assess_zero_rows_sentinel :
  select_dtypes_number no_people = [mkSeries "age" (FloatCol [])]
  /\ numeric_stats_of (assess_data_quality no_people) = NoNumericColumns.
Proof. split; reflexivity. Qed.

(** ** Loading a file *)

Lemma split_without_separator (sep : ascii) (s : string) :
  contains sep s = false -> split sep s = [s].
Proof.
  induction s as [|c s IH]; simpl; [done|].
  intros [Hc Hs]%orb_false_elim. rewrite Hc, (IH Hs). done.
Qed.

Lemma split_at_last_separator (sep : ascii) (base ext : string) :
  contains sep ext = false ->
  exists pieces,
    pieces <> [] /\ split sep (String.append base (String sep ext)) = pieces ++ [ext].
Proof.
  intros Hext. induction base as [|c base (pieces & Hne & IH)]; simpl.
  - rewrite Ascii.eqb_refl, (split_without_separator sep ext Hext).
    exists [EmptyString]. done.
  - rewrite IH. destruct (Ascii.eqb c sep).
    + exists (EmptyString :: pieces). done.
    + destruct pieces as [|piece pieces]; [done|].
      exists (String c piece :: pieces). done.
Qed.

Section LoadingFacts.
Variable lower : string -> string.
Variable read_csv : string -> string -> DataFrame.
Variable read_excel : string -> DataFrame.
Variable json : Type.
Variable json_load : string -> json.
Variable isinstance_list : json -> bool.
Variable json_normalize : json -> DataFrame.
Variable frame_of_records : list json -> DataFrame.

Lemma file_type_after_last_dot (base ext : string) :
  contains "."%char ext = false ->
  file_type_of lower (String.append base (String "."%char ext)) = lower ext.
Proof.
  intros Hext. unfold file_type_of, last_piece.
  destruct (split_at_last_separator "."%char base ext Hext) as (pieces & _ & ->).
  by rewrite List.last_last.
Qed.

(** X1: The type of a file is the text after the last dot of its name, as
    [str.lower] returns it; a name without a dot is its own type. *)
Theorem file_type_of_extension (base ext : string) :
  contains "."%char ext = false ->
  file_type_of lower (String.append base (String "."%char ext)) = lower ext
  /\ file_type_of lower ext = lower ext.
Proof.
  intros Hext. split.
  - by apply file_type_after_last_dot.
  - unfold file_type_of, last_piece. by rewrite (split_without_separator _ _ Hext).
Qed.

(** X2: [load_file] picks the reader by the extension after the last dot,
    whatever its case: commas for csv, tabs for txt, the JSON branch by
    the shape of the decoded value; it answers [None] exactly for the
    extensions outside the five supported ones. *)
Theorem load_file_by_extension (base ext content : string) :
  contains "."%char ext = false ->
  let f := mkUpload (String.append base (String "."%char ext)) content in
  let load := load_file lower read_csv read_excel json json_load isinstance_list
                        json_normalize frame_of_records in
  (lower ext = "csv" -> load f = Some (read_csv "," content))
  /\ (lower ext = "xlsx" \/ lower ext = "xls" -> load f = Some (read_excel content))
  /\ (lower ext = "json" ->
      load f = Some (if isinstance_list (json_load content)
                     then json_normalize (json_load content)
                     else frame_of_records [json_load content]))
  /\ (lower ext = "txt" ->
      load f = Some (read_csv (String (ascii_of_nat 9) EmptyString) content))
  /\ (load f = None <-> ~ In (lower ext) ["csv"; "xlsx"; "xls"; "json"; "txt"]).
Proof.
  intros Hext. cbv zeta. unfold load_file. simpl.
  rewrite (file_type_after_last_dot base ext Hext).
  repeat split.
  - by intros ->.
  - by intros [-> | ->].
  - by intros ->.
  - by intros ->.
  - intros Hnone Hin. simpl in Hin.
    destruct Hin as [H | [H | [H | [H | [H | []]]]]];
      rewrite <- H in Hnone; simpl in Hnone; done.
  - intros Hnot.
    destruct (String.eqb (lower ext) "csv") eqn:H1.
    { apply String.eqb_eq in H1. exfalso. apply Hnot. rewrite H1. simpl. tauto. }
    destruct (String.eqb (lower ext) "xlsx") eqn:H2.
    { apply String.eqb_eq in H2. exfalso. apply Hnot. rewrite H2. simpl. tauto. }
    destruct (String.eqb (lower ext) "xls") eqn:H3.
    { apply String.eqb_eq in H3. exfalso. apply Hnot. rewrite H3. simpl. tauto. }
    destruct (String.eqb (lower ext) "json") eqn:H4.
    { apply String.eqb_eq in H4. exfalso. apply Hnot. rewrite H4. simpl. tauto. }
    destruct (String.eqb (lower ext) "txt") eqn:H5.
    { apply String.eqb_eq in H5. exfalso. apply Hnot. rewrite H5. simpl. tauto. }
    done.
Qed.

End LoadingFacts.

(** ** The trace of a run: store, reference and change log *)

Lemma remove_outliers_loop_ref (m : Q) (cols : list string) (h : store) (df : nat)
    (d : DataFrame) (n : nat) :
  h !! df = Some d ->
  exists (k : store) df',
    foldl (remove_outliers_col m) (h, df, n) cols
    = (h ++ k, df', n + (trim_outliers m cols d).2)
    /\ (h ++ k) !! df' = Some (trim_outliers m cols d).1
    /\ (cols = [] -> k = [] /\ df' = df)
    /\ (cols <> [] -> length h <= df').
Proof.
  revert h df d n. induction cols as [|col cols IH]; intros h df d n Hd;
    cbn [foldl trim_outliers].
  - exists [], df. rewrite app_nil_r. simpl.
    split; [f_equal; lia|]. split; [done|]. split; done.
  - rewrite (remove_outliers_col_frame m h df d n col Hd).
    destruct (IH (h ++ [trim_column m d col]) (length h) (trim_column m d col)
                 (n + (nrows d - nrows (trim_column m d col)))
                 (list_lookup_middle h [] _ _ eq_refl))
      as (k & df' & Hrun & Hk & Hnil & Hcons).
    exists (trim_column m d col :: k), df'.
    rewrite (cons_middle _ h k), app_assoc.
    destruct (trim_outliers m cols (trim_column m d col)) as [d' n'] eqn:Ht.
    simpl in *. split; [rewrite Hrun; f_equal; lia|]. split; [done|].
    split; [done|]. intros _.
    destruct cols as [|col' cols].
    + destruct (Hnil eq_refl) as [_ ->]. lia.
    + assert (Hlen : length (h ++ [trim_column m d col]) <= df') by (by apply Hcons).
      rewrite length_app in Hlen. simpl in Hlen. lia.
Qed.

(** A run, in full: the change log is [clean_log] of the argument, the
    returned reference points to [clean_frame] of the argument, and the
    store is the old one with the argument's frame possibly rewritten in
    place and fresh frames appended. *)
Lemma clean_data_trace (h : store) (df : nat) (T : DataFrame)
    (operations : gmap string bool) (fill_method : option FillMethod)
    (outlier_threshold : Q) :
  h !! df = Some T ->
  exists (T0 : DataFrame) (k : store) (df' : nat),
    clean_data h df operations fill_method outlier_threshold
    = (<[df := T0]> h ++ k, df',
       clean_log T operations fill_method outlier_threshold)
    /\ (<[df := T0]> h ++ k) !! df'
       = Some (clean_frame T operations fill_method outlier_threshold)
    /\ (get_op operations "remove_duplicates" = true -> T0 = T /\ length h <= df')
    /\ (get_op operations "remove_duplicates" = false ->
        T0 = after_convert T operations fill_method
        /\ (df' = df \/ length h <= df'))
    /\ (get_op operations "remove_duplicates" = false ->
        get_op operations "remove_outliers" = false -> k = [] /\ df' = df).
Proof.
  intros HT. unfold clean_data, clean_log, step_changes, clean_frame, after_convert,
    after_fill, after_duplicates.
  rewrite (deref_lookup h df T HT). cbv zeta.
  set (d1 := if get_op operations "remove_duplicates" then drop_duplicates T else T).
  set (l1 := if get_op operations "remove_duplicates" then duplicates_log T else []).
  assert (H1 : exists (h1 : store) df1,
    (if get_op operations "remove_duplicates"
     then remove_duplicates_step (shape T) (duplicated_sum T) h df []
     else (h, df, [])) = (h1, df1, l1)
    /\ h1 !! df1 = Some d1
    /\ ((get_op operations "remove_duplicates" = true /\ h1 = h ++ [d1] /\ df1 = length h)
        \/ (get_op operations "remove_duplicates" = false /\ h1 = h /\ df1 = df))).
  { subst d1 l1. destruct (get_op operations "remove_duplicates").
    - rewrite (remove_duplicates_step_frame _ _ h df T [] HT).
      eexists _, _. split; [done|]. split; [by apply list_lookup_middle|].
      left. done.
    - eexists _, _. split; [done|]. split; [done|]. right. done. }
  destruct H1 as (h1 & df1 & -> & Hd1 & Hcase).
  set (d2 := if get_op operations "fill_missing" then fill_frame fill_method d1 else d1).
  set (l2 := if get_op operations "fill_missing" then fill_log fill_method d1 else []).
  assert (H2 : (if get_op operations "fill_missing"
                then fill_missing_step fill_method h1 df1 l1 else (h1, l1))
               = (<[df1 := d2]> h1, l1 ++ l2)).
  { subst d2 l2. destruct (get_op operations "fill_missing").
    - by rewrite (fill_missing_step_frame fill_method h1 df1 d1 l1 Hd1).
    - by rewrite list_insert_id, app_nil_r. }
  rewrite H2.
  assert (Hd2 : <[df1 := d2]> h1 !! df1 = Some d2).
  { apply list_lookup_insert_eq. by eapply lookup_lt_Some. }
  set (d3 := if get_op operations "convert_dates"
             then convert_frame d2 else d2).
  set (l3 := if get_op operations "convert_dates"
             then convert_log d2 else []).
  assert (H3 : (if get_op operations "convert_dates"
                then convert_dates_step (<[df1 := d2]> h1) df1 (l1 ++ l2)
                else (<[df1 := d2]> h1, l1 ++ l2))
               = (<[df1 := d3]> h1, (l1 ++ l2) ++ l3)).
  { subst d3 l3. destruct (get_op operations "convert_dates").
    - rewrite (convert_dates_step_frame _ df1 d2 (l1 ++ l2) Hd2).
      by rewrite list_insert_insert_eq.
    - by rewrite app_nil_r. }
  rewrite H3.
  assert (Hd3 : <[df1 := d3]> h1 !! df1 = Some d3).
  { apply list_lookup_insert_eq. by eapply lookup_lt_Some. }
  set (d4 := if get_op operations "remove_outliers"
             then outliers_frame outlier_threshold d3 else d3).
  set (l4 := if get_op operations "remove_outliers"
             then outliers_log outlier_threshold d3 else []).
  assert (H4 : exists (k : store) df',
    (if get_op operations "remove_outliers"
     then remove_outliers_step outlier_threshold (<[df1 := d3]> h1) df1 ((l1 ++ l2) ++ l3)
     else (<[df1 := d3]> h1, df1, (l1 ++ l2) ++ l3))
    = (<[df1 := d3]> h1 ++ k, df', ((l1 ++ l2) ++ l3) ++ l4)
    /\ (<[df1 := d3]> h1 ++ k) !! df' = Some d4
    /\ (df' = df1 \/ length h1 <= df')
    /\ (get_op operations "remove_outliers" = false -> k = [] /\ df' = df1)).
  { subst d4 l4. destruct (get_op operations "remove_outliers").
    - unfold remove_outliers_step, outliers_frame, outliers_log.
      rewrite (deref_lookup _ _ _ Hd3).
      destruct (remove_outliers_loop_ref outlier_threshold
                  (column_names (select_dtypes_number d3)) _ df1 d3 0 Hd3)
        as (k & df' & -> & Hk & Hnil & Hcons).
      exists k, df'. simpl. split.
      { destruct (0 <? _); [done | by rewrite app_nil_r]. }
      split; [done|]. split; [|done].
      destruct (column_names (select_dtypes_number d3)) as [|c cs].
      + left. by destruct (Hnil eq_refl).
      + right. rewrite length_insert in Hcons. by apply Hcons.
    - exists [], df1. rewrite !app_nil_r. split; [done|]. split; [done|].
      split; [by left | done]. }
  destruct H4 as (k & df' & -> & Hd4 & Hfresh & Hsame).
  rewrite (deref_lookup _ _ _ Hd4).
  assert (Hlog : ((l1 ++ l2) ++ l3) ++ l4 = l1 ++ l2 ++ l3 ++ l4)
    by (by rewrite <- !app_assoc).
  rewrite Hlog.
  destruct Hcase as [(Hdup & -> & ->) | (Hdup & -> & ->)].
  - exists T, ([d3] ++ k), df'.
    assert (Hst : <[length h := d3]> (h ++ [d1]) ++ k = <[df := T]> h ++ [d3] ++ k).
    { rewrite insert_app_r_alt by lia. rewrite Nat.sub_diag. simpl.
      rewrite (list_insert_id h df T HT). by rewrite <- app_assoc. }
    rewrite <- Hst. split; [done|]. split; [done|].
    split; [|split; congruence].
    intros _. split; [done|].
    destruct Hfresh as [-> | Hlen]; [lia|].
    rewrite length_app in Hlen. simpl in Hlen. lia.
  - exists d3, k, df'. split; [done|]. split; [done|].
    split; [congruence|]. split; [done|]. intros _ Hout. by apply Hsame.
Qed.

Lemma result_changes_clean_data (h : store) (df : nat) (T : DataFrame)
    (operations : gmap string bool) (fill_method : option FillMethod)
    (outlier_threshold : Q) :
  h !! df = Some T ->
  result_changes (clean_data h df operations fill_method
                             outlier_threshold)
  = clean_log T operations fill_method outlier_threshold.
Proof.
  intros HT.
  destruct (clean_data_trace h df T operations fill_method outlier_threshold HT)
    as (T0 & k & df' & -> & _). done.
Qed.

(** ** Duplicate removal and the duplicate count *)

Lemma count_true_negb (m : list bool) :
  count_true (map negb m) + count_true m = length m.
Proof.
  induction m as [|b m IH]; [done|]. cbn [map length].
  rewrite !count_true_cons. destruct b; simpl; lia.
Qed.

Lemma count_true_repeat_false (n : nat) : count_true (repeat false n) = 0.
Proof. unfold count_true. induction n as [|n IH]; simpl; done. Qed.

Lemma count_true_zero (m : list bool) :
  count_true m = 0 -> m = repeat false (length m).
Proof.
  induction m as [|b m IH]; [done|]. rewrite count_true_cons.
  destruct b; simpl; [lia|]. intros H. by rewrite <- IH.
Qed.

Lemma nrows_drop_duplicates (T : DataFrame) :
  aligned T -> nrows (drop_duplicates T) + duplicated_sum T = nrows T.
Proof.
  intros Hal. unfold duplicated_sum.
  pose proof (count_true_negb (duplicated T)) as Hsum.
  rewrite length_duplicated in Hsum.
  destruct T as [|s T]; [done|].
  unfold drop_duplicates. cbn [filter_rows map nrows data].
  rewrite col_length_filter_col; [done|].
  by rewrite length_map, length_duplicated.
Qed.

(** X3: The rows duplicate removal drops are exactly the rows the assessor
    counts as duplicates, and a table that has a row keeps one: the first
    row is never a duplicate. *)
Theorem drop_duplicates_row_count (T : DataFrame) :
  aligned T ->
  nrows (drop_duplicates T) + duplicate_rows (assess_data_quality T) = nrows T
  /\ (0 < nrows T -> 0 < nrows (drop_duplicates T))
  /\ duplicate_rows (assess_data_quality T) <= nrows T - 1.
Proof.
  intros Hal. pose proof (nrows_drop_duplicates T Hal) as Hsum. simpl.
  assert (Hfirst : 0 < nrows T -> duplicated_sum T < nrows T).
  { unfold duplicated_sum, duplicated, duplicated_mask.
    rewrite <- (length_rows T). destruct (rows T) as [|r rs]; simpl; [lia|].
    intros _. rewrite count_true_cons. simpl.
    pose proof (count_true_length (duplicated_from row_eqb [r] rs)) as Hle.
    rewrite length_duplicated_from in Hle. lia. }
  split; [done|]. split; [intros Hpos; specialize (Hfirst Hpos); lia|].
  destruct (nrows T) as [|n] eqn:Hn; [lia|]. specialize (Hfirst ltac:(lia)). lia.
Qed.

(** X4: The duplicate entry of the change log reports exactly the number of
    rows the step removed, and is written only when it removed some. *)
Theorem remove_duplicates_logged (h : store) (df : nat) (T : DataFrame)
    (changes : list change) :
  h !! df = Some T ->
  aligned T ->
  let removed := nrows T - nrows (drop_duplicates T) in
  remove_duplicates_step (shape T) (duplicated_sum T) h df changes
  = (h ++ [drop_duplicates T], length h,
     changes ++ if 0 <? removed then [RemovedDuplicates removed] else []).
Proof.
  intros HT Hal. cbv zeta.
  rewrite (remove_duplicates_step_frame _ _ h df T changes HT).
  pose proof (nrows_drop_duplicates T Hal) as Hsum. simpl.
  assert (duplicated_sum T = nrows T - nrows (drop_duplicates T)) as -> by lia.
  destruct (nrows (drop_duplicates T) <? nrows T) eqn:Hlt,
           (0 <? nrows T - nrows (drop_duplicates T)) eqn:Hpos; try done.
  - apply Nat.ltb_lt in Hlt. apply Nat.ltb_ge in Hpos. lia.
  - apply Nat.ltb_ge in Hlt. apply Nat.ltb_lt in Hpos. lia.
Qed.

Section SubsequenceDuplicates.
Context {A : Type} (eqb : A -> A -> bool).

(** Rows picked out of a list without repeats hold no repeats. *)
Lemma duplicated_from_filter_mask (m : list bool) (l s1 s2 : list A) :
  covered eqb s1 s2 ->
  duplicated_from eqb s2 l = repeat false (length l) ->
  duplicated_from eqb s1 (filter_mask m l)
  = repeat false (length (filter_mask m l)).
Proof.
  revert m s1 s2. induction l as [|x l IH]; intros m s1 s2 Hc Hl.
  - by rewrite filter_mask_nil_r.
  - destruct m as [|b m]; [done|]. simpl in Hl. injection Hl as Hx Hl.
    destruct b; simpl.
    + destruct (existsb (eqb x) s1) eqn:Hx1.
      { apply Hc in Hx1. congruence. }
      f_equal. apply (IH m (x :: s1) (x :: s2)); [|done].
      intros y. simpl. intros [->|Hy]%orb_true_iff; [done|].
      rewrite (Hc y Hy). apply orb_true_r.
    + apply (IH m s1 (x :: s2)); [|done].
      intros y Hy. simpl. rewrite (Hc y Hy). apply orb_true_r.
Qed.
End SubsequenceDuplicates.

Lemma aligned_no_rows (m : list bool) (d : DataFrame) :
  m = [] -> aligned (filter_rows m d) /\ rows (filter_rows m d) = [].
Proof.
  intros ->.
  assert (Hcol : forall c, col_length (filter_col [] c) = 0) by (by intros []).
  assert (Hn : nrows (filter_rows [] d) = 0).
  { destruct d as [|s d]; [done|]. simpl. apply Hcol. }
  split.
  - unfold aligned. rewrite Hn. unfold filter_rows. rewrite Forall_map.
    apply Forall_forall. intros s _. simpl. apply Hcol.
  - unfold rows. by rewrite Hn.
Qed.

(** Trimming a column yields an aligned frame whose rows are rows of the
    frame it was given, in their order. *)
Lemma trim_column_rows (m : Q) (d : DataFrame) (col : string) :
  aligned d ->
  aligned (trim_column m d col)
  /\ exists mask, rows (trim_column m d col) = filter_mask mask (rows d).
Proof.
  intros Hal. unfold trim_column.
  set (mask := map (within_fence (iqr_fence m (num_values (column d col))))
                   (num_values (column d col))).
  destruct (decide (length mask = nrows d)) as [Hlen | Hlen].
  - split; [by apply aligned_filter_rows|]. exists mask. by apply rows_filter_rows.
  - assert (Hm : mask = []).
    { subst mask. unfold column in *.
      destruct (get_col d col) as [c|] eqn:Hc; simpl in *; [|done].
      rewrite length_map in Hlen.
      destruct c as [l|l|l|l|l]; simpl in *; try done; exfalso; apply Hlen.
      - rewrite length_map. apply (aligned_get_col d col (IntCol l) Hal Hc).
      - apply (aligned_get_col d col (FloatCol l) Hal Hc). }
    destruct (aligned_no_rows mask d Hm) as [Ha Hr].
    split; [done|]. exists []. rewrite Hr. by destruct (rows d).
Qed.

Lemma trim_outliers_no_duplicates (m : Q) (cols : list string) (d : DataFrame) :
  aligned d ->
  duplicated d = repeat false (nrows d) ->
  aligned (trim_outliers m cols d).1
  /\ duplicated (trim_outliers m cols d).1
     = repeat false (nrows (trim_outliers m cols d).1).
Proof.
  revert d. induction cols as [|col cols IH]; intros d Hal Hd; cbn [trim_outliers].
  - done.
  - destruct (trim_column_rows m d col Hal) as [Hal1 [mask Hrows]].
    assert (Hd1 : duplicated (trim_column m d col)
                  = repeat false (nrows (trim_column m d col))).
    { unfold duplicated, duplicated_mask in *.
      rewrite <- (length_rows (trim_column m d col)), Hrows.
      apply (duplicated_from_filter_mask row_eqb mask (rows d) [] []).
      - by intros y Hy.
      - by rewrite length_rows. }
    specialize (IH _ Hal1 Hd1).
    by destruct (trim_outliers m cols (trim_column m d col)).
Qed.

Lemma duplicated_drop_duplicates (T : DataFrame) :
  aligned T ->
  duplicated (drop_duplicates T) = repeat false (nrows (drop_duplicates T)).
Proof.
  intros Hal. unfold duplicated, duplicated_mask.
  rewrite <- (length_rows (drop_duplicates T)), (rows_drop_duplicates T Hal).
  unfold first_occurrences. apply duplicated_from_first_occurrences. by intros y Hy.
Qed.

(** X5: After duplicate removal the assessor finds no duplicate row, and the
    outlier filter cannot bring one back: with remove-duplicates enabled
    and neither fill-missing nor convert-dates, the cleaned table is
    reported with 0 duplicate rows. *)
Theorem cleaned_table_has_no_duplicates
    (h : store) (df : nat) (T : DataFrame) (operations : gmap string bool)
    (fill_method : option FillMethod) (outlier_threshold : Q) :
  h !! df = Some T ->
  aligned T ->
  get_op operations "remove_duplicates" = true ->
  get_op operations "fill_missing" = false ->
  get_op operations "convert_dates" = false ->
  duplicate_rows (assess_data_quality (drop_duplicates T)) = 0
  /\ duplicate_rows (assess_data_quality
       (result_frame (clean_data h df operations fill_method
                                 outlier_threshold))) = 0.
Proof.
  intros HT Hal Hdup Hfill Hconv.
  assert (HalD : aligned (drop_duplicates T)).
  { apply aligned_filter_rows; [done|]. by rewrite length_map, length_duplicated. }
  pose proof (duplicated_drop_duplicates T Hal) as HD.
  split.
  - simpl. unfold duplicated_sum. rewrite HD. apply count_true_repeat_false.
  - rewrite (result_frame_clean_data _ _ T) by done.
    unfold clean_frame. rewrite Hdup, Hfill, Hconv. cbv zeta. simpl.
    unfold duplicated_sum.
    destruct (get_op operations "remove_outliers").
    + unfold outliers_frame.
      destruct (trim_outliers_no_duplicates outlier_threshold
                  (column_names (select_dtypes_number (drop_duplicates T)))
                  (drop_duplicates T) HalD HD) as [_ ->].
      apply count_true_repeat_false.
    + rewrite HD. apply count_true_repeat_false.
Qed.

(** ** Which table a run returns, and what it leaves alone *)

(** X6: The table [clean_data] returns is its own argument, rewritten in
    place, when neither remove-duplicates nor remove-outliers is enabled;
    with remove-duplicates enabled it is a table that did not exist
    before the call. *)
Theorem clean_data_returned_table
    (h : store) (df : nat) (T : DataFrame) (operations : gmap string bool)
    (fill_method : option FillMethod) (outlier_threshold : Q) :
  h !! df = Some T ->
  let res := clean_data h df operations fill_method
                        outlier_threshold in
  (get_op operations "remove_duplicates" = false ->
   get_op operations "remove_outliers" = false ->
   res.1.2 = df
   /\ result_store res
      = <[df := clean_frame T operations fill_method
                            outlier_threshold]> h)
  /\ (get_op operations "remove_duplicates" = true ->
      length h <= res.1.2 /\ res.1.2 < length (result_store res)).
Proof.
  intros HT. cbv zeta.
  destruct (clean_data_trace h df T operations fill_method
              outlier_threshold HT)
    as (T0 & k & df' & -> & Hres & Hdup & Hnodup & Hsame).
  unfold result_store. simpl. split.
  - intros Hd Ho. destruct (Hsame Hd Ho) as [-> ->].
    destruct (Hnodup Hd) as [-> _]. rewrite app_nil_r. split; [done|].
    f_equal. unfold clean_frame, after_convert, after_fill, after_duplicates.
    by rewrite Ho.
  - intros Hd. destruct (Hdup Hd) as [_ Hlen]. split; [done|].
    by eapply lookup_lt_Some.
Qed.

(** X7: A run removes no table from the store and changes none but its
    argument. *)
Theorem clean_data_other_tables
    (h : store) (df : nat) (T : DataFrame) (operations : gmap string bool)
    (fill_method : option FillMethod) (outlier_threshold : Q) :
  h !! df = Some T ->
  let h' := result_store (clean_data h df operations fill_method
                                     outlier_threshold) in
  length h <= length h'
  /\ forall r d, r <> df -> h !! r = Some d -> h' !! r = Some d.
Proof.
  intros HT. cbv zeta.
  destruct (clean_data_trace h df T operations fill_method
              outlier_threshold HT) as (T0 & k & df' & -> & _).
  unfold result_store. simpl. split.
  - rewrite length_app, length_insert. lia.
  - intros r d Hne Hr. apply lookup_app_l_Some.
    by rewrite list_lookup_insert_ne.
Qed.

(** ** The mode *)

Section SortFacts.
Context {A : Type} (leb : A -> A -> bool).

Lemma In_insert_sorted (x y : A) (l : list A) :
  In y (insert_sorted leb x l) <-> y = x \/ In y l.
Proof.
  induction l as [|z l IH]; simpl; [intuition congruence|].
  destruct (leb x z); simpl; [intuition congruence|]. rewrite IH. intuition congruence.
Qed.

Lemma In_sort (y : A) (l : list A) : In y (sort leb l) <-> In y l.
Proof.
  induction l as [|x l IH]; simpl; [done|].
  rewrite In_insert_sorted, IH. intuition congruence.
Qed.
End SortFacts.

Section ModeFacts.
Context {A : Type} (eqb leb : A -> A -> bool).
Hypothesis eqb_equivalence : equivalence_eqb eqb.

Lemma In_distinct (x : A) (l : list A) : In x (distinct eqb l) -> In x l.
Proof.
  induction l as [|a l IH]; simpl; [done|].
  intros [-> | Hin]; [by left|]. right. apply IH.
  by apply List.filter_In in Hin as [? _].
Qed.

Lemma In_modes (x : A) (l : list A) : In x (modes eqb leb l) -> In x l.
Proof.
  unfold modes. rewrite In_sort. intros Hin.
  apply List.filter_In in Hin as [Hin _]. by apply In_distinct.
Qed.

Lemma distinct_covers (y : A) (l : list A) :
  In y l -> exists x, In x (distinct eqb l) /\ eqb x y = true.
Proof.
  destruct eqb_equivalence as (Hrefl & Hsym & Htrans).
  induction l as [|a l IH]; simpl; [done|].
  intros [-> | Hin].
  - exists y. split; [by left | apply Hrefl].
  - destruct (IH Hin) as (z & Hz & Hzy).
    destruct (eqb a z) eqn:Haz.
    + exists a. split; [by left | by eapply Htrans].
    + exists z. split; [|done]. right. apply List.filter_In. by rewrite Haz.
Qed.

Lemma occurrences_equivalent (x y : A) (l : list A) :
  eqb x y = true -> occurrences eqb x l = occurrences eqb y l.
Proof.
  destruct eqb_equivalence as (Hrefl & Hsym & Htrans).
  intros Hxy. unfold occurrences. f_equal. apply filter_ext. intros w.
  destruct (eqb x w) eqn:Hxw, (eqb y w) eqn:Hyw; try done.
  - rewrite Hsym in Hxy. by rewrite (Htrans y x w Hxy Hxw) in Hyw.
  - by rewrite (Htrans x y w Hxy Hyw) in Hxw.
Qed.

Lemma max_attained (f : A -> nat) (l : list A) :
  l <> [] -> exists y, In y l /\ f y = foldr Nat.max 0 (map f l).
Proof.
  induction l as [|a l IH]; [done|]. intros _. simpl.
  destruct l as [|b l].
  - exists a. split; [by left | simpl; lia].
  - destruct (IH ltac:(done)) as (y & Hy & Hmax).
    destruct (Nat.max_spec (f a) (foldr Nat.max 0 (map f (b :: l))))
      as [[_ ->] | [_ ->]].
    + exists y. split; [by right | done].
    + exists a. split; [by left | done].
Qed.

(** A column with a present value has a mode. *)
Lemma modes_nonempty (l : list A) : l <> [] -> modes eqb leb l <> [].
Proof.
  intros Hl.
  destruct (max_attained (fun x => occurrences eqb x l) l Hl) as (y & Hy & Hmax).
  destruct (distinct_covers y l Hy) as (x & Hx & Hxy).
  assert (Hin : In x (modes eqb leb l)).
  { unfold modes. apply In_sort. apply List.filter_In. split; [done|].
    apply Nat.eqb_eq. by rewrite (occurrences_equivalent x y l Hxy). }
  intros Hnil. by rewrite Hnil in Hin.
Qed.

(** [s.mode()[0]] is a value of the column whenever the column has one,
    and the fallback is returned only for a column without any. *)
Lemma mode_or_present (fallback : A) (l : list (option A)) :
  dropna l <> [] -> In (mode_or eqb leb fallback l) (dropna l).
Proof.
  intros Hl. unfold mode_or.
  pose proof (modes_nonempty (dropna l) Hl) as Hne.
  destruct (modes eqb leb (dropna l)) as [|m ms] eqn:Hm; [done|].
  apply In_modes. rewrite Hm. by left.
Qed.
End ModeFacts.

Lemma Qeq_bool_equivalence : equivalence_eqb Qeq_bool.
Proof.
  split; [apply Qeq_bool_refl|]. split; [apply Qeq_bool_comm | apply Qeq_bool_trans].
Qed.

Lemma Z_eqb_equivalence : equivalence_eqb Z.eqb.
Proof.
  split; [apply Z.eqb_refl|]. split; [apply Z.eqb_sym|].
  intros x y z. rewrite !Z.eqb_eq. congruence.
Qed.

Lemma String_eqb_equivalence : equivalence_eqb String.eqb.
Proof.
  split; [apply String.eqb_refl|]. split; [apply String.eqb_sym|].
  intros x y z. rewrite !String.eqb_eq. congruence.
Qed.

(** ** What the fill does to a column *)

Lemma dropna_map {A B : Type} (V : A -> B) (l : list (option A)) :
  dropna (map (fun o => V <$> o) l) = map V (dropna l).
Proof.
  unfold dropna. induction l as [|[x|] l IH]; simpl; [done | | exact IH].
  f_equal. exact IH.
Qed.

Lemma In_dropna {A : Type} (x : A) (l : list (option A)) :
  In x (dropna l) <-> In (Some x) l.
Proof.
  unfold dropna. induction l as [|[y|] l IH]; simpl; [done | |].
  - rewrite IH. intuition congruence.
  - rewrite IH. intuition congruence.
Qed.

Lemma dropna_fillna {A : Type} (x : A) (l : list (option A)) :
  dropna (fillna x l) = map (default x) l.
Proof.
  unfold dropna, fillna. induction l as [|o l IH]; simpl; [done|].
  f_equal. exact IH.
Qed.

Lemma fillna_all_present {A : Type} (x : A) (l : list (option A)) :
  count_missing l = 0 -> fillna x l = l.
Proof.
  unfold count_missing, fillna. induction l as [|[y|] l IH]; simpl; try done.
  intros H. by rewrite IH.
Qed.

Lemma fillna_lookup_present {A : Type} (x q : A) (l : list (option A)) (i : nat) :
  l !! i = Some (Some q) -> fillna x l !! i = Some (Some q).
Proof. intros H. unfold fillna. by rewrite list_lookup_fmap, H. Qed.

Lemma cells_lookup_present {A : Type} (V : A -> value) (l : list (option A))
    (i : nat) (v : value) :
  map (fun o => V <$> o) l !! i = Some (Some v) ->
  exists q, l !! i = Some (Some q) /\ v = V q.
Proof.
  rewrite list_lookup_fmap. destruct (l !! i) as [[q|]|]; simpl; try done.
  intros [= <-]. by exists q.
Qed.

Lemma cells_fillna_present {A : Type} (V : A -> value) (x : A)
    (l : list (option A)) (i : nat) (v : value) :
  map (fun o => V <$> o) l !! i = Some (Some v) ->
  map (fun o => V <$> o) (fillna x l) !! i = Some (Some v).
Proof.
  intros (q & Hq & ->)%cells_lookup_present.
  by rewrite list_lookup_fmap, (fillna_lookup_present x q l i Hq).
Qed.

Lemma lookup_present_dropna {A : Type} (l : list (option A)) (i : nat) (q : A) :
  l !! i = Some (Some q) -> dropna l <> [].
Proof.
  intros H Hnil. assert (Hin : In q (dropna l)).
  { apply In_dropna. apply list_elem_of_In. by eapply list_elem_of_lookup_2. }
  by rewrite Hnil in Hin.
Qed.

(** X8: The fill writes only into gaps: a value that is present in a column
    is still there, at the same row, after the column was filled,
    whatever the fill method. *)
Theorem fill_keeps_present_values (fill_method : option FillMethod)
    (c : coldata) (i : nat) (v : value) :
  cells c !! i = Some (Some v) ->
  cells (fill_series fill_method c) !! i = Some (Some v).
Proof.
  intros Hv. unfold fill_series.
  destruct c as [l|l|l|l|l]; simpl in *.
  - by destruct fill_method as [[]|].
  - destruct fill_method as [[]|]; simpl; try done.
    + destruct (mean l); simpl; [by apply cells_fillna_present | done].
    + destruct (median l); simpl; [by apply cells_fillna_present | done].
    + by apply cells_fillna_present.
  - by apply cells_fillna_present.
  - destruct (modes Z.eqb Z.leb (dropna l)) as [|m ms] eqn:Hm; simpl.
    + apply cells_lookup_present in Hv as (q & Hq & _).
      exfalso. apply (modes_nonempty Z.eqb Z.leb Z_eqb_equivalence (dropna l)).
      * by eapply lookup_present_dropna.
      * done.
    + by apply cells_fillna_present.
  - done.
Qed.

Lemma present_fillna {A : Type} (V : A -> value) (x : A) (l : list (option A))
    (v : value) :
  In x (dropna l) ->
  In v (dropna (map (fun o => V <$> o) (fillna x l))) ->
  In v (dropna (map (fun o => V <$> o) l)).
Proof.
  intros Hx. rewrite !dropna_map, dropna_fillna, !in_map_iff.
  intros (y & <- & Hy). apply in_map_iff in Hy as ([q|] & <- & Ho); simpl.
  - exists q. split; [done|]. by apply In_dropna.
  - by exists x.
Qed.

(** X9: Under Mode, and for every non-numeric column, a column that has a
    present value is filled with one of its own values: the literals 0
    and 'Unknown' are written only into a column without a single
    present value. *)
Theorem mode_fill_uses_column_values (fill_method : option FillMethod)
    (c : coldata) (v : value) :
  has_fallback fill_method c = true ->
  present_cells c <> [] ->
  In v (present_cells (fill_series fill_method c)) ->
  In v (present_cells c).
Proof.
  unfold has_fallback, present_cells, fill_series.
  destruct c as [l|l|l|l|l]; simpl.
  - by destruct fill_method as [[]|].
  - destruct fill_method as [[]|]; try done. intros _ Hne. simpl.
    apply present_fillna. apply (mode_or_present _ _ Qeq_bool_equivalence).
    rewrite dropna_map in Hne. by destruct (dropna l).
  - intros _ Hne. apply present_fillna.
    apply (mode_or_present _ _ String_eqb_equivalence).
    rewrite dropna_map in Hne. by destruct (dropna l).
  - intros _ Hne.
    assert (Hl : dropna l <> []).
    { rewrite dropna_map in Hne. by destruct (dropna l). }
    pose proof (modes_nonempty Z.eqb Z.leb Z_eqb_equivalence (dropna l) Hl) as Hmodes.
    destruct (modes Z.eqb Z.leb (dropna l)) as [|m ms] eqn:Hm; [done|]. simpl.
    apply present_fillna. apply (In_modes Z.eqb Z.leb). rewrite Hm. by left.
  - done.
Qed.

(** Filling a filled column changes nothing. *)
Lemma fill_series_idempotent (fill_method : option FillMethod) (c : coldata) :
  fill_series fill_method (fill_series fill_method c) = fill_series fill_method c.
Proof.
  assert (Hfull : forall (A : Type) (x y : A) l, fillna y (fillna x l) = fillna x l).
  { intros A x y l. apply fillna_all_present, count_missing_fillna. }
  unfold fill_series. destruct c as [l|l|l|l|l]; simpl.
  - by destruct fill_method as [[]|].
  - destruct fill_method as [[]|]; simpl; try done.
    + destruct (mean l) as [x|] eqn:Hx; simpl; [|by rewrite Hx].
      destruct (mean (fillna x l)); simpl; [by rewrite Hfull | done].
    + destruct (median l) as [x|] eqn:Hx; simpl; [|by rewrite Hx].
      destruct (median (fillna x l)); simpl; [by rewrite Hfull | done].
    + by rewrite Hfull.
  - by rewrite Hfull.
  - destruct (modes Z.eqb Z.leb (dropna l)) as [|m ms] eqn:Hm; simpl.
    + destruct (0 <? count_missing l) eqn:Hmiss; simpl.
      * f_equal. apply fillna_all_present, count_missing_const.
      * by rewrite Hm, Hmiss.
    + destruct (modes Z.eqb Z.leb (dropna (fillna m l))); simpl.
      * by rewrite count_missing_fillna.
      * by rewrite Hfull.
  - done.
Qed.

Lemma fill_loop_by_column (fill_method : option FillMethod) (d : DataFrame) :
  NoDup (column_names d) ->
  fill_frame fill_method d = map_columns (fill_series fill_method) d
  /\ fill_log fill_method d
     = flat_map (fun s => fill_entries fill_method (name s) (data s)) d.
Proof.
  intros Hnd. unfold fill_frame, fill_log.
  apply (frame_loop_map (fill_series fill_method) (fill_entries fill_method)
           (fill_frame_col fill_method) (fill_log_col fill_method) d); [|done].
  intros d' col c Hc. split.
  - unfold fill_frame_col. by rewrite (column_get_col _ _ _ Hc).
  - assert (Hafter : column (set_col d' col (fill_series fill_method c)) col
                     = fill_series fill_method c).
    { unfold column. by rewrite get_col_set_col, Hc. }
    unfold fill_log_col, fill_entries, fill_frame_col.
    rewrite (column_get_col _ _ _ Hc), Hafter. done.
Qed.

(** X10: The fill loop treats the columns one by one: every column is filled
    on its own, and the log receives, in column order, one entry for each
    column in which a gap was filled, with the number of gaps filled. *)
Theorem fill_missing_step_by_column (fill_method : option FillMethod)
    (h : store) (df : nat) (d : DataFrame) (changes : list change) :
  h !! df = Some d ->
  NoDup (column_names d) ->
  fill_missing_step fill_method h df changes
  = (<[df := map_columns (fill_series fill_method) d]> h,
     changes ++ flat_map (fun s => fill_entries fill_method (name s) (data s)) d).
Proof.
  intros Hd Hnd. rewrite (fill_missing_step_frame fill_method h df d changes Hd).
  destruct (fill_loop_by_column fill_method d Hnd) as [Hf Hl].
  unfold fill_log in Hl. by rewrite Hf, Hl.
Qed.

(** ** Running a step a second time *)

Lemma flat_map_nil {A B : Type} (f : A -> list B) (l : list A) :
  Forall (fun x => f x = []) l -> flat_map f l = [].
Proof. induction 1 as [|x l Hx _ IH]; simpl; [done | by rewrite Hx, IH]. Qed.

Lemma map_columns_compose (f g : coldata -> coldata) (d : DataFrame) :
  map_columns f (map_columns g d) = map_columns (fun c => f (g c)) d.
Proof. unfold map_columns. rewrite map_map. done. Qed.

Lemma map_columns_fixed (f : coldata -> coldata) (d : DataFrame) :
  Forall (fun s => f (data s) = data s) d -> map_columns f d = d.
Proof.
  intros H. unfold map_columns. rewrite <- (map_id d) at 2.
  apply map_ext_Forall. eapply Forall_impl; [exact H|].
  intros [nm c] Hc. simpl in *. by rewrite Hc.
Qed.

Lemma summary_changes_nothing (d : DataFrame) :
  summary_changes (shape d) (total_missing d) d [] = [].
Proof.
  unfold summary_changes. rewrite bool_decide_eq_true_2 by done.
  by rewrite Nat.ltb_irrefl.
Qed.

(** X11: Filling is idempotent: a second run of the engine with fill-missing
    alone, on the table the first run returned, returns that table again
    and logs nothing. *)
Theorem fill_missing_twice
    (h h2 : store) (df df2 : nat) (T : DataFrame) (operations : gmap string bool)
    (fill_method : option FillMethod) (outlier_threshold : Q) :
  h !! df = Some T ->
  NoDup (column_names T) ->
  get_op operations "remove_duplicates" = false ->
  get_op operations "fill_missing" = true ->
  get_op operations "convert_dates" = false ->
  get_op operations "remove_outliers" = false ->
  h2 !! df2 = Some (result_frame (clean_data h df operations
                                             fill_method outlier_threshold)) ->
  result_frame (clean_data h2 df2 operations fill_method
                           outlier_threshold)
  = result_frame (clean_data h df operations fill_method
                             outlier_threshold)
  /\ result_changes (clean_data h2 df2 operations fill_method
                                outlier_threshold) = [].
Proof.
  intros HT Hnd Hdup Hfill Hconv Hout.
  rewrite (result_frame_clean_data _ _ T) by done.
  assert (Hfirst : clean_frame T operations fill_method outlier_threshold
                   = map_columns (fill_series fill_method) T).
  { unfold clean_frame. rewrite Hdup, Hfill, Hconv, Hout. cbv zeta.
    by destruct (fill_loop_by_column fill_method T Hnd) as [-> _]. }
  rewrite Hfirst. set (T' := map_columns (fill_series fill_method) T).
  intros HT'.
  assert (Hnd' : NoDup (column_names T')).
  { subst T'. by rewrite column_names_map_columns. }
  destruct (fill_loop_by_column fill_method T' Hnd') as [Hf Hl].
  assert (Hfix : map_columns (fill_series fill_method) T' = T').
  { subst T'. rewrite map_columns_compose. unfold map_columns.
    apply map_ext. intros s. by rewrite fill_series_idempotent. }
  assert (Hsecond : clean_frame T' operations fill_method
                      outlier_threshold = T').
  { unfold clean_frame. rewrite Hdup, Hfill, Hconv, Hout. cbv zeta.
    by rewrite Hf. }
  rewrite (result_frame_clean_data _ _ T') by done.
  rewrite (result_changes_clean_data _ _ T') by done.
  split; [done|].
  unfold clean_log. rewrite Hsecond.
  unfold step_changes, after_convert, after_fill, after_duplicates.
  rewrite Hdup, Hfill, Hconv, Hout. cbv zeta. simpl. rewrite app_nil_r, Hl.
  rewrite flat_map_nil; [apply summary_changes_nothing|].
  subst T'. unfold map_columns. rewrite Forall_map. apply Forall_forall.
  intros s _. simpl. unfold fill_entries.
  by rewrite fill_series_idempotent, Nat.ltb_irrefl.
Qed.

Lemma convert_series_idempotent (c : coldata) :
  convert_series (convert_series c)
  = convert_series c.
Proof.
  destruct c as [l|l|l|l|l]; simpl; try done.
  destruct (to_datetime l) eqn:Hl; simpl; [done | by rewrite Hl].
Qed.

Lemma convert_entries_converted (col : string) (c : coldata) :
  convert_entries col (convert_series c) = [].
Proof.
  destruct c as [l|l|l|l|l]; simpl; try done.
  destruct (to_datetime l) eqn:Hl; simpl; [done | by rewrite Hl].
Qed.

(** X12: Date conversion is idempotent: a second run of the engine with
    convert-dates alone, on the table the first run returned, returns
    that table again and logs nothing. *)
Theorem convert_dates_twice (h h2 : store) (df df2 : nat) (T : DataFrame)
    (operations : gmap string bool) (fill_method : option FillMethod)
    (outlier_threshold : Q) :
  h !! df = Some T ->
  NoDup (column_names T) ->
  get_op operations "remove_duplicates" = false ->
  get_op operations "fill_missing" = false ->
  get_op operations "convert_dates" = true ->
  get_op operations "remove_outliers" = false ->
  h2 !! df2 = Some (result_frame (clean_data h df operations
                                             fill_method outlier_threshold)) ->
  result_frame (clean_data h2 df2 operations fill_method
                           outlier_threshold)
  = result_frame (clean_data h df operations fill_method
                             outlier_threshold)
  /\ result_changes (clean_data h2 df2 operations fill_method
                                outlier_threshold) = [].
Proof.
  intros HT Hnd Hdup Hfill Hconv Hout.
  rewrite (result_frame_clean_data _ _ T) by done.
  assert (Hfirst : clean_frame T operations fill_method outlier_threshold
                   = map_columns convert_series T).
  { unfold clean_frame. rewrite Hdup, Hfill, Hconv, Hout. cbv zeta.
    by destruct (convert_frame_map T Hnd) as [-> _]. }
  rewrite Hfirst. set (T' := map_columns convert_series T).
  intros HT'.
  assert (Hnd' : NoDup (column_names T')).
  { subst T'. by rewrite column_names_map_columns. }
  destruct (convert_frame_map T' Hnd') as [Hf Hl].
  assert (Hfix : map_columns convert_series T' = T').
  { subst T'. rewrite map_columns_compose. unfold map_columns.
    apply map_ext. intros s. by rewrite convert_series_idempotent. }
  assert (Hsecond : clean_frame T' operations fill_method
                      outlier_threshold = T').
  { unfold clean_frame. rewrite Hdup, Hfill, Hconv, Hout. cbv zeta.
    by rewrite Hf. }
  rewrite (result_frame_clean_data _ _ T') by done.
  rewrite (result_changes_clean_data _ _ T') by done.
  split; [done|].
  unfold clean_log. rewrite Hsecond.
  unfold step_changes, after_convert, after_fill, after_duplicates, convert_log.
  rewrite Hdup, Hfill, Hconv, Hout. cbv zeta. simpl. rewrite app_nil_r, Hl.
  rewrite flat_map_nil; [apply summary_changes_nothing|].
  subst T'. unfold map_columns. rewrite Forall_map. apply Forall_forall.
  intros s _. simpl. apply convert_entries_converted.
Qed.

(** ** Outlier removal and missing values *)

Lemma trim_keeps_clear (m : Q) (cols : list string) (d : DataFrame) (col : string) :
  (forall c, get_col d col = Some c -> is_number (dtype_of c) = true ->
             isnull_sum c = 0) ->
  forall c, get_col (trim_outliers m cols d).1 col = Some c ->
            is_number (dtype_of c) = true -> isnull_sum c = 0.
Proof.
  revert d. induction cols as [|col0 cols IH]; intros d Hd; cbn [trim_outliers];
    [exact Hd|].
  specialize (IH (trim_column m d col0)).
  destruct (trim_outliers m cols (trim_column m d col0)) as [d' n]. simpl in *.
  apply IH. intros c. unfold trim_column. rewrite get_col_filter_rows.
  destruct (get_col d col) as [c0|] eqn:Hc0; simpl; [|done].
  intros [= <-]. rewrite dtype_of_filter_col. intros Hnum.
  pose proof (isnull_sum_filter_col_le
                (map (within_fence (iqr_fence m (num_values (column d col0))))
                     (num_values (column d col0))) c0) as Hle.
  rewrite (Hd c0 eq_refl Hnum) in Hle. lia.
Qed.

Lemma trim_clears (m : Q) (cols : list string) (d : DataFrame) (col : string) :
  In col cols ->
  forall c, get_col (trim_outliers m cols d).1 col = Some c ->
            is_number (dtype_of c) = true -> isnull_sum c = 0.
Proof.
  revert d. induction cols as [|col0 cols IH]; intros d Hin; [done|].
  destruct Hin as [-> | Hin].
  - cbn [trim_outliers].
    pose proof (trim_keeps_clear m cols (trim_column m d col) col) as Hkeep.
    destruct (trim_outliers m cols (trim_column m d col)) as [d' n]. simpl in *.
    apply Hkeep. intros c. unfold trim_column. rewrite get_col_filter_rows.
    unfold column.
    destruct (get_col d col) as [c0|] eqn:Hc0; simpl; [|done].
    intros [= <-]. destruct c0 as [l|l|l|l|l]; simpl; try done.
    intros _. apply count_missing_fence.
  - cbn [trim_outliers]. specialize (IH (trim_column m d col0) Hin).
    by destruct (trim_outliers m cols (trim_column m d col0)).
Qed.

Lemma select_dtypes_number_filter_rows (mask : list bool) (d : DataFrame) :
  column_names (select_dtypes_number (filter_rows mask d))
  = column_names (select_dtypes_number d).
Proof.
  unfold select_dtypes_number, filter_rows, column_names.
  induction d as [|s d IH]; simpl; [done|].
  rewrite dtype_of_filter_col.
  destruct (is_number (dtype_of (data s))); simpl; by rewrite IH.
Qed.

Lemma select_dtypes_number_trim_outliers (m : Q) (cols : list string) (d : DataFrame) :
  column_names (select_dtypes_number (trim_outliers m cols d).1)
  = column_names (select_dtypes_number d).
Proof.
  revert d. induction cols as [|col cols IH]; intros d; cbn [trim_outliers]; [done|].
  specialize (IH (trim_column m d col)).
  destruct (trim_outliers m cols (trim_column m d col)) as [d' n]. simpl in *.
  rewrite IH. apply select_dtypes_number_filter_rows.
Qed.

(** X13: Outlier removal also removes every row with a gap in a numeric
    column: with remove-outliers enabled, the assessor reports 0 missing
    values for every numeric column of the cleaned table. *)
Theorem outliers_leave_no_missing
    (h : store) (df : nat) (T : DataFrame) (operations : gmap string bool)
    (fill_method : option FillMethod) (outlier_threshold : Q) (s : Series) :
  h !! df = Some T ->
  NoDup (column_names T) ->
  get_op operations "remove_outliers" = true ->
  s ∈ result_frame (clean_data h df operations fill_method
                               outlier_threshold) ->
  is_number (dtype_of (data s)) = true ->
  dict_get (missing_values (assess_data_quality
              (result_frame (clean_data h df operations fill_method
                                        outlier_threshold)))) (name s) = Some 0.
Proof.
  intros HT Hnd Hout.
  rewrite (result_frame_clean_data _ _ T) by done.
  pose proof (column_names_clean_frame T operations fill_method
                outlier_threshold) as Hnames.
  assert (Hnd' : NoDup (column_names
            (clean_frame T operations fill_method outlier_threshold)))
    by (by rewrite Hnames).
  intros Hs Hnum. simpl.
  rewrite dict_get_missing_by_column by done. f_equal.
  pose proof (get_col_NoDup _ s Hnd' Hs) as Hget.
  revert Hs Hget. unfold clean_frame. rewrite Hout. cbv zeta.
  set (d3 := if get_op operations "convert_dates" then _ else _).
  unfold outliers_frame. intros Hs Hget.
  apply (trim_clears outlier_threshold (column_names (select_dtypes_number d3)) d3
           (name s)); [|done|done].
  rewrite <- (select_dtypes_number_trim_outliers outlier_threshold
                (column_names (select_dtypes_number d3)) d3).
  unfold column_names. apply in_map. unfold select_dtypes_number.
  apply List.filter_In. split; [by apply list_elem_of_In | done].
Qed.

(** ** The summary entries and the empty change log *)

Lemma loop_log_Forall (P : change -> Prop)
    (fframe : DataFrame -> string -> DataFrame)
    (flog : DataFrame -> string -> list change) (cols : list string) (d : DataFrame) :
  (forall d col, Forall P (flog d col)) -> Forall P (loop_log fframe flog cols d).
Proof.
  intros Hlog. revert d. induction cols as [|col cols IH]; intros d; simpl.
  - constructor.
  - apply Forall_app. split; [apply Hlog | apply IH].
Qed.

Lemma step_changes_not_summary (T : DataFrame) (operations : gmap string bool)
    (fill_method : option FillMethod) (outlier_threshold : Q) :
  Forall (fun c => is_summary c = false)
         (step_changes T operations fill_method outlier_threshold).
Proof.
  unfold step_changes. repeat (apply Forall_app; split).
  - destruct (get_op operations "remove_duplicates"); [|constructor].
    unfold duplicates_log. destruct (_ <? _); repeat constructor.
  - destruct (get_op operations "fill_missing"); [|constructor].
    apply loop_log_Forall. intros d col. unfold fill_log_col.
    cbv zeta. destruct (_ <? _); repeat constructor.
  - destruct (get_op operations "convert_dates"); [|constructor].
    apply loop_log_Forall. intros d col. unfold convert_log_col.
    destruct (column d col); try constructor.
    destruct (to_datetime l); repeat constructor.
  - destruct (get_op operations "remove_outliers"); [|constructor].
    unfold outliers_log. cbv zeta. destruct (0 <? _); repeat constructor.
Qed.

Lemma nrows_clean_frame_le (T : DataFrame) (operations : gmap string bool)
    (fill_method : option FillMethod) (outlier_threshold : Q) :
  nrows (clean_frame T operations fill_method outlier_threshold)
  <= nrows T.
Proof.
  unfold clean_frame, outliers_frame.
  pose proof (nrows_filter_rows_le (map negb (duplicated T)) T) as Hdup.
  fold (drop_duplicates T) in Hdup.
  set (d1 := if get_op operations "remove_duplicates" then drop_duplicates T else T).
  assert (H1 : nrows d1 <= nrows T).
  { subst d1. destruct (get_op operations "remove_duplicates"); [done | lia]. }
  set (d2 := if get_op operations "fill_missing" then fill_frame fill_method d1 else d1).
  assert (H2 : nrows d2 = nrows d1).
  { subst d2. destruct (get_op operations "fill_missing"); [apply nrows_fill_frame | done]. }
  set (d3 := if get_op operations "convert_dates"
             then convert_frame d2 else d2).
  assert (H3 : nrows d3 = nrows d2).
  { subst d3. destruct (get_op operations "convert_dates");
      [apply nrows_convert_frame | done]. }
  pose proof (trim_outliers_total outlier_threshold
                (column_names (select_dtypes_number d3)) d3) as [H4 _].
  destruct (get_op operations "remove_outliers"); lia.
Qed.

Lemma summary_changes_app (original_shape : nat * nat) (original_missing : nat)
    (final : DataFrame) (changes : list change) :
  summary_changes original_shape original_missing final changes
  = changes
    ++ (if bool_decide (shape final = original_shape) then []
        else [ShapeChanged original_shape (shape final)])
    ++ (if total_missing final <? original_missing
        then [MissingReduced original_missing (total_missing final)] else []).
Proof.
  unfold summary_changes.
  destruct (bool_decide (shape final = original_shape)),
           (total_missing final <? original_missing); simpl;
    by rewrite <- ?app_assoc, ?app_nil_r.
Qed.

(** X14: The shape entry is written exactly when rows were removed, with the
    shape before and after, and the column count is the same on both
    sides; the missing-value entry is written exactly when the total of
    missing values went down, with the totals before and after. *)
Theorem summary_entries
    (h : store) (df : nat) (T : DataFrame) (operations : gmap string bool)
    (fill_method : option FillMethod) (outlier_threshold : Q) :
  h !! df = Some T ->
  let res := clean_data h df operations fill_method
                        outlier_threshold in
  (forall a b, In (ShapeChanged a b) (result_changes res) <->
     a = shape T /\ b = shape (result_frame res)
     /\ nrows (result_frame res) < nrows T)
  /\ ncols (result_frame res) = ncols T
  /\ (forall a b, In (MissingReduced a b) (result_changes res) <->
        a = total_missing T /\ b = total_missing (result_frame res) /\ b < a).
Proof.
  intros HT. cbv zeta.
  rewrite (result_frame_clean_data _ _ T), (result_changes_clean_data _ _ T)
    by done.
  pose proof (step_changes_not_summary T operations fill_method
                outlier_threshold) as Hsteps.
  pose proof (nrows_clean_frame_le T operations fill_method
                outlier_threshold) as Hle.
  pose proof (column_names_clean_frame T operations fill_method
                outlier_threshold) as Hnames.
  unfold clean_log. rewrite summary_changes_app.
  set (final := clean_frame T operations fill_method outlier_threshold)
    in *.
  set (steps := step_changes T operations fill_method
                  outlier_threshold) in *.
  assert (Hcols : ncols final = ncols T).
  { unfold ncols. rewrite <- (length_map name), <- (length_map name T).
    unfold column_names in Hnames. by rewrite Hnames. }
  rewrite Forall_forall in Hsteps.
  assert (Hno : forall c, is_summary c = true -> ~ In c steps).
  { intros c Hc Hin. apply list_elem_of_In in Hin.
    rewrite (Hsteps c Hin) in Hc. done. }
  split; [|split; [done|]].
  - intros a b. rewrite !in_app_iff. split.
    + intros [Hin | [Hin | Hin]].
      * by apply (Hno (ShapeChanged a b) eq_refl) in Hin.
      * case_bool_decide as Hshape; [done|].
        destruct Hin as [Heq | []]. injection Heq as <- <-.
        split; [done|]. split; [done|].
        destruct (decide (nrows final = nrows T)) as [He | He]; [|lia].
        exfalso. apply Hshape. unfold shape. by rewrite He, Hcols.
      * destruct (total_missing final <? total_missing T); [|done].
        by destruct Hin as [Heq | []].
    + intros (-> & -> & Hlt). right. left.
      rewrite bool_decide_eq_false_2; [by left|].
      unfold shape. intros Heq. injection Heq as Hr _. lia.
  - intros a b. rewrite !in_app_iff. split.
    + intros [Hin | [Hin | Hin]].
      * by apply (Hno (MissingReduced a b) eq_refl) in Hin.
      * case_bool_decide; [done|]. by destruct Hin as [Heq | []].
      * destruct (total_missing final <? total_missing T) eqn:Hm; [|done].
        destruct Hin as [Heq | []]. injection Heq as <- <-.
        split; [done|]. split; [done|]. by apply Nat.ltb_lt.
    + intros (-> & -> & Hlt). right. right.
      apply Nat.ltb_lt in Hlt. rewrite Hlt. by left.
Qed.

Lemma filter_mask_full {A B : Type} (m : list bool) (l : list A) (l' : list B) :
  length l' = length l ->
  length (filter_mask m l) = length l ->
  filter_mask m l' = l'.
Proof.
  revert l l'. induction m as [|b m IH]; intros [|x l] [|x' l'] Hlen Hfull;
    simpl in *; try done.
  injection Hlen as Hlen. destruct b; simpl in *.
  - f_equal. apply (IH l l'); [done | lia].
  - pose proof (filter_mask_length_le m l). lia.
Qed.

Lemma filter_col_full (m : list bool) (c0 c : coldata) :
  col_length c = col_length c0 ->
  col_length (filter_col m c0) = col_length c0 ->
  filter_col m c = c.
Proof.
  destruct c0, c; simpl; intros Hlen Hfull; f_equal;
    by eapply filter_mask_full.
Qed.

Lemma filter_rows_same_nrows (m : list bool) (d : DataFrame) :
  aligned d -> nrows (filter_rows m d) = nrows d -> filter_rows m d = d.
Proof.
  intros Hal Hn. destruct d as [|s0 d]; [done|].
  simpl in Hn. unfold filter_rows. rewrite <- (map_id (s0 :: d)) at 2.
  apply map_ext_Forall. eapply Forall_impl; [exact Hal|].
  intros [nm c] Hc. simpl in *. f_equal. by apply (filter_col_full m (data s0)).
Qed.

Lemma trim_outliers_nothing_removed (m : Q) (cols : list string) (d : DataFrame) :
  aligned d -> (trim_outliers m cols d).2 = 0 -> (trim_outliers m cols d).1 = d.
Proof.
  revert d. induction cols as [|col cols IH]; intros d Hal; cbn [trim_outliers];
    [done|].
  pose proof (nrows_trim_column_le m d col) as Hle.
  specialize (IH (trim_column m d col)).
  destruct (trim_outliers m cols (trim_column m d col)) as [d' n].
  cbn [fst snd] in *. intros Hzero.
  assert (Hsame : trim_column m d col = d).
  { apply filter_rows_same_nrows; [done|].
    change (nrows (trim_column m d col) = nrows d). lia. }
  rewrite Hsame in IH. apply IH; [done | lia].
Qed.

Lemma flat_map_nil_inv {A B : Type} (f : A -> list B) (l : list A) :
  flat_map f l = [] -> Forall (fun x => f x = []) l.
Proof.
  induction l as [|x l IH]; simpl; [constructor|].
  intros [Hx Hl]%app_eq_nil. constructor; [done | by apply IH].
Qed.

Lemma fill_series_unchanged_or_reduces (fill_method : option FillMethod)
    (c : coldata) :
  isnull_sum (fill_series fill_method c) < isnull_sum c
  \/ fill_series fill_method c = c.
Proof.
  assert (Hfill : forall (A : Type) (x : A) l,
    count_missing (fillna x l) < count_missing l \/ fillna x l = l).
  { intros A x l. destruct (count_missing l) eqn:Hm.
    - right. by apply fillna_all_present.
    - left. rewrite count_missing_fillna. lia. }
  unfold fill_series. destruct c as [l|l|l|l|l]; simpl.
  - right. by destruct fill_method as [[]|].
  - destruct fill_method as [[]|]; simpl; try (by right).
    + destruct (mean l) as [x|]; simpl; [|by right].
      destruct (Hfill _ x l) as [? | ->]; [by left | by right].
    + destruct (median l) as [x|]; simpl; [|by right].
      destruct (Hfill _ x l) as [? | ->]; [by left | by right].
    + destruct (Hfill _ (mode_or Qeq_bool Qle_bool 0%Q l) l) as [? | ->];
        [by left | by right].
  - destruct (Hfill _ (mode_or String.eqb String.leb "Unknown" l) l) as [? | ->];
      [by left | by right].
  - destruct (modes Z.eqb Z.leb (dropna l)) as [|x xs]; simpl.
    + destruct (0 <? count_missing l) eqn:Hm; simpl; [|by right].
      left. rewrite count_missing_const. by apply Nat.ltb_lt.
    + destruct (Hfill _ x l) as [? | ->]; [by left | by right].
  - by right.
Qed.

(** X15: An empty change log is truthful: when a run logs nothing, the table
    it returns is, value for value, the table it was given. *)
Theorem no_changes_means_unchanged
    (h : store) (df : nat) (T : DataFrame) (operations : gmap string bool)
    (fill_method : option FillMethod) (outlier_threshold : Q) :
  h !! df = Some T ->
  NoDup (column_names T) ->
  aligned T ->
  result_changes (clean_data h df operations fill_method
                             outlier_threshold) = [] ->
  result_frame (clean_data h df operations fill_method
                           outlier_threshold) = T.
Proof.
  intros HT Hnd Hal.
  rewrite (result_frame_clean_data _ _ T), (result_changes_clean_data _ _ T)
    by done.
  unfold clean_log. rewrite summary_changes_app.
  intros [Hsteps _]%app_eq_nil. revert Hsteps.
  unfold step_changes, clean_frame, after_convert, after_fill, after_duplicates.
  intros [H1 [H2 [H3 H4]%app_eq_nil]%app_eq_nil]%app_eq_nil. cbv zeta.
  assert (Hd1 : (if get_op operations "remove_duplicates"
                 then drop_duplicates T else T) = T).
  { destruct (get_op operations "remove_duplicates"); [|done].
    unfold duplicates_log in H1. simpl in H1.
    destruct (nrows (drop_duplicates T) <? nrows T) eqn:Hlt; [done|].
    apply Nat.ltb_ge in Hlt. pose proof (nrows_drop_duplicates T Hal) as Hsum.
    assert (Hzero : count_true (duplicated T) = 0)
      by (unfold duplicated_sum in Hsum; lia).
    unfold drop_duplicates.
    rewrite (count_true_zero _ Hzero), map_negb_repeat_false, length_duplicated.
    by apply filter_rows_repeat_true. }
  rewrite Hd1 in *.
  assert (Hd2 : (if get_op operations "fill_missing"
                 then fill_frame fill_method T else T) = T).
  { destruct (get_op operations "fill_missing"); [|done].
    destruct (fill_loop_by_column fill_method T Hnd) as [-> Hl].
    rewrite Hl in H2. apply flat_map_nil_inv in H2.
    apply map_columns_fixed. eapply Forall_impl; [exact H2|].
    intros s Hs. unfold fill_entries in Hs.
    destruct (fill_series_unchanged_or_reduces fill_method (data s)) as [Hlt | Heq];
      [|done].
    apply Nat.ltb_lt in Hlt. by rewrite Hlt in Hs. }
  rewrite Hd2 in *.
  assert (Hd3 : (if get_op operations "convert_dates"
                 then convert_frame T else T) = T).
  { destruct (get_op operations "convert_dates"); [|done].
    destruct (convert_frame_map T Hnd) as [-> Hl].
    unfold convert_log in H3. rewrite Hl in H3. apply flat_map_nil_inv in H3.
    apply map_columns_fixed. eapply Forall_impl; [exact H3|].
    intros s Hs. unfold convert_entries in Hs.
    destruct (data s) as [l|l|l|l|l]; simpl; try done.
    by destruct (to_datetime l). }
  rewrite Hd3 in *.
  destruct (get_op operations "remove_outliers"); [|done].
  unfold outliers_frame. unfold outliers_log in H4. cbv zeta in H4.
  apply trim_outliers_nothing_removed; [done|].
  destruct (0 <? _) eqn:Hpos; [done|]. apply Nat.ltb_ge in Hpos. lia.
Qed.

(** ** Numeric columns and the total of missing values through a run *)

Lemma select_dtypes_number_map_columns (f : coldata -> coldata) (d : DataFrame) :
  (forall c, is_number (dtype_of (f c)) = is_number (dtype_of c)) ->
  column_names (select_dtypes_number (map_columns f d))
  = column_names (select_dtypes_number d).
Proof.
  intros Hf. unfold select_dtypes_number, map_columns, column_names.
  induction d as [|s d IH]; simpl; [done|]. rewrite Hf.
  destruct (is_number (dtype_of (data s))); simpl; by rewrite IH.
Qed.

(** X16: A run never turns a numeric column into a non-numeric one or the
    other way round: the cleaned table has the numeric columns of the
    table given, in the same order. *)
Theorem numeric_columns_preserved
    (h : store) (df : nat) (T : DataFrame) (operations : gmap string bool)
    (fill_method : option FillMethod) (outlier_threshold : Q) :
  h !! df = Some T ->
  NoDup (column_names T) ->
  column_names (select_dtypes_number
    (result_frame (clean_data h df operations fill_method
                              outlier_threshold)))
  = column_names (select_dtypes_number T).
Proof.
  intros HT Hnd. rewrite (result_frame_clean_data _ _ T) by done.
  unfold clean_frame.
  set (d1 := if get_op operations "remove_duplicates" then drop_duplicates T else T).
  assert (H1 : column_names (select_dtypes_number d1)
               = column_names (select_dtypes_number T)
               /\ NoDup (column_names d1)).
  { subst d1. destruct (get_op operations "remove_duplicates"); [|done].
    unfold drop_duplicates.
    by rewrite select_dtypes_number_filter_rows, column_names_filter_rows. }
  destruct H1 as [H1 Hnd1]. cbv zeta.
  set (d2 := if get_op operations "fill_missing" then fill_frame fill_method d1 else d1).
  assert (H2 : column_names (select_dtypes_number d2)
               = column_names (select_dtypes_number T)
               /\ NoDup (column_names d2)).
  { subst d2. destruct (get_op operations "fill_missing"); [|done].
    destruct (fill_loop_by_column fill_method d1 Hnd1) as [-> _].
    rewrite select_dtypes_number_map_columns, column_names_map_columns;
      [done | apply is_number_fill_series]. }
  destruct H2 as [H2 Hnd2].
  set (d3 := if get_op operations "convert_dates"
             then convert_frame d2 else d2).
  assert (H3 : column_names (select_dtypes_number d3)
               = column_names (select_dtypes_number T)).
  { subst d3. destruct (get_op operations "convert_dates"); [|done].
    destruct (convert_frame_map d2 Hnd2) as [-> _].
    rewrite select_dtypes_number_map_columns;
      [done | apply is_number_convert_series]. }
  destruct (get_op operations "remove_outliers"); [|done].
  unfold outliers_frame. by rewrite select_dtypes_number_trim_outliers.
Qed.

Lemma total_missing_map_columns_le (f : coldata -> coldata) (d : DataFrame) :
  (forall c, isnull_sum (f c) <= isnull_sum c) ->
  total_missing (map_columns f d) <= total_missing d.
Proof.
  intros Hf. unfold total_missing, map_columns.
  induction d as [|s d IH]; simpl; [done|]. specialize (Hf (data s)). lia.
Qed.

Lemma total_missing_trim_outliers_le (m : Q) (cols : list string) (d : DataFrame) :
  total_missing (trim_outliers m cols d).1 <= total_missing d.
Proof.
  revert d. induction cols as [|col cols IH]; intros d; cbn [trim_outliers]; [done|].
  specialize (IH (trim_column m d col)).
  pose proof (total_missing_map_columns_le
    (filter_col (map (within_fence (iqr_fence m (num_values (column d col))))
                     (num_values (column d col)))) d
    (isnull_sum_filter_col_le _)) as Hle.
  destruct (trim_outliers m cols (trim_column m d col)) as [d' n].
  cbn [fst] in *. unfold trim_column, filter_rows in IH.
  unfold map_columns in Hle. lia.
Qed.

(** X17: Without the date conversion a run never adds a missing value: the
    total of missing values of the cleaned table is at most that of the
    table given. *)
Theorem total_missing_never_grows
    (h : store) (df : nat) (T : DataFrame) (operations : gmap string bool)
    (fill_method : option FillMethod) (outlier_threshold : Q) :
  h !! df = Some T ->
  NoDup (column_names T) ->
  get_op operations "convert_dates" = false ->
  total_missing (result_frame (clean_data h df operations
                                          fill_method outlier_threshold))
  <= total_missing T.
Proof.
  intros HT Hnd Hconv. rewrite (result_frame_clean_data _ _ T) by done.
  unfold clean_frame. rewrite Hconv. cbv zeta.
  set (d1 := if get_op operations "remove_duplicates" then drop_duplicates T else T).
  assert (H1 : total_missing d1 <= total_missing T /\ NoDup (column_names d1)).
  { subst d1. destruct (get_op operations "remove_duplicates"); [|done].
    unfold drop_duplicates. rewrite column_names_filter_rows. split; [|done].
    apply (total_missing_map_columns_le (filter_col _)).
    apply isnull_sum_filter_col_le. }
  destruct H1 as [H1 Hnd1].
  set (d2 := if get_op operations "fill_missing" then fill_frame fill_method d1 else d1).
  assert (H2 : total_missing d2 <= total_missing d1).
  { subst d2. destruct (get_op operations "fill_missing"); [|done].
    destruct (fill_loop_by_column fill_method d1 Hnd1) as [-> _].
    apply total_missing_map_columns_le. intros c.
    destruct (fill_series_unchanged_or_reduces fill_method c) as [? | ->]; lia. }
  pose proof (total_missing_trim_outliers_le outlier_threshold
                (column_names (select_dtypes_number d2)) d2) as H4.
  destruct (get_op operations "remove_outliers"); unfold outliers_frame; lia.
Qed.
End Pandas.

(** * The properties on the examples

    The theorems above at concrete tables, the scenarios of the
    specification, and the runs on which a claim fails.  The library is
    [exact_pandas]; on these tables no float operation rounds. *)

(** C1 fails as stated: with fill-missing and convert-dates enabled and no
    duplicate removal, [clean_data] leaves the frame it was handed with the
    gap of [x] filled and [d] turned into datetimes. *)
Lemma clean_data_mutates_argument :
  result_store (clean_data exact_pandas [readings] 0
                  (operations_of false true true false) (Some Mean) (3 # 2)) !! 0
  = Some readings_cleaned
  /\ result_store (clean_data exact_pandas [readings] 0
                     (operations_of false true true false) (Some Mean) (3 # 2)) !! 0
     <> [readings] !! 0.
Proof.
  assert (Hrun : result_store (clean_data exact_pandas [readings] 0
                   (operations_of false true true false) (Some Mean) (3 # 2)) !! 0
                 = Some readings_cleaned) by (vm_compute; reflexivity).
  split; [exact Hrun|]. rewrite Hrun. discriminate.
Qed.

Lemma caller_table_preserved_witness :
  result_store (apply_cleaning exact_pandas [readings] 0
                  (operations_of false true true false) (Some Mean) (3 # 2)) !! 0
  = Some readings
  /\ result_store (clean_data exact_pandas [readings] 0
                     (operations_of true true true false) (Some Mean) (3 # 2)) !! 0
     = Some readings.
Proof.
  split.
  - apply (caller_table_preserved exact_pandas [readings] 0 readings
             (operations_of false true true false) (Some Mean) (3 # 2) eq_refl).
  - apply (caller_table_preserved exact_pandas [readings] 0 readings
             (operations_of true true true false) (Some Mean) (3 # 2) eq_refl).
    left. vm_compute. reflexivity.
Defined.

(** C2 fails as stated: the string NaT is a present value, so the fill
    leaves it, and the date conversion that follows turns it into a
    missing timestamp. *)
Lemma convert_dates_reintroduces_nulls :
  let cleaned := result_frame (clean_data exact_pandas [events] 0
                   (operations_of false true true false) (Some Mode) (3 # 2)) in
  cleaned = [mkSeries "d" (DatetimeCol [Some 18628%Z; Some 18628%Z; None; Some 18628%Z])]
  /\ has_fallback (Some Mode) (column cleaned "d") = true
  /\ dict_get (missing_values (assess_data_quality exact_pandas cleaned)) "d" = Some 1.
Proof. vm_compute. done. Qed.

Lemma fill_missing_eliminates_nulls_witness :
  dict_get (missing_values (assess_data_quality exact_pandas
    (result_frame (clean_data exact_pandas [bookings] 0
       (operations_of true true true true) (Some Mode) (3 # 2))))) "d" = Some 0.
Proof.
  apply (fill_missing_eliminates_nulls exact_pandas [bookings] 0 bookings
           (operations_of true true true true) (Some Mode) (3 # 2)
           (mkSeries "d" (DatetimeCol [Some 18628%Z; Some 18628%Z; Some 18629%Z]))).
  - reflexivity.
  - vm_compute. apply NoDup_cons. split; [apply not_elem_of_nil | apply NoDup_nil_2].
  - vm_compute. reflexivity.
  - vm_compute. apply list_elem_of_here.
  - vm_compute. reflexivity.
  - intros _ l ts Hl _ x Hx. vm_compute in Hl. injection Hl as <-.
    repeat (apply elem_of_cons in Hx as [Hx | Hx];
            [injection Hx as ->; vm_compute; discriminate|]).
    by apply elem_of_nil in Hx.
Defined.

(** C4 fails as stated: each of the two values is a date and is parsed
    when it is converted on its own, but they are written in two formats.
    [pd.to_datetime] takes the format of the column from the first value
    and raises on the second, so the column is left as it is and nothing
    is logged. *)
Lemma convert_dates_mixed_formats :
  let l := [Some "2021-01-01"; Some "01/02/2021"] in
  let res := clean_data exact_pandas [[mkSeries "d" (ObjectCol l)]] 0
               (operations_of false false true false) None (3 # 2) in
  to_datetime exact_pandas [Some "2021-01-01"] = Some [Some 18628%Z]
  /\ to_datetime exact_pandas [Some "01/02/2021"] = Some [Some 18629%Z]
  /\ result_frame res = [mkSeries "d" (ObjectCol l)]
  /\ result_changes res = [].
Proof. vm_compute. done. Qed.

Lemma convert_dates_all_or_nothing_witness :
  exists (h' : store) (entries : list change),
    convert_dates_step exact_pandas [readings] 0 [] = (h', [] ++ entries)
    /\ ((forall s, Some s ∈ [Some "2021-01-01"; Some "2021-01-02"] ->
         parse_value exact_pandas [Some "2021-01-01"; Some "2021-01-02"] s <> None) ->
        exists ts,
          Forall2 (fun o t =>
                     to_datetime_scalar exact_pandas
                       [Some "2021-01-01"; Some "2021-01-02"] o = Some t)
                  [Some "2021-01-01"; Some "2021-01-02"] ts
          /\ get_col (deref h' 0) "d" = Some (DatetimeCol ts)
          /\ length (List.filter (is_converted "d") entries) = 1)
    /\ ((exists s, Some s ∈ [Some "2021-01-01"; Some "2021-01-02"]
                   /\ parse_value exact_pandas
                        [Some "2021-01-01"; Some "2021-01-02"] s = None) ->
        get_col (deref h' 0) "d" = Some (ObjectCol [Some "2021-01-01"; Some "2021-01-02"])
        /\ length (List.filter (is_converted "d") entries) = 0).
Proof.
  apply (convert_dates_all_or_nothing exact_pandas [readings] 0 readings [] "d"
           [Some "2021-01-01"; Some "2021-01-02"]).
  - reflexivity.
  - vm_compute. apply NoDup_cons. split.
    + intros Hin. apply elem_of_cons in Hin as [Heq | Hin]; [discriminate|].
      by apply elem_of_nil in Hin.
    + apply NoDup_cons. split; [apply not_elem_of_nil | apply NoDup_nil_2].
  - reflexivity.
Defined.

(** Scenario 4: one value of the column is no date; the column is left as
    it is and the change log stays empty. *)
Example convert_dates_scenario_4 :
  let t := [mkSeries "d" (ObjectCol [Some "2021-01-01"; Some "not-a-date"])] in
  let res := clean_data exact_pandas [t] 0
               (operations_of false false true false) None (3 # 2) in
  result_frame res = t /\ result_changes res = [].
Proof. vm_compute. done. Qed.

Lemma remove_outliers_iqr_witness :
  exists (h' : store) (df' : nat),
    let kept := trim_rows_all exact_pandas (3 # 2) (numeric_positions measurements)
                  (rows measurements) in
    remove_outliers_step exact_pandas (3 # 2) [measurements] 0 []
    = (h', df', [] ++ if 0 <? kept.2 then [RemovedOutliers kept.2 (3 # 2)] else [])
    /\ rows (deref h' df') = kept.1
    /\ column_names (deref h' df') = column_names measurements
    /\ kept.2 = nrows measurements - nrows (deref h' df')
    /\ forall j rs r,
         In r (trim_rows exact_pandas (3 # 2) j rs) <->
         In r rs /\
         exists Q1 Q3 x,
           exact_quantile (1 # 4) (map (row_num exact_pandas j) rs) = Some Q1
           /\ exact_quantile (3 # 4) (map (row_num exact_pandas j) rs) = Some Q3
           /\ row_num exact_pandas j r = Some x
           /\ (Q1 - (3 # 2) * (Q3 - Q1) <= x)%Q
           /\ (x <= Q3 + (3 # 2) * (Q3 - Q1))%Q.
Proof.
  apply (remove_outliers_iqr exact_pandas (3 # 2) [measurements] 0 measurements []).
  - reflexivity.
  - repeat constructor.
  - vm_compute. apply NoDup_cons. split; [apply not_elem_of_nil | apply NoDup_nil_2].
Defined.

(** Scenario 3: Q1 = 2, Q3 = 4, the fence is [-1, 7], the row holding 100
    is dropped and one removed row is logged. *)
Example remove_outliers_scenario_3 :
  let vals := num_values exact_pandas (column measurements "x") in
  exact_quantile (1 # 4) vals = Some 2%Q
  /\ exact_quantile (3 # 4) vals = Some 4%Q
  /\ (match iqr_fence exact_pandas (3 # 2) vals with
      | Some (lo, hi) => Qeq_bool lo (-1) && Qeq_bool hi 7
      | None => false
      end = true)
  /\ trim_rows_all exact_pandas (3 # 2) [0] (rows measurements)
     = ([[Some (VInt 1)]; [Some (VInt 2)]; [Some (VInt 3)]; [Some (VInt 4)]], 1)
  /\ clean_data exact_pandas [measurements] 0
       (operations_of false false false true) None (3 # 2)
     = ([measurements; [mkSeries "x" (IntCol [1; 2; 3; 4]%Z)]], 1,
        [RemovedOutliers 1 (3 # 2); ShapeChanged (5, 1) (4, 1)]).
Proof. vm_compute. done. Qed.

Lemma outlier_filter_drops_missing_witness :
  let '(h', df', n') := remove_outliers_col exact_pandas (3 # 2) ([gauge], 0, 0) "x" in
  isnull_sum (column (deref h' df') "x") = 0
  /\ n' = 0 + (nrows gauge - nrows (deref h' df'))
  /\ isnull_sum (FloatCol [Some 1%Q; None; Some 2%Q; Some 3%Q])
     <= nrows gauge - nrows (deref h' df')
  /\ forall lower upper i,
       num_values exact_pandas (FloatCol [Some 1%Q; None; Some 2%Q; Some 3%Q]) !! i
       = Some None ->
       bounds_mask lower upper
         (num_values exact_pandas (FloatCol [Some 1%Q; None; Some 2%Q; Some 3%Q])) !! i
       = Some false.
Proof.
  apply (outlier_filter_drops_missing exact_pandas (3 # 2) [gauge] 0 gauge 0 "x"
           (FloatCol [Some 1%Q; None; Some 2%Q; Some 3%Q])).
  - reflexivity.
  - repeat constructor.
  - reflexivity.
  - reflexivity.
Defined.

(** The row with the gap is no outlier (the fence of [x] is [0, 4] and a
    missing value is not outside it), yet it is dropped and counted. *)
Example outlier_filter_gap :
  let res := clean_data exact_pandas [gauge] 0
               (operations_of false false false true) None (3 # 2) in
  result_frame res
  = [mkSeries "x" (FloatCol [Some 1%Q; Some 2%Q; Some 3%Q]);
     mkSeries "site" (ObjectCol [Some "a"; Some "c"; Some "d"])]
  /\ result_changes res
     = [RemovedOutliers 1 (3 # 2); ShapeChanged (4, 2) (3, 2); MissingReduced 1 0].
Proof. vm_compute. done. Qed.

(** The application meets such a table at line 162: the outlier filter
    drops every row of a column without a present value, and the cleaned
    table is assessed afterwards. *)
Example assess_after_outliers :
  let cleaned := result_frame (clean_data exact_pandas [blank] 0
                   (operations_of false false false true) None (3 # 2)) in
  cleaned = [mkSeries "x" (FloatCol [])]
  /\ numeric_stats_of (assess_data_quality exact_pandas cleaned) = NoNumericColumns.
Proof. vm_compute. done. Qed.

Lemma people_aligned : aligned people.
Proof. repeat constructor. Qed.

Lemma drop_duplicates_idempotent_witness :
  drop_duplicates (drop_duplicates people) = drop_duplicates people
  /\ rows (drop_duplicates people) = first_occurrences row_eqb (rows people).
Proof. apply (drop_duplicates_idempotent people people_aligned). Defined.

Lemma clean_data_row_count_witness :
  nrows (result_frame (clean_data exact_pandas [people] 0
           (operations_of true false false false) None (3 # 2))) <= nrows people
  /\ nrows (result_frame (clean_data exact_pandas [people] 0
              (operations_of false true true false) (Some Mean) (3 # 2)))
     = nrows people.
Proof.
  split.
  - apply (clean_data_row_count exact_pandas [people] 0 people
             (operations_of true false false false) None (3 # 2) eq_refl).
    left. vm_compute. reflexivity.
  - apply (clean_data_row_count exact_pandas [people] 0 people
             (operations_of false true true false) (Some Mean) (3 # 2) eq_refl);
      vm_compute; reflexivity.
Defined.

Lemma clean_data_columns_witness :
  column_names (result_frame (clean_data exact_pandas [people] 0
                  (operations_of true true true true) (Some Median) (3 # 2)))
  = column_names people
  /\ ncols (result_frame (clean_data exact_pandas [people] 0
              (operations_of true true true true) (Some Median) (3 # 2)))
     = ncols people.
Proof.
  apply (clean_data_columns exact_pandas [people] 0 people
           (operations_of true true true true) (Some Median) (3 # 2) eq_refl).
Defined.

(** Scenario 1: the third row repeats the first; two rows are left and the
    log reports one duplicate removed. *)
Example remove_duplicates_scenario_1 :
  let res := clean_data exact_pandas [people] 0
               (operations_of true false false false) None (3 # 2) in
  result_frame res
  = [mkSeries "age" (FloatCol [Some 25%Q; None]);
     mkSeries "city" (ObjectCol [Some "NY"; Some "LA"])]
  /\ result_changes res = [RemovedDuplicates 1; ShapeChanged (3, 2) (2, 2)]
  /\ duplicate_rows (assess_data_quality exact_pandas people) = 1.
Proof. vm_compute. done. Qed.

(** The table of Scenario 2 filled with the median of 10, 20 and 40.
    (Its mean 70/3 is no float, so the fill with the mean is a matter of
    the library's rounding.) *)
Example fill_missing_median :
  let res := clean_data exact_pandas [scores] 0
               (operations_of false true false false) (Some Median) (3 # 2) in
  result_frame res
  = [mkSeries "col" (FloatCol [Some 10%Q; Some 20%Q; Some 20%Q; Some 40%Q])]
  /\ result_changes res
     = [FilledMissing 1 "col" (Some Median); MissingReduced 1 0].
Proof. vm_compute. done. Qed.

(** A column without a single present value has no mean: under Mean the
    gaps stay, which is why the fallback matters. *)
Example fill_missing_no_mean :
  isnull_sum (fill_series exact_pandas (Some Mean) (FloatCol [None; None])) = 2
  /\ isnull_sum (fill_series exact_pandas (Some Mode) (FloatCol [None; None])) = 0.
Proof. vm_compute. done. Qed.

Lemma file_type_of_extension_witness :
  file_type_of ascii_lower (String.append "sales.2024" (String "."%char "CSV"))
  = ascii_lower "CSV"
  /\ file_type_of ascii_lower "CSV" = ascii_lower "CSV".
Proof.
  apply (file_type_of_extension ascii_lower "sales.2024" "CSV"). reflexivity.
Defined.

Lemma load_file_by_extension_witness :
  let f := mkUpload (String.append "report.final" (String "."%char "XLSX")) "bytes" in
  let load := load_file ascii_lower (fun _ _ => people) (fun _ => scores) unit (fun _ => tt)
                        (fun _ => true) (fun _ => visits) (fun _ => blank) in
  (ascii_lower "XLSX" = "csv" -> load f = Some people)
  /\ (ascii_lower "XLSX" = "xlsx" \/ ascii_lower "XLSX" = "xls" -> load f = Some scores)
  /\ (ascii_lower "XLSX" = "json" -> load f = Some (if true then visits else blank))
  /\ (ascii_lower "XLSX" = "txt" -> load f = Some people)
  /\ (load f = None <-> ~ In (ascii_lower "XLSX") ["csv"; "xlsx"; "xls"; "json"; "txt"]).
Proof.
  apply (load_file_by_extension ascii_lower (fun _ _ => people) (fun _ => scores) unit
           (fun _ => tt) (fun _ => true) (fun _ => visits) (fun _ => blank)
           "report.final" "XLSX" "bytes").
  reflexivity.
Defined.

Lemma drop_duplicates_row_count_witness :
  nrows (drop_duplicates visits) + duplicate_rows (assess_data_quality exact_pandas visits)
  = nrows visits
  /\ (0 < nrows visits -> 0 < nrows (drop_duplicates visits))
  /\ duplicate_rows (assess_data_quality exact_pandas visits) <= nrows visits - 1.
Proof. apply (drop_duplicates_row_count exact_pandas visits). repeat constructor. Defined.

Lemma remove_duplicates_logged_witness :
  let removed := nrows visits - nrows (drop_duplicates visits) in
  remove_duplicates_step (shape visits) (duplicated_sum visits) [visits] 0 []
  = ([visits] ++ [drop_duplicates visits], length [visits],
     [] ++ if 0 <? removed then [RemovedDuplicates removed] else []).
Proof.
  apply (remove_duplicates_logged [visits] 0 visits []).
  - reflexivity.
  - repeat constructor.
Defined.

Lemma cleaned_table_has_no_duplicates_witness :
  duplicate_rows (assess_data_quality exact_pandas (drop_duplicates visits)) = 0
  /\ duplicate_rows (assess_data_quality exact_pandas
       (result_frame (clean_data exact_pandas [visits] 0
          (operations_of true false false true) None (3 # 2)))) = 0.
Proof.
  apply (cleaned_table_has_no_duplicates exact_pandas [visits] 0 visits
           (operations_of true false false true) None (3 # 2)).
  - reflexivity.
  - repeat constructor.
  - vm_compute. reflexivity.
  - vm_compute. reflexivity.
  - vm_compute. reflexivity.
Defined.

(** The fill can make two rows equal that were not: the guarantee above
    does not extend to runs that fill. *)
Example fill_missing_creates_duplicates :
  let t := [mkSeries "a" (FloatCol [Some 1%Q; Some 1%Q]);
            mkSeries "b" (FloatCol [Some 2%Q; None])] in
  duplicate_rows (assess_data_quality exact_pandas t) = 0
  /\ duplicate_rows (assess_data_quality exact_pandas
       (result_frame (clean_data exact_pandas [t] 0
          (operations_of true true false false) (Some Mean) (3 # 2)))) = 1.
Proof. vm_compute. done. Qed.

Lemma clean_data_returned_table_witness :
  let res := clean_data exact_pandas [readings] 0
               (operations_of false true true false) (Some Mean) (3 # 2) in
  let res' := clean_data exact_pandas [readings] 0
                (operations_of true true true false) (Some Mean) (3 # 2) in
  (res.1.2 = 0
   /\ result_store res
      = <[0 := clean_frame exact_pandas readings
                 (operations_of false true true false) (Some Mean) (3 # 2)]> [readings])
  /\ (length [readings] <= res'.1.2 /\ res'.1.2 < length (result_store res')).
Proof.
  cbv zeta. split.
  - apply (clean_data_returned_table exact_pandas [readings] 0 readings
             (operations_of false true true false) (Some Mean) (3 # 2) eq_refl);
      vm_compute; reflexivity.
  - apply (clean_data_returned_table exact_pandas [readings] 0 readings
             (operations_of true true true false) (Some Mean) (3 # 2) eq_refl).
    vm_compute. reflexivity.
Defined.

Lemma clean_data_other_tables_witness :
  let h' := result_store (clean_data exact_pandas [people; readings] 1
                            (operations_of true true true true) (Some Mode) (3 # 2)) in
  length [people; readings] <= length h'
  /\ forall r d, r <> 1 -> [people; readings] !! r = Some d -> h' !! r = Some d.
Proof.
  apply (clean_data_other_tables exact_pandas [people; readings] 1 readings
           (operations_of true true true true) (Some Mode) (3 # 2)).
  reflexivity.
Defined.

Lemma fill_keeps_present_values_witness :
  cells (fill_series exact_pandas (Some Median) (column survey "score")) !! 2
  = Some (Some (VFloat 5%Q)).
Proof.
  apply (fill_keeps_present_values exact_pandas (Some Median) (column survey "score") 2
           (VFloat 5%Q)).
  reflexivity.
Defined.

Lemma mode_fill_uses_column_values_witness :
  In (VStr "a") (present_cells (column survey "town")).
Proof.
  apply (mode_fill_uses_column_values exact_pandas (Some Mean) (column survey "town")
           (VStr "a")).
  - reflexivity.
  - discriminate.
  - vm_compute. tauto.
Defined.

Lemma fill_missing_step_by_column_witness :
  fill_missing_step exact_pandas (Some Mode) [survey] 0 []
  = (<[0 := map_columns (fill_series exact_pandas (Some Mode)) survey]> [survey],
     [] ++ flat_map (fun s => fill_entries exact_pandas (Some Mode) (name s) (data s)) survey).
Proof.
  apply (fill_missing_step_by_column exact_pandas (Some Mode) [survey] 0 survey []).
  - reflexivity.
  - vm_compute. repeat (apply NoDup_cons; split;
      [intros Hin; repeat (apply elem_of_cons in Hin as [Hin|Hin]; [discriminate|]);
       by apply elem_of_nil in Hin|]). apply NoDup_nil_2.
Defined.

Lemma fill_missing_twice_witness :
  let ops := operations_of false true false false in
  let once := result_frame (clean_data exact_pandas [survey] 0 ops
                              (Some Median) (3 # 2)) in
  result_frame (clean_data exact_pandas [once] 0 ops (Some Median) (3 # 2)) = once
  /\ result_changes (clean_data exact_pandas [once] 0 ops (Some Median) (3 # 2)) = [].
Proof.
  cbv zeta.
  apply (fill_missing_twice exact_pandas [survey] _ 0 0 survey
           (operations_of false true false false) (Some Median) (3 # 2)).
  - reflexivity.
  - vm_compute. repeat (apply NoDup_cons; split;
      [intros Hin; repeat (apply elem_of_cons in Hin as [Hin|Hin]; [discriminate|]);
       by apply elem_of_nil in Hin|]). apply NoDup_nil_2.
  - vm_compute. reflexivity.
  - vm_compute. reflexivity.
  - vm_compute. reflexivity.
  - vm_compute. reflexivity.
  - reflexivity.
Defined.

Lemma convert_dates_twice_witness :
  let ops := operations_of false false true false in
  let once := result_frame (clean_data exact_pandas [readings] 0 ops None (3 # 2)) in
  result_frame (clean_data exact_pandas [once] 0 ops None (3 # 2)) = once
  /\ result_changes (clean_data exact_pandas [once] 0 ops None (3 # 2)) = [].
Proof.
  cbv zeta.
  apply (convert_dates_twice exact_pandas [readings] _ 0 0 readings
           (operations_of false false true false) None (3 # 2)).
  - reflexivity.
  - vm_compute. repeat (apply NoDup_cons; split;
      [intros Hin; repeat (apply elem_of_cons in Hin as [Hin|Hin]; [discriminate|]);
       by apply elem_of_nil in Hin|]). apply NoDup_nil_2.
  - vm_compute. reflexivity.
  - vm_compute. reflexivity.
  - vm_compute. reflexivity.
  - vm_compute. reflexivity.
  - reflexivity.
Defined.

Lemma outliers_leave_no_missing_witness :
  dict_get (missing_values (assess_data_quality exact_pandas
    (result_frame (clean_data exact_pandas [gauge] 0
       (operations_of false false false true) None (3 # 2))))) "x" = Some 0.
Proof.
  apply (outliers_leave_no_missing exact_pandas [gauge] 0 gauge
           (operations_of false false false true) None (3 # 2)
           (mkSeries "x" (FloatCol [Some 1%Q; Some 2%Q; Some 3%Q]))).
  - reflexivity.
  - vm_compute. repeat (apply NoDup_cons; split;
      [intros Hin; repeat (apply elem_of_cons in Hin as [Hin|Hin]; [discriminate|]);
       by apply elem_of_nil in Hin|]). apply NoDup_nil_2.
  - vm_compute. reflexivity.
  - vm_compute. apply list_elem_of_here.
  - reflexivity.
Defined.

Lemma summary_entries_witness :
  let res := clean_data exact_pandas [gauge] 0
               (operations_of true true false true) (Some Mean) (3 # 2) in
  (forall a b, In (ShapeChanged a b) (result_changes res) <->
     a = shape gauge /\ b = shape (result_frame res)
     /\ nrows (result_frame res) < nrows gauge)
  /\ ncols (result_frame res) = ncols gauge
  /\ (forall a b, In (MissingReduced a b) (result_changes res) <->
        a = total_missing gauge /\ b = total_missing (result_frame res) /\ b < a).
Proof.
  apply (summary_entries exact_pandas [gauge] 0 gauge
           (operations_of true true false true) (Some Mean) (3 # 2)).
  reflexivity.
Defined.

Lemma no_changes_means_unchanged_witness :
  result_frame (clean_data exact_pandas [measurements] 0
                  (operations_of true true true false) (Some Mean) (3 # 2))
  = measurements.
Proof.
  apply (no_changes_means_unchanged exact_pandas [measurements] 0 measurements
           (operations_of true true true false) (Some Mean) (3 # 2)).
  - reflexivity.
  - vm_compute. apply NoDup_cons. split; [apply not_elem_of_nil | apply NoDup_nil_2].
  - repeat constructor.
  - vm_compute. reflexivity.
Defined.

Lemma numeric_columns_preserved_witness :
  column_names (select_dtypes_number
    (result_frame (clean_data exact_pandas [survey] 0
                     (operations_of true true true true) (Some Mode) (3 # 2))))
  = column_names (select_dtypes_number survey).
Proof.
  apply (numeric_columns_preserved exact_pandas [survey] 0 survey
           (operations_of true true true true) (Some Mode) (3 # 2)).
  - reflexivity.
  - vm_compute. repeat (apply NoDup_cons; split;
      [intros Hin; repeat (apply elem_of_cons in Hin as [Hin|Hin]; [discriminate|]);
       by apply elem_of_nil in Hin|]). apply NoDup_nil_2.
Defined.

Lemma total_missing_never_grows_witness :
  total_missing (result_frame (clean_data exact_pandas [survey] 0
                   (operations_of true true false true) (Some Median) (3 # 2)))
  <= total_missing survey.
Proof.
  apply (total_missing_never_grows exact_pandas [survey] 0 survey
           (operations_of true true false true) (Some Median) (3 # 2)).
  - reflexivity.
  - vm_compute. repeat (apply NoDup_cons; split;
      [intros Hin; repeat (apply elem_of_cons in Hin as [Hin|Hin]; [discriminate|]);
       by apply elem_of_nil in Hin|]). apply NoDup_nil_2.
  - vm_compute. reflexivity.
Defined.
